(** * Evaluation harness of the aluminium-alloy workshop notebook

    A shallow embedding of the functional code of
    [workshop_aluminium_alloys.ipynb]: the derived temper columns, the
    resampling strategies the notebook registers ([LeaveOneOut], [KFold]),
    the scoring function [r2_score], the evaluation function
    [cross_validation] and the comparison function [calc_R2s].

    Python exceptions are values of [exn]; a computation that may raise
    returns a [result].  The notebook's data frame [df] is a store that is
    threaded through the stateful code.  The numbers a table holds are
    kept as the rationals [Qc] they denote; the arithmetic of [r2_score] is
    done on binary64 floats, for which Rocq's primitive floats are used. *)

From Stdlib Require Import ZArith QArith Qcanon Ascii String List Lia.
From Stdlib Require Import Sorting.Sorted.
From Stdlib Require Import Floats.
From stdpp Require Import base tactics option list strings gmap.

Local Open Scope string_scope.

(** ** Python exceptions and results *)

Inductive exn : Type :=
| KeyError
| ValueError
| IndexError
| TypeError.

Inductive result (A : Type) : Type :=
| Ok (a : A)
| Raise (e : exn).

Arguments Ok {A} a.
Arguments Raise {A} e.

Definition rbind {A B : Type} (r : result A) (k : A -> result B) : result B :=
  match r with
  | Ok a => k a
  | Raise e => Raise e
  end.

Fixpoint rmapM {A B : Type} (f : A -> result B) (l : list A) : result (list B) :=
  match l with
  | [] => Ok []
  | x :: xs =>
      rbind (f x) (fun y => rbind (rmapM f xs) (fun ys => Ok (y :: ys)))
  end.

Definition is_ok {A : Type} (r : result A) : Prop := exists a, r = Ok a.

(** ** Derived temper columns

    The three lambdas of the notebook:
    [lambda x: x[:2] if x != "O" else x], [lambda x: x[0]] and
    [lambda x: int(x[1]) if len(x)>1 else 1]. *)

Module Temper.

(** [x[:n]] on a Python string: slicing never raises and clamps. *)
Fixpoint slice_to (n : nat) (x : string) : string :=
  match n, x with
  | S n', String c x' => String c (slice_to n' x')
  | _, _ => EmptyString
  end.

(** [x[i]] on a Python string, for [i >= 0]. *)
Fixpoint index (x : string) (i : nat) : result string :=
  match x, i with
  | EmptyString, _ => Raise IndexError
  | String c _, O => Ok (String c EmptyString)
  | String _ x', S i' => index x' i'
  end.

Definition is_digit (c : ascii) : bool :=
  (48 <=? nat_of_ascii c)%nat && (nat_of_ascii c <=? 57)%nat.

(** [int(s)] on a string of one character.  The characters of the model
    are the 8-bit characters of [ascii]; of these, [int] accepts the
    digits '0' .. '9' and no other. *)
Definition int_of_char (c : ascii) : result Z :=
  if is_digit c then Ok (Z.of_nat (nat_of_ascii c - 48)) else Raise ValueError.

(** [int(s)] restricted to the strings [x[1]] can return. *)
Definition int (s : string) : result Z :=
  match s with
  | String c EmptyString => int_of_char c
  | _ => Raise ValueError
  end.

Definition temper_truncated (x : string) : string :=
  if negb (String.eqb x "O") then slice_to 2 x else x.

Definition temper_c0 (x : string) : result string := index x 0.

Definition temper_c1 (x : string) : result Z :=
  if (1 <? String.length x)%nat then rbind (index x 1) int else Ok 1%Z.

End Temper.

(** ** Resampling strategies

    The notebook takes [LeaveOneOut] and [KFold] from scikit-learn's
    [model_selection]; the definitions follow the splitters' methods
    [__init__], [_iter_test_indices], [_iter_test_masks] and [split].
    Indices are positions [0 .. n_samples-1]. *)

Module Split.

(** [np.arange(n)] *)
Definition arange (n : nat) : list nat := seq 0 n.

(** [indices[start:stop]] *)
Definition slice {A : Type} (l : list A) (start stop : nat) : list A :=
  take (stop - start) (drop start l).

(** [mask = np.zeros(n, dtype=bool); mask[test_index] = True] *)
Definition test_mask (n : nat) (test_index : list nat) : list bool :=
  foldl (fun mask i => <[i := true]> mask) (replicate n false) test_index.

(** [indices[mask]] for a boolean mask. *)
Fixpoint select {A : Type} (l : list A) (mask : list bool) : list A :=
  match l, mask with
  | x :: l', b :: mask' => if b then x :: select l' mask' else select l' mask'
  | _, _ => []
  end.

(** [BaseCrossValidator.split]: one (train, test) pair for every test
    index array the strategy emits. *)
Definition split_masks (n : nat) (tests : list (list nat))
  : list (list nat * list nat) :=
  map (fun test_index =>
         let mask := test_mask n test_index in
         (select (arange n) (map negb mask), select (arange n) mask))
      tests.

Record KFold : Type := mkKFold { n_splits : Z }.

(** [KFold(n_splits=k)]: the constructor rejects [k <= 1]. *)
Definition KFold_init (k : Z) : result KFold :=
  if (k <=? 1)%Z then Raise ValueError else Ok (mkKFold k).

(** [fold_sizes = np.full(k, n // k); fold_sizes[: n % k] += 1] *)
Definition fold_sizes (k n : nat) : list nat :=
  let base := replicate k (n / k) in
  map S (take (n mod k) base) ++ drop (n mod k) base.

Fixpoint kfold_iter (indices : list nat) (current : nat) (sizes : list nat)
  : list (list nat) :=
  match sizes with
  | [] => []
  | fold_size :: rest =>
      slice indices current (current + fold_size)
        :: kfold_iter indices (current + fold_size) rest
  end.

Definition KFold_iter_test_indices (kf : KFold) (n_samples : nat)
  : list (list nat) :=
  kfold_iter (arange n_samples) 0 (fold_sizes (Z.to_nat (n_splits kf)) n_samples).

(** [KFold.split]: rejects more folds than samples. *)
Definition KFold_split (kf : KFold) (n_samples : nat)
  : result (list (list nat * list nat)) :=
  if (Z.of_nat n_samples <? n_splits kf)%Z then Raise ValueError
  else Ok (split_masks n_samples (KFold_iter_test_indices kf n_samples)).

(** [LeaveOneOut.split]: rejects [n_samples <= 1], else one test index
    per sample, [range(n_samples)]. *)
Definition LeaveOneOut_split (n_samples : nat)
  : result (list (list nat * list nat)) :=
  if (n_samples <=? 1)%nat then Raise ValueError
  else Ok (split_masks n_samples (map (fun i => [i]) (arange n_samples))).

(** Consecutive runs of indices of the given sizes, from [current] on:
    what index-ordered folds look like. *)
Fixpoint runs (current : nat) (sizes : list nat) : list (list nat) :=
  match sizes with
  | [] => []
  | sz :: rest => seq current sz :: runs (current + sz) rest
  end.

(** A partition of [n] rows whose test rows are a run of consecutive
    indices that leaves some row out, and whose train rows are all the
    others. *)
Definition proper_part (n : nat) (p : list nat * list nat) : Prop :=
  exists cur sz,
    p = (List.filter (fun i => negb (bool_decide (i ∈ seq cur sz))) (seq 0 n),
         seq cur sz) /\
    (cur + sz <= n)%nat /\ (sz < n)%nat.

Inductive splitter : Type :=
| LeaveOneOut
| KFoldCV (kf : KFold).

Definition split (v : splitter) (n_samples : nat)
  : result (list (list nat * list nat)) :=
  match v with
  | LeaveOneOut => LeaveOneOut_split n_samples
  | KFoldCV kf => KFold_split kf n_samples
  end.

(** Constructing [KFold(k)] and running it on [n] rows. *)
Definition run_KFold (k : Z) (n : nat) : result (list (list nat * list nat)) :=
  rbind (KFold_init k) (fun kf => KFold_split kf n).

End Split.

(** ** Scoring: [sklearn.metrics.r2_score] with its default arguments

    The function works on float64 arrays.  The order in which numpy adds
    the elements of an array depends on its length and on the build
    (pairwise summation in blocks), so the summation [np_sum] is a
    parameter of the definitions. *)

Module Metrics.

(** A Python float. *)
Definition pyfloat : Type := float.

(** The exact sum of a list of numbers. *)
Definition qsum (l : list Qc) : Qc := foldr Qcplus 0%Qc l.

(** The float64 nearest to an integer. *)
Definition float_of_Z (z : Z) : float :=
  SF2Prim (binary_normalize prec emax z 0 false).

Definition is_power_of_two (d : Z) : bool := (d =? 2 ^ Z.log2 d)%Z.

(** The conversion of a number to float64.  The values of a float64
    column are rationals [n / 2^k] and are converted exactly; the values
    of an int64 column are integers and are rounded to the nearest
    float64.  No column holds another rational; on those the conversion
    is the quotient of the floats of numerator and denominator. *)
Definition as_float64 (q : Qc) : float :=
  let n := Qnum q in
  let d := Zpos (Qden q) in
  if is_power_of_two d then Z.ldexp (float_of_Z n) (- Z.log2 d)
  else (float_of_Z n / float_of_Z d)%float.

(** A number that converts to a finite float64. *)
Definition in_range (q : Qc) : Prop := is_finite (as_float64 q) = true.

(** [x != 0]: true of [nan] and of the infinities. *)
Definition nonzero (x : float) : bool := negb (PrimFloat.eqb x 0).

Definition is_zero (x : float) : Prop := PrimFloat.eqb x 0 = true.

(** What every order of summation does: adding up zeros gives zero. *)
Definition sums_zeros (np_sum : list float -> float) : Prop :=
  forall a, a <> [] -> Forall is_zero a -> is_zero (np_sum a).

Section Sum.

Variable np_sum : list float -> float.

(** [np.average(a)]: the sum divided by the number of elements. *)
Definition average (a : list float) : float :=
  (np_sum a / float_of_Z (Z.of_nat (length a)))%float.

Definition sq (x : float) : float := (x * x)%float.

(** [((y_true - y_pred) ** 2).sum()] *)
Definition ss_res (y_true y_pred : list float) : float :=
  np_sum (zip_with (fun t p => sq (t - p)%float) y_true y_pred).

(** [((y_true - np.average(y_true)) ** 2).sum()] *)
Definition ss_tot (y_true : list float) : float :=
  let mean := average y_true in
  np_sum (map (fun t => sq (t - mean)%float) y_true).

(** [check_consistent_length] and [check_array] raise the value error for
    sequences of different lengths, for empty ones and for values that
    are not finite floats; fewer than two samples give [nan] (with a
    warning); then the score is assembled as [force_finite=True] has it. *)
Definition r2_score (y_true y_pred : list Qc) : result pyfloat :=
  if negb (length y_true =? length y_pred)%nat then Raise ValueError
  else if (length y_true =? 0)%nat then Raise ValueError
  else
    let yt := map as_float64 y_true in
    let yp := map as_float64 y_pred in
    if negb (forallb is_finite yt && forallb is_finite yp) then Raise ValueError
    else if (length y_pred <? 2)%nat then Ok nan
    else
      let numerator := ss_res yt yp in
      let denominator := ss_tot yt in
      if nonzero denominator && nonzero numerator
      then Ok (1 - numerator / denominator)%float
      else if nonzero numerator then Ok 0%float
      else Ok 1%float.

End Sum.

End Metrics.

(** ** Data frames

    A [pandas.DataFrame] with the default [RangeIndex]: row labels are the
    positions [0 .. nrows-1], as [pd.read_excel] produces them.  A column
    is numeric or holds strings (dtype [object]); column labels are taken
    to be distinct, a label denoting the first column that carries it. *)

Module Frame.

Local Open Scope Qc_scope.

Inductive column : Type :=
| NumCol (v : list Qc)
| ObjCol (v : list string).

Inductive cell : Type :=
| Num (q : Qc)
| Str (s : string).

(** The values of a column or of a selection of its rows. *)
Definition Series : Type := list cell.

Definition cells (c : column) : Series :=
  match c with
  | NumCol v => map Num v
  | ObjCol v => map Str v
  end.

Definition col_len (c : column) : nat := length (cells c).

Record DataFrame : Type := mkDF {
  nrows : nat;
  cols : list (string * column)
}.

Definition wf_frame (d : DataFrame) : Prop :=
  Forall (fun nc => col_len nc.2 = nrows d) (cols d).

Fixpoint assoc {V : Type} (k : string) (l : list (string * V)) : option V :=
  match l with
  | [] => None
  | (k', v) :: l' => if String.eqb k k' then Some v else assoc k l'
  end.

Definition has_col (d : DataFrame) (name : string) : Prop :=
  is_Some (assoc name (cols d)).

Definition get_col (d : DataFrame) (name : string) : result column :=
  match assoc name (cols d) with
  | Some c => Ok c
  | None => Raise KeyError
  end.

(** [data.loc[:, y_col]] *)
Definition loc_col (d : DataFrame) (y_col : string) : result Series :=
  rbind (get_col d y_col) (fun c => Ok (cells c)).

(** [data.loc[:, x_cols]] with a list of labels: a new frame. *)
Definition loc_cols (d : DataFrame) (x_cols : list string) : result DataFrame :=
  rbind (rmapM (fun name => rbind (get_col d name) (fun c => Ok (name, c))) x_cols)
        (fun cs => Ok (mkDF (nrows d) cs)).

Definition check_labels (d : DataFrame) (index : list nat) : result unit :=
  if forallb (fun i => (i <? nrows d)%nat) index then Ok tt else Raise KeyError.

Definition take_rows {A : Type} (index : list nat) (v : list A) : result (list A) :=
  rmapM (fun i => match v !! i with
                  | Some x => Ok x
                  | None => Raise KeyError
                  end) index.

Definition col_rows (index : list nat) (c : column) : result column :=
  match c with
  | NumCol v => rbind (take_rows index v) (fun v' => Ok (NumCol v'))
  | ObjCol v => rbind (take_rows index v) (fun v' => Ok (ObjCol v'))
  end.

(** [data.loc[index, y_col]] with an array of row labels. *)
Definition loc_rows_col (d : DataFrame) (index : list nat) (y_col : string)
  : result Series :=
  rbind (check_labels d index) (fun _ =>
  rbind (get_col d y_col) (fun c => take_rows index (cells c))).

(** [frame.loc[index, :]] and [frame.loc[index]]. *)
Definition loc_rows (d : DataFrame) (index : list nat) : result DataFrame :=
  rbind (check_labels d index) (fun _ =>
  rbind (rmapM (fun nc => rbind (col_rows index nc.2) (fun c => Ok (nc.1, c))) (cols d))
        (fun cs => Ok (mkDF (length index) cs))).

(** *** [pd.get_dummies] *)

Definition is_numeric (nc : string * column) : bool :=
  match nc.2 with
  | NumCol _ => true
  | ObjCol _ => false
  end.

Fixpoint insert_cat (s : string) (l : list string) : list string :=
  match l with
  | [] => [s]
  | x :: l' =>
      match String.compare s x with
      | Eq => l
      | Lt => s :: l
      | Gt => x :: insert_cat s l'
      end
  end.

(** The distinct values of a column, sorted. *)
Definition categories (v : list string) : list string := foldr insert_cat [] v.

Definition indicator (v : list string) (cat : string) : column :=
  NumCol (map (fun x => if String.eqb x cat then 1 else 0) v).

Definition dummies (nc : string * column) : list (string * column) :=
  match nc.2 with
  | NumCol _ => []
  | ObjCol v => map (fun cat => (nc.1 ++ "_" ++ cat, indicator v cat)) (categories v)
  end.

(** Numeric columns pass through; every string column is replaced by one
    indicator column per category, named [<col>_<value>].  A frame without
    columns leaves nothing to concatenate, which is a value error. *)
Definition get_dummies (d : DataFrame) : result DataFrame :=
  match cols d with
  | [] => Raise ValueError
  | _ =>
      Ok (mkDF (nrows d)
            (List.filter is_numeric (cols d) ++ flat_map dummies (cols d)))
  end.

(** *** The store: the notebook's [df]

    Code that reads or writes the data frame it is given is a function of
    the store that returns the store it leaves behind. *)

Definition M (A : Type) : Type := DataFrame -> result A * DataFrame.

Definition ret {A : Type} (a : A) : M A := fun df => (Ok a, df).

Definition bind {A B : Type} (m : M A) (k : A -> M B) : M B :=
  fun df =>
    match m df with
    | (Ok a, df') => k a df'
    | (Raise e, df') => (Raise e, df')
    end.

(** A computation that does not touch the store. *)
Definition lift {A : Type} (r : result A) : M A := fun df => (r, df).

(** An expression over the store, such as [data.loc[...]]. *)
Definition read {A : Type} (f : DataFrame -> result A) : M A :=
  fun df => (f df, df).

(** A computation that leaves every store as it found it. *)
Definition read_only {A : Type} (m : M A) : Prop :=
  forall df, (m df).2 = df.

Fixpoint assoc_set {V : Type} (k : string) (v : V) (l : list (string * V))
  : list (string * V) :=
  match l with
  | [] => [(k, v)]
  | (k', v') :: l' =>
      if String.eqb k k' then (k, v) :: l' else (k', v') :: assoc_set k v l'
  end.

(** [df[name] = values] *)
Definition setitem (name : string) (c : column) : M unit :=
  fun df =>
    if (col_len c =? nrows df)%nat
    then (Ok tt, mkDF (nrows df) (assoc_set name c (cols df)))
    else (Raise ValueError, df).

(** [series.apply(f)] for a function on strings. *)
Definition apply {B : Type} (f : string -> result B) (c : column)
  : result (list B) :=
  match c with
  | ObjCol v => rmapM f v
  | NumCol v => rmapM (fun _ => Raise TypeError) v
  end.

End Frame.

Declare Scope store_scope.
Delimit Scope store_scope with store.
Notation "x <- m ;; k" := (Frame.bind m (fun x => k))
  (at level 100, m at next level, right associativity) : store_scope.

(** ** The notebook cells that add the derived temper columns to [df] *)

Module Cells.
Import Frame.
Local Open Scope store_scope.

(** [df["temper_truncated"] = df["temper"].apply(lambda x: ...)] *)
Definition add_temper_truncated : M unit :=
  temper <- read (fun df => get_col df "temper") ;;
  values <- lift (apply (fun x => Ok (Temper.temper_truncated x)) temper) ;;
  setitem "temper_truncated" (ObjCol values).

(** [df["temper_c0"] = df['temper'].apply(lambda x: x[0])] *)
Definition add_temper_c0 : M unit :=
  temper <- read (fun df => get_col df "temper") ;;
  values <- lift (apply Temper.temper_c0 temper) ;;
  setitem "temper_c0" (ObjCol values).

(** [df["temper_c1"] = df['temper'].apply(lambda x: int(x[1]) if len(x)>1 else 1)] *)
Definition add_temper_c1 : M unit :=
  temper <- read (fun df => get_col df "temper") ;;
  values <- lift (apply Temper.temper_c1 temper) ;;
  setitem "temper_c1" (NumCol (map (fun z => Q2Qc (inject_Z z)) values)).

(** The three assignments in the order the notebook runs them. *)
Definition add_derived_columns : M unit :=
  _ <- add_temper_truncated ;;
  _ <- add_temper_c0 ;;
  add_temper_c1.

End Cells.

(** ** The evaluation harness

    [RandomForestRegressor] is a parameter: [fit] trains a model from a
    seed, a feature frame and the targets, [predict] returns one
    prediction per row of a frame; both may raise.  [float_of_string] is
    the conversion of a string to a number that [r2_score] applies to
    targets of dtype [object], and [np_sum] the summation of numpy. *)

Module Harness.
Import Frame Split Metrics.
Local Open Scope store_scope.

Section Learner.

Variable model : Type.
Variable fit : Z -> DataFrame -> Series -> result model.
Variable predict : model -> DataFrame -> result (list Qc).
Variable float_of_string : string -> option Qc.
Variable np_sum : list float -> float.

(** The dict of the splitters built at the start of every call. *)
Definition VALIDATORS : result (gmap string splitter) :=
  rbind (KFold_init 5) (fun k5 =>
  rbind (KFold_init 15) (fun k15 =>
  rbind (KFold_init 20) (fun k20 =>
  Ok (<["20foldcv" := KFoldCV k20]>
      (<["15foldcv" := KFoldCV k15]>
      (<["5foldcv" := KFoldCV k5]>
      (<["loocv" := LeaveOneOut]> ∅))))))).

(** [d[key]] on a Python dict. *)
Definition getitem {V : Type} (d : gmap string V) (key : string) : result V :=
  match d !! key with
  | Some v => Ok v
  | None => Raise KeyError
  end.

(** [np.concatenate(arrays)] *)
Definition np_concatenate {A : Type} (arrays : list (list A)) : result (list A) :=
  match arrays with
  | [] => Raise ValueError
  | _ => Ok (concat arrays)
  end.

(** The body of the [for train_index, test_index in ...] loop, with the
    two lists it appends to. *)
Fixpoint cv_loop (model_input : DataFrame) (y_col : string) (random_state : Z)
    (parts : list (list nat * list nat))
    (y_true : list Series) (y_pred : list (list Qc))
  : M (list Series * list (list Qc)) :=
  match parts with
  | [] => ret (y_true, y_pred)
  | (train_index, test_index) :: rest =>
      yt <- read (fun data => loc_rows_col data test_index y_col) ;;
      x_train <- lift (loc_rows model_input train_index) ;;
      y_train <- read (fun data => loc_rows_col data train_index y_col) ;;
      random_forest <- lift (fit random_state x_train y_train) ;;
      x_test <- lift (loc_rows model_input test_index) ;;
      yp <- lift (predict random_forest x_test) ;;
      cv_loop model_input y_col random_state rest (y_true ++ [yt]) (y_pred ++ [yp])
  end.

Definition cross_validation (x_cols : list string) (y_col : string)
    (random_state : Z) (validator : string) : M (Series * list Qc) :=
  validators <- lift VALIDATORS ;;
  selected <- read (fun data => loc_cols data x_cols) ;;
  model_input <- lift (get_dummies selected) ;;
  if String.eqb validator "insample" then
    y_true <- read (fun data => loc_col data y_col) ;;
    random_forest <- lift (fit random_state model_input y_true) ;;
    y_pred <- lift (predict random_forest model_input) ;;
    ret (y_true, y_pred)
  else
    splitter <- lift (getitem validators validator) ;;
    parts <- lift (split splitter (nrows model_input)) ;;
    lists <- cv_loop model_input y_col random_state parts [] [] ;;
    y_true <- lift (np_concatenate lists.1) ;;
    y_pred <- lift (np_concatenate lists.2) ;;
    ret (y_true, y_pred).

(** The partitions the strategy registered as [validator] emits on [n]
    rows. *)
Definition emitted (validator : string) (n : nat)
  : result (list (list nat * list nat)) :=
  rbind VALIDATORS (fun validators =>
  rbind (getitem validators validator) (fun splitter => split splitter n)).

(** What one partition contributes to the predictions: fit on its train
    rows, predict its test rows. *)
Definition fit_predict (model_input : DataFrame) (targets : Series)
    (random_state : Z) (part : list nat * list nat) : result (list Qc) :=
  rbind (loc_rows model_input part.1) (fun x_train =>
  rbind (take_rows part.1 targets) (fun y_train =>
  rbind (fit random_state x_train y_train) (fun random_forest =>
  rbind (loc_rows model_input part.2) (fun x_test =>
  predict random_forest x_test)))).

(** The learner fits and predicts on the whole of [model_input] and on
    every partition that a registered strategy emits for it. *)
Definition learns (model_input : DataFrame) (targets : Series)
    (random_state : Z) : Prop :=
  is_ok (rbind (fit random_state model_input targets)
               (fun random_forest => predict random_forest model_input)) /\
  forall validator parts,
    emitted validator (nrows model_input) = Ok parts ->
    is_ok (rmapM (fit_predict model_input targets random_state) parts).

Definition float_of_cell (c : cell) : result Qc :=
  match c with
  | Num q => Ok q
  | Str s => match float_of_string s with
             | Some q => Ok q
             | None => Raise ValueError
             end
  end.

(** [r2_score(y_pred=y_pred, y_true=y_true)] on the harness's output. *)
Definition score (y_true : Series) (y_pred : list Qc) : result pyfloat :=
  rbind (rmapM float_of_cell y_true) (fun yt => r2_score np_sum yt y_pred).

(** The strategies [calc_R2s] runs, with their display names, in the
    order of the dict [validators]. *)
Definition validators : list (string * string) :=
  [ ("insample", "In Sample");
    ("loocv", "Leave One Out CV");
    ("5foldcv", "5 Fold CV");
    ("15foldcv", "15 Fold CV");
    ("20foldcv", "20 Fold CV") ].

Fixpoint calc_loop (x_cols : list string) (y_col : string)
    (items : list (string * string)) (r2_values : gmap string pyfloat)
  : M (gmap string pyfloat) :=
  match items with
  | [] => ret r2_values
  | (validator, name) :: rest =>
      ys <- cross_validation x_cols y_col 1234 validator ;;
      r2_value <- lift (score ys.1 ys.2) ;;
      calc_loop x_cols y_col rest (<[name := r2_value]> r2_values)
  end.

Definition calc_R2s (x_cols : list string) (y_col : string)
  : M (gmap string pyfloat) :=
  calc_loop x_cols y_col validators ∅.

End Learner.

End Harness.

(** ** The column lists of the notebook

    [composition_cols] is computed once, from the columns the table has
    when that cell runs; the three lists of input columns extend it. *)

Module Columns.
Import Frame.

(** [sub in s] on Python strings. *)
Fixpoint str_in (sub s : string) : bool :=
  String.prefix sub s ||
  match s with
  | EmptyString => false
  | String _ s' => str_in sub s'
  end.

(** [df.columns] *)
Definition columns (df : DataFrame) : list string := map fst (cols df).

(** [[col for col in df.columns if "%" in col]] *)
Definition composition_cols (df : DataFrame) : list string :=
  List.filter (fun col => str_in "%" col) (columns df).

Definition paper_x_cols (composition_cols : list string) : list string :=
  composition_cols ++ ["temper"].

Definition trunc_x_cols (composition_cols : list string) : list string :=
  composition_cols ++ ["temper_truncated"].

Definition split_x_cols (composition_cols : list string) : list string :=
  composition_cols ++ ["temper_c0"; "temper_c1"].

End Columns.

(** ** The final overview: one row of scores per way of using the temper *)

Module Overview.
Import Frame Metrics Columns.
Local Open Scope store_scope.

Section Learner.

Variable model : Type.
Variable fit : Z -> DataFrame -> Series -> result model.
Variable predict : model -> DataFrame -> result (list Qc).
Variable float_of_string : string -> option Qc.
Variable np_sum : list float -> float.

Definition cases : list string := ["No Temper"; "Temper"; "Truncated"; "Split"].

(** [zip(cases, [composition_cols, paper_x_cols, trunc_x_cols, split_x_cols])] *)
Definition case_columns (composition_cols : list string)
  : list (string * list string) :=
  zip cases [ composition_cols; paper_x_cols composition_cols;
              trunc_x_cols composition_cols; split_x_cols composition_cols ].

Fixpoint scores_loop (y_col : string) (items : list (string * list string))
    (model_scores : gmap string (gmap string pyfloat))
  : M (gmap string (gmap string pyfloat)) :=
  match items with
  | [] => ret model_scores
  | (case, x_cols) :: rest =>
      r2s <- Harness.calc_R2s model fit predict float_of_string np_sum
               x_cols y_col ;;
      scores_loop y_col rest (<[case := r2s]> model_scores)
  end.

(** The dict [model_scores] after the loop over the four cases. *)
Definition model_scores (composition_cols : list string) (y_col : string)
  : M (gmap string (gmap string pyfloat)) :=
  scores_loop y_col (case_columns composition_cols) ∅.

End Learner.

End Overview.

(** ** The size of the temper groups

    [temper_counts] and the share of rows in small groups.  The order that
    [sort_values] gives to groups of equal size is not fixed by pandas, so
    the sort is a parameter. *)

Module Counts.
Import Frame Metrics.

Fixpoint insert_num (q : Qc) (l : list Qc) : list Qc :=
  match l with
  | [] => [q]
  | x :: l' =>
      match (q ?= x)%Qc with
      | Eq => l
      | Lt => q :: l
      | Gt => x :: insert_num q l'
      end
  end.

(** The group keys of [groupby]: the distinct values, sorted. *)
Definition group_keys (c : column) : list cell :=
  match c with
  | ObjCol v => map Str (categories v)
  | NumCol v => map Num (foldr insert_num [] v)
  end.

Definition cell_eqb (a b : cell) : bool :=
  match a, b with
  | Num p, Num q => Qc_eq_bool p q
  | Str s, Str t => String.eqb s t
  | _, _ => false
  end.

(** The number of rows of a group. *)
Definition group_size (key : cell) (s : Series) : nat :=
  length (List.filter (cell_eqb key) s).

(** [df[["alloy name", "temper"]].groupby("temper").count()
      .rename(columns={"alloy name": "count"})]: one row per temper, with
    the number of alloy names in the group. *)
Definition groupby_count (df : DataFrame) : result (list (cell * nat)) :=
  rbind (loc_cols df ["alloy name"; "temper"]) (fun selected =>
  rbind (get_col selected "temper") (fun temper =>
  Ok (map (fun key => (key, group_size key (cells temper))) (group_keys temper)))).

Section Sort.

(** [.sort_values(by="count", ascending=False)] *)
Variable sort_values : list (cell * nat) -> list (cell * nat).

Definition temper_counts (df : DataFrame) : result (list (cell * nat)) :=
  rbind (groupby_count df) (fun counts => Ok (sort_values counts)).

End Sort.

Definition max_count : nat := 3.

(** [temper_counts[temper_counts["count"]==i].shape[0]] *)
Definition groups_of_size (i : nat) (temper_counts : list (cell * nat)) : nat :=
  length (List.filter (fun g => (g.2 =? i)%nat) temper_counts).

(** The loop [for i in range(1, max_count+1): rows += i * ...]. *)
Definition small_group_rows (temper_counts : list (cell * nat)) : nat :=
  foldl (fun rows i => (rows + i * groups_of_size i temper_counts)%nat) 0%nat
        (seq 1 max_count).

End Counts.

(** ** Sample data

    Small frames and a simple learner on which the statements below are
    evaluated. *)

Module Samples.
Import Frame Metrics.

Definition qz (z : Z) : Qc := Q2Qc (inject_Z z).

(** A learner that predicts the number of rows it was trained on. *)
Definition count_fit (_ : Z) (x : DataFrame) (_ : Series) : result nat :=
  Ok (nrows x).

Definition count_predict (m : nat) (x : DataFrame) : result (list Qc) :=
  Ok (replicate (nrows x) (qz (Z.of_nat m))).

Definition no_float (_ : string) : option Qc := None.

(** The elements added one after the other, as numpy adds the elements of
    an array shorter than 8. *)
Definition sum_in_order (a : list float) : float :=
  fold_left PrimFloat.add a 0%float.

Definition temper_cycle (i : nat) : string :=
  match i mod 3 with
  | 0 => "T6"
  | 1 => "O"
  | _ => "H14"
  end%nat.

(** [n] alloys with one composition column, a temper and a target. *)
Definition alloys (n : nat) : DataFrame :=
  mkDF n [ ("Cu (%)", NumCol (map (fun i => qz (Z.of_nat (i mod 4))) (seq 0 n)));
           ("temper", ObjCol (map temper_cycle (seq 0 n)));
           ("TYS", NumCol (map (fun i => qz (Z.of_nat (100 + 7 * i))) (seq 0 n))) ].

(** The feature columns of [alloys n]. *)
Definition features (n : nat) : DataFrame :=
  mkDF n [ ("Cu (%)", NumCol (map (fun i => qz (Z.of_nat (i mod 4))) (seq 0 n)));
           ("temper", ObjCol (map temper_cycle (seq 0 n))) ].

Definition targets (n : nat) : list Qc :=
  map (fun i => qz (Z.of_nat (100 + 7 * i))) (seq 0 n).

(** The feature columns of [alloys n] after one-hot encoding, for
    [n >= 3]. *)
Definition encoded (n : nat) : DataFrame :=
  mkDF n [ ("Cu (%)", NumCol (map (fun i => qz (Z.of_nat (i mod 4))) (seq 0 n)));
           ("temper_H14", indicator (map temper_cycle (seq 0 n)) "H14");
           ("temper_O", indicator (map temper_cycle (seq 0 n)) "O");
           ("temper_T6", indicator (map temper_cycle (seq 0 n)) "T6") ].

(** A learner with small predictions: the number of rows it was trained
    on, at most 100. *)
Definition capped_predict (m : nat) (x : DataFrame) : result (list Qc) :=
  Ok (replicate (nrows x) (qz (Z.of_nat (Nat.min m 100)))).

(** The five folds of seven rows, and what the counting learner predicts
    for them. *)
Definition folds_5_of_7 : list (list nat * list nat) :=
  [ ([2; 3; 4; 5; 6], [0; 1]);
    ([0; 1; 4; 5; 6], [2; 3]);
    ([0; 1; 2; 3; 5; 6], [4]);
    ([0; 1; 2; 3; 4; 6], [5]);
    ([0; 1; 2; 3; 4; 5], [6]) ].

Definition counts_5_of_7 : list (list Qc) :=
  [ [qz 5; qz 5]; [qz 5; qz 5]; [qz 6]; [qz 6]; [qz 6] ].

(** Two alloys, the second with an empty temper code. *)
Definition blank_temper : DataFrame :=
  mkDF 2 [ ("temper", ObjCol ["T6"; ""]); ("TYS", NumCol [qz 250; qz 90]) ].

End Samples.

(** ** More sample data *)

Module MoreSamples.
Import Frame.

(** Five named alloys in three temper groups. *)
Definition named_alloys : DataFrame :=
  mkDF 5 [ ("alloy name", ObjCol ["1050"; "1060"; "2014"; "2024"; "6061"]);
           ("temper", ObjCol ["O"; "H14"; "T6"; "T4"; "T6"]) ].

Fixpoint insert_by_count (g : cell * nat) (l : list (cell * nat))
  : list (cell * nat) :=
  match l with
  | [] => [g]
  | h :: l' => if (h.2 <? g.2)%nat then g :: l else h :: insert_by_count g l'
  end.

(** A sort by decreasing count. *)
Definition sort_by_count (l : list (cell * nat)) : list (cell * nat) :=
  foldr insert_by_count [] l.

(** Twenty alloys after the three temper cells have run. *)
Definition derived_alloys : DataFrame :=
  (Cells.add_derived_columns (Samples.alloys 20)).2.

End MoreSamples.

(** * Properties *)

(** ** Results *)

Lemma rbind_ok {A B : Type} (r : result A) (k : A -> result B) (b : B) :
  rbind r k = Ok b -> exists a, r = Ok a /\ k a = Ok b.
Proof. destruct r as [a|e]; simpl; intros H; [eauto | discriminate]. Qed.

Lemma rmapM_length {A B : Type} (f : A -> result B) (l : list A) (l' : list B) :
  rmapM f l = Ok l' -> length l' = length l.
Proof.
  revert l'. induction l as [|x l IH]; simpl; intros l' H.
  - by inversion H.
  - destruct (f x) as [y|e]; simpl in H; [|discriminate].
    destruct (rmapM f l) as [ys|e]; simpl in H; [|discriminate].
    inversion H; subst. simpl. f_equal. by apply IH.
Qed.

Lemma rmapM_all_ok {A B : Type} (f : A -> result B) (g : A -> B) (l : list A) :
  Forall (fun x => f x = Ok (g x)) l -> rmapM f l = Ok (map g l).
Proof.
  induction 1 as [|x l Hx _ IH]; simpl; [done|].
  by rewrite Hx, IH.
Qed.

(** ** Temper columns *)

Lemma slice_to_2_substring (x : string) :
  Temper.slice_to 2 x = substring 0 2 x.
Proof. destruct x as [|c [|c' x]]; simpl; try done. by destruct x. Qed.

(** C5: [temper_truncated] is the first two characters of the temper, the
    code "O" passing through unchanged; [temper_c0] is the first
    character; [temper_c1] is the integer of the second character when
    there is one, and 1 otherwise. *)
Theorem temper_derived_columns :
  (forall x : string,
     Temper.temper_truncated x = if decide (x = "O") then x else substring 0 2 x) /\
  Temper.temper_truncated "T614" = "T6" /\
  Temper.temper_truncated "O" = "O" /\
  (forall (c : ascii) (x : string),
     Temper.temper_c0 (String c x) = Ok (String c EmptyString)) /\
  Temper.temper_c0 "T6" = Ok "T" /\
  Temper.temper_c0 "O" = Ok "O" /\
  (forall (c0 : ascii) (x : string),
     map (fun c1 => Temper.temper_c1 (String c0 (String c1 x)))
         (list_ascii_of_string "0123456789")
     = map Ok [0; 1; 2; 3; 4; 5; 6; 7; 8; 9]%Z) /\
  Temper.temper_c1 "T6" = Ok 6%Z /\
  Temper.temper_c1 "" = Ok 1%Z /\
  (forall c : ascii, Temper.temper_c1 (String c EmptyString) = Ok 1%Z) /\
  Temper.temper_c1 "O" = Ok 1%Z.
Proof.
  repeat split; try reflexivity.
  - intros x. unfold Temper.temper_truncated.
    destruct (String.eqb_spec x "O") as [->|Hne]; simpl.
    + reflexivity.
    + rewrite decide_False by done. apply slice_to_2_substring.
Qed.

Lemma assoc_In {V : Type} (k : string) (l : list (string * V)) (v : V) :
  Frame.assoc k l = Some v -> (k, v) ∈ l.
Proof.
  induction l as [|[k' v'] l IH]; simpl; [done|].
  destruct (String.eqb_spec k k') as [->|Hne]; intros H.
  - inversion H; subst. left.
  - right. by apply IH.
Qed.

Lemma assoc_set_other {V : Type} (k k' : string) (v : V) (l : list (string * V)) :
  k <> k' -> Frame.assoc k (Frame.assoc_set k' v l) = Frame.assoc k l.
Proof.
  intros Hne. induction l as [|[k0 v0] l IH]; simpl.
  - by rewrite (proj2 (String.eqb_neq k k')).
  - destruct (String.eqb_spec k' k0) as [->|Hne0]; simpl.
    + by rewrite (proj2 (String.eqb_neq k k0)).
    + by rewrite IH.
Qed.

Lemma wf_col_len (df : Frame.DataFrame) (name : string) (c : Frame.column) :
  Frame.wf_frame df -> Frame.get_col df name = Ok c ->
  Frame.col_len c = Frame.nrows df.
Proof.
  unfold Frame.wf_frame, Frame.get_col. intros Hwf Hget.
  destruct (Frame.assoc name (Frame.cols df)) as [c'|] eqn:Ha; [|discriminate].
  inversion Hget; subst c'. apply assoc_In in Ha.
  rewrite Forall_forall in Hwf. exact (Hwf _ Ha).
Qed.

Lemma temper_c0_blank (v : list string) :
  "" ∈ v -> rmapM Temper.temper_c0 v = Raise IndexError.
Proof.
  induction v as [|x v IH]; intros Hin.
  - by apply elem_of_nil in Hin.
  - destruct x as [|c x]; [reflexivity|].
    apply elem_of_cons in Hin as [Heq|Hin]; [discriminate|].
    simpl. by rewrite (IH Hin).
Qed.

(** C9, as the code has it: an empty temper code is rejected by none of
    the checks a dedicated error would need.  [temper_truncated] yields
    the empty string and [temper_c1] the default 1; only [temper_c0]
    fails, with the index error of [x[0]].  Run in the notebook's order on
    a table whose temper column holds an empty string, the
    [temper_truncated] column is stored before the [temper_c0] assignment
    fails. *)
Theorem blank_temper_reaches_temper_c0
    (df : Frame.DataFrame) (v : list string) :
  Frame.wf_frame df ->
  Frame.get_col df "temper" = Ok (Frame.ObjCol v) ->
  "" ∈ v ->
  Temper.temper_truncated "" = "" /\
  Temper.temper_c1 "" = Ok 1%Z /\
  Temper.temper_c0 "" = Raise IndexError /\
  Cells.add_derived_columns df =
    (Raise IndexError,
     Frame.mkDF (Frame.nrows df)
       (Frame.assoc_set "temper_truncated"
          (Frame.ObjCol (map Temper.temper_truncated v)) (Frame.cols df))).
Proof.
  intros Hwf Hget Hin. repeat split.
  pose proof (wf_col_len _ _ _ Hwf Hget) as Hlen.
  unfold Cells.add_derived_columns, Cells.add_temper_truncated.
  unfold Frame.bind at 1 2 3. unfold Frame.read at 1. rewrite Hget.
  unfold Frame.lift at 1. simpl Frame.apply.
  rewrite (rmapM_all_ok _ Temper.temper_truncated) by (by apply Forall_forall).
  unfold Frame.setitem.
  replace (Frame.col_len (Frame.ObjCol (map Temper.temper_truncated v)))
    with (Frame.nrows df)
    by (rewrite <- Hlen; unfold Frame.col_len; simpl; by rewrite !length_map).
  rewrite Nat.eqb_refl.
  unfold Cells.add_temper_c0, Frame.bind, Frame.read, Frame.lift.
  unfold Frame.get_col in *. simpl Frame.cols.
  rewrite assoc_set_other by discriminate.
  destruct (Frame.assoc "temper" (Frame.cols df)) as [c|]; [|discriminate].
  inversion Hget; subst c. simpl Frame.apply.
  by rewrite temper_c0_blank.
Qed.

Lemma blank_temper_reaches_temper_c0_witness :
  Temper.temper_truncated "" = "" /\
  Temper.temper_c1 "" = Ok 1%Z /\
  Temper.temper_c0 "" = Raise IndexError /\
  Cells.add_derived_columns Samples.blank_temper =
    (Raise IndexError,
     Frame.mkDF 2
       [ ("temper", Frame.ObjCol ["T6"; ""]);
         ("TYS", Frame.NumCol [Samples.qz 250; Samples.qz 90]);
         ("temper_truncated", Frame.ObjCol ["T6"; ""]) ]).
Proof.
  apply (blank_temper_reaches_temper_c0 Samples.blank_temper ["T6"; ""]).
  - repeat constructor.
  - reflexivity.
  - right. left.
Defined.

(** The empty temper code at the inputs of C9: the [temper_truncated]
    cell accepts it and stores an empty truncated code, and [temper_c1]
    returns a number for it. *)
Lemma blank_temper_is_accepted :
  Cells.add_temper_truncated Samples.blank_temper =
    (Ok tt,
     Frame.mkDF 2
       [ ("temper", Frame.ObjCol ["T6"; ""]);
         ("TYS", Frame.NumCol [Samples.qz 250; Samples.qz 90]);
         ("temper_truncated", Frame.ObjCol ["T6"; ""]) ]) /\
  Temper.temper_c1 "" = Ok 1%Z.
Proof. split; reflexivity. Qed.

(** ** Resampling strategies *)

Section SplitFacts.
Import Split.

Lemma select_map {A : Type} (f : A -> bool) (l : list A) :
  select l (map f l) = List.filter f l.
Proof. induction l as [|x l IH]; simpl; [done|]. by destruct (f x); rewrite IH. Qed.

Lemma insert_true_map_seq (g : nat -> bool) (a n : nat) :
  <[a := true]> (map g (seq 0 n))
  = map (fun i => g i || bool_decide (i = a)) (seq 0 n).
Proof.
  apply list_eq; intros i.
  rewrite list_lookup_insert, !list_lookup_fmap, length_map, length_seq.
  destruct (decide (i < n)) as [Hlt|Hge].
  - rewrite lookup_seq_lt by done. simpl.
    destruct (decide (a = i ∧ a < n)) as [[-> _]|Hn].
    + rewrite bool_decide_true by done. by rewrite orb_true_r.
    + rewrite bool_decide_false by (intros ->; tauto). by rewrite orb_false_r.
  - rewrite lookup_seq_ge by lia. simpl.
    destruct (decide (a = i ∧ a < n)) as [[-> ?]|Hn]; [lia|done].
Qed.

Lemma foldl_insert_true (idx : list nat) (g : nat -> bool) (n : nat) :
  foldl (fun mask i => <[i := true]> mask) (map g (seq 0 n)) idx
  = map (fun i => g i || bool_decide (i ∈ idx)) (seq 0 n).
Proof.
  revert g. induction idx as [|a idx IH]; intros g; cbn [foldl].
  - apply map_ext; intros i.
    rewrite bool_decide_false by apply not_elem_of_nil. by rewrite orb_false_r.
  - rewrite insert_true_map_seq, IH. apply map_ext; intros i.
    rewrite <- orb_assoc. f_equal.
    destruct (decide (i = a)) as [->|Hne].
    + rewrite (bool_decide_true (a = a)) by done.
      rewrite (bool_decide_true (a ∈ a :: idx)) by left. done.
    + rewrite (bool_decide_false (i = a)) by done. simpl.
      apply bool_decide_ext. rewrite elem_of_cons. tauto.
Qed.

Lemma test_mask_spec (n : nat) (idx : list nat) :
  test_mask n idx = map (fun i => bool_decide (i ∈ idx)) (seq 0 n).
Proof.
  unfold test_mask.
  assert (replicate n false = map (fun _ : nat => false) (seq 0 n)) as ->.
  { apply list_eq; intros i. rewrite list_lookup_fmap.
    destruct (decide (i < n)) as [Hlt|Hge].
    - rewrite lookup_seq_lt by done. simpl. by apply lookup_replicate.
    - rewrite lookup_seq_ge by lia. simpl.
      apply lookup_ge_None. rewrite length_replicate. lia. }
  by rewrite foldl_insert_true.
Qed.

(** A pair of [split_masks]: the test indices in ascending order and the
    remaining indices in ascending order. *)
Lemma split_masks_spec (n : nat) (tests : list (list nat)) :
  split_masks n tests
  = map (fun t => (List.filter (fun i => negb (bool_decide (i ∈ t))) (seq 0 n),
                   List.filter (fun i => bool_decide (i ∈ t)) (seq 0 n))) tests.
Proof.
  unfold split_masks, arange. apply map_ext; intros t.
  rewrite test_mask_spec, map_map, !select_map. done.
Qed.

Lemma filter_all {A : Type} (f : A -> bool) (l : list A) :
  (forall x, x ∈ l -> f x = true) -> List.filter f l = l.
Proof.
  induction l as [|x l IH]; simpl; intros H; [done|].
  rewrite (H x) by left. f_equal. apply IH. intros y Hy. apply H. by right.
Qed.

Lemma filter_none {A : Type} (f : A -> bool) (l : list A) :
  (forall x, x ∈ l -> f x = false) -> List.filter f l = [].
Proof.
  induction l as [|x l IH]; simpl; intros H; [done|].
  rewrite (H x) by left. apply IH. intros y Hy. apply H. by right.
Qed.

Lemma filter_seq_segment (n cur sz : nat) :
  cur + sz <= n ->
  List.filter (fun i => bool_decide (i ∈ seq cur sz)) (seq 0 n) = seq cur sz.
Proof.
  intros Hle.
  replace n with (cur + (sz + (n - (cur + sz)))) by lia.
  rewrite !seq_app, !List.filter_app. simpl.
  rewrite filter_none, filter_all, filter_none; [by rewrite app_nil_r|..].
  - intros x Hx. apply elem_of_seq in Hx. apply bool_decide_eq_false.
    rewrite elem_of_seq. lia.
  - intros x Hx. by apply bool_decide_eq_true.
  - intros x Hx. apply elem_of_seq in Hx. apply bool_decide_eq_false.
    rewrite elem_of_seq. lia.
Qed.

Lemma slice_seq (n cur sz : nat) :
  cur + sz <= n -> slice (seq 0 n) cur (cur + sz) = seq cur sz.
Proof.
  intros Hle. unfold slice. rewrite drop_seq, take_seq. simpl.
  f_equal. lia.
Qed.

Lemma kfold_iter_runs (n : nat) (sizes : list nat) (current : nat) :
  current + sum_list sizes <= n ->
  kfold_iter (seq 0 n) current sizes = runs current sizes.
Proof.
  revert current. induction sizes as [|sz sizes IH]; intros current H; simpl in *.
  - done.
  - rewrite slice_seq by lia. f_equal. apply IH. lia.
Qed.

Lemma concat_runs (sizes : list nat) (current : nat) :
  concat (runs current sizes) = seq current (sum_list sizes).
Proof.
  revert current. induction sizes as [|sz sizes IH]; intros current; simpl.
  - done.
  - by rewrite IH, seq_app.
Qed.

Lemma split_masks_runs (n : nat) (sizes : list nat) (current : nat) :
  current + sum_list sizes <= n ->
  split_masks n (runs current sizes)
  = map (fun t => (List.filter (fun i => negb (bool_decide (i ∈ t))) (seq 0 n), t))
        (runs current sizes).
Proof.
  rewrite split_masks_spec.
  revert current. induction sizes as [|sz sizes IH]; intros current H; simpl in *.
  - done.
  - rewrite filter_seq_segment by lia. f_equal. apply IH. lia.
Qed.

Lemma concat_singletons {A : Type} (l : list A) :
  concat (map (fun x => [x]) l) = l.
Proof. induction l as [|x l IH]; simpl; congruence. Qed.

Lemma split_masks_singletons (n : nat) :
  split_masks n (map (fun i => [i]) (seq 0 n))
  = map (fun i => (List.filter (fun j => negb (bool_decide (j = i))) (seq 0 n), [i]))
        (seq 0 n).
Proof.
  rewrite split_masks_spec, map_map. apply map_ext_in; intros i Hi.
  apply in_seq in Hi. f_equal.
  - apply List.filter_ext; intros j. f_equal. apply bool_decide_ext.
    rewrite elem_of_cons, elem_of_nil. tauto.
  - change [i] with (seq i 1). apply filter_seq_segment. lia.
Qed.

Lemma elem_of_concat {A : Type} (ls : list (list A)) (x : A) :
  x ∈ concat ls <-> exists l, l ∈ ls /\ x ∈ l.
Proof.
  induction ls as [|l ls IH]; simpl.
  - split; [intros H; by apply elem_of_nil in H|].
    intros (l & H & _). by apply elem_of_nil in H.
  - rewrite elem_of_app, IH. split.
    + intros [H|(l' & H1 & H2)]; [exists l; split; [left|done]|].
      exists l'. split; [by right|done].
    + intros (l' & H1 & H2). apply elem_of_cons in H1 as [->|H1]; [by left|].
      right. eauto.
Qed.

Lemma NoDup_concat_disjoint {A : Type} (ls : list (list A)) (i j : nat) (a b : list A) :
  NoDup (concat ls) -> i <> j -> ls !! i = Some a -> ls !! j = Some b -> a ## b.
Proof.
  revert i j. induction ls as [|l ls IH]; intros i j Hnd Hij Hi Hj; [done|].
  simpl in Hnd. apply NoDup_app in Hnd as (Hl & Hdisj & Hrest).
  destruct i as [|i], j as [|j]; simpl in *; simplify_eq.
  - intros x Hx Hx'. apply (Hdisj x Hx). apply elem_of_concat.
    exists b. split; [|done]. apply list_elem_of_lookup. eauto.
  - intros x Hx Hx'. apply (Hdisj x Hx'). apply elem_of_concat.
    exists a. split; [|done]. apply list_elem_of_lookup. eauto.
  - apply (IH i j); auto.
Qed.

Lemma fold_sizes_length (k n : nat) : length (fold_sizes k n) = k.
Proof.
  unfold fold_sizes. simpl.
  rewrite length_app, length_map, length_take, length_drop, length_replicate. lia.
Qed.

Lemma sum_list_append (l1 l2 : list nat) :
  sum_list (l1 ++ l2) = sum_list l1 + sum_list l2.
Proof. induction l1 as [|x l1 IH]; simpl; [done|]. rewrite IH. lia. Qed.

Lemma fold_sizes_sum (k n : nat) : k <> 0 -> sum_list (fold_sizes k n) = n.
Proof.
  intros Hk. unfold fold_sizes. simpl.
  pose proof (Nat.mod_upper_bound n k Hk) as Hlt.
  rewrite take_replicate, drop_replicate, Nat.min_l by lia.
  rewrite sum_list_append.
  assert (map S (replicate (n mod k) (n / k)) = replicate (n mod k) (S (n / k))) as ->.
  { clear. generalize (n mod k). intros m. induction m; simpl; congruence. }
  rewrite !sum_list_replicate.
  pose proof (Nat.div_mod n k Hk). nia.
Qed.

End SplitFacts.

(** C1: for [2 <= k <= N], constructing [KFold(k)] and splitting [N] rows
    succeeds with exactly [k] pairs.  The test sets are the consecutive
    runs of indices of the fold sizes, so that laid end to end they are
    [0 .. N-1] in index order; they are pairwise disjoint and cover
    exactly the indices below [N]; the train set of a pair is every other
    index. *)
Theorem KFold_partitions (N : nat) (k : Z) :
  2 <= N -> (2 <= k <= Z.of_nat N)%Z ->
  exists parts : list (list nat * list nat),
    Split.run_KFold k N = Ok parts /\
    length parts = Z.to_nat k /\
    map snd parts = Split.runs 0 (Split.fold_sizes (Z.to_nat k) N) /\
    concat (map snd parts) = seq 0 N /\
    (forall i j p q, i <> j -> parts !! i = Some p -> parts !! j = Some q ->
                     p.2 ## q.2) /\
    (forall x, x < N <-> exists p, p ∈ parts /\ x ∈ p.2) /\
    (forall p, p ∈ parts ->
       p.1 = List.filter (fun i => negb (bool_decide (i ∈ p.2))) (seq 0 N)).
Proof.
  intros HN [Hk2 HkN].
  set (sizes := Split.fold_sizes (Z.to_nat k) N).
  assert (Hsum : sum_list sizes = N) by (apply fold_sizes_sum; lia).
  assert (Hparts : Split.run_KFold k N
                   = Ok (map (fun t => (List.filter
                                          (fun i => negb (bool_decide (i ∈ t)))
                                          (seq 0 N), t))
                             (Split.runs 0 sizes))).
  { unfold Split.run_KFold, Split.KFold_init.
    destruct (Z.leb_spec k 1) as [?|_]; [lia|]. simpl.
    unfold Split.KFold_split. simpl.
    destruct (Z.ltb_spec (Z.of_nat N) k) as [?|_]; [lia|].
    unfold Split.KFold_iter_test_indices, Split.arange. simpl. fold sizes.
    rewrite kfold_iter_runs by lia. by rewrite split_masks_runs by lia. }
  eexists. split; [exact Hparts|].
  assert (Hsnd : forall ts : list (list nat),
             map snd (map (fun t => (List.filter
                                       (fun i => negb (bool_decide (i ∈ t)))
                                       (seq 0 N), t)) ts) = ts).
  { intros ts. rewrite map_map. simpl. apply map_id. }
  assert (Hcat : concat (Split.runs 0 sizes) = seq 0 N)
    by (by rewrite concat_runs, Hsum).
  repeat split.
  - rewrite length_map.
    assert (forall c, length (Split.runs c sizes) = length sizes) as ->.
    { generalize sizes. intros l. induction l; intros c; simpl; congruence. }
    apply fold_sizes_length.
  - apply Hsnd.
  - by rewrite Hsnd.
  - intros i j p q Hij Hp Hq.
    apply (NoDup_concat_disjoint (Split.runs 0 sizes) i j).
    + rewrite Hcat. apply NoDup_seq.
    + done.
    + rewrite <- (Hsnd (Split.runs 0 sizes)), list_lookup_fmap.
      change (list_fmap _ _ snd) with (map (B:=list nat) snd).
      by rewrite Hp.
    + rewrite <- (Hsnd (Split.runs 0 sizes)), list_lookup_fmap.
      change (list_fmap _ _ snd) with (map (B:=list nat) snd).
      by rewrite Hq.
  - intros Hx.
    assert (x ∈ concat (Split.runs 0 sizes)) as Hin
      by (rewrite Hcat; apply elem_of_seq; lia).
    apply elem_of_concat in Hin as (t & Ht & Hxt).
    eexists (_, t). split; [|exact Hxt].
    apply list_elem_of_In, in_map_iff. exists t. split; [done|].
    by apply list_elem_of_In.
  - intros (p & Hp & Hx).
    apply list_elem_of_In, in_map_iff in Hp as (t & <- & Ht). simpl in Hx.
    assert (x ∈ concat (Split.runs 0 sizes)) as Hin.
    { apply elem_of_concat. exists t. split; [by apply list_elem_of_In|done]. }
    rewrite Hcat in Hin. apply elem_of_seq in Hin. lia.
  - intros p Hp.
    apply list_elem_of_In, in_map_iff in Hp as (t & <- & Ht). done.
Qed.

Example KFold_3_on_7 :
  Split.run_KFold 3 7
  = Ok [ ([3; 4; 5; 6], [0; 1; 2]);
         ([0; 1; 2; 5; 6], [3; 4]);
         ([0; 1; 2; 3; 4], [5; 6]) ].
Proof. reflexivity. Qed.

Lemma KFold_partitions_witness :
  2 <= 7 /\ (2 <= 3 <= Z.of_nat 7)%Z /\
  exists parts : list (list nat * list nat),
    Split.run_KFold 3 7 = Ok parts /\
    length parts = Z.to_nat 3 /\
    map snd parts = Split.runs 0 (Split.fold_sizes (Z.to_nat 3) 7) /\
    concat (map snd parts) = seq 0 7 /\
    (forall i j p q, i <> j -> parts !! i = Some p -> parts !! j = Some q ->
                     p.2 ## q.2) /\
    (forall x, x < 7 <-> exists p, p ∈ parts /\ x ∈ p.2) /\
    (forall p, p ∈ parts ->
       p.1 = List.filter (fun i => negb (bool_decide (i ∈ p.2))) (seq 0 7)).
Proof.
  split; [lia|]. split; [lia|].
  apply (KFold_partitions 7 3); lia.
Defined.

(** C2, for at least two rows: [LeaveOneOut] on [N >= 2] rows emits
    exactly [N] pairs; pair [i] has the test set [[i]] and every other
    index as its train set, so the test sets laid end to end are
    [0 .. N-1], each index once. *)
Theorem LeaveOneOut_partitions (N : nat) :
  2 <= N ->
  exists parts : list (list nat * list nat),
    Split.LeaveOneOut_split N = Ok parts /\
    length parts = N /\
    (forall i, i < N ->
       parts !! i
       = Some (List.filter (fun j => negb (bool_decide (j = i))) (seq 0 N), [i])) /\
    Forall (fun p => length p.2 = 1) parts /\
    concat (map snd parts) = seq 0 N.
Proof.
  intros HN. unfold Split.LeaveOneOut_split, Split.arange.
  destruct (Nat.leb_spec N 1) as [?|_]; [lia|].
  rewrite split_masks_singletons. eexists. split; [reflexivity|].
  repeat split.
  - by rewrite length_map, length_seq.
  - intros i Hi.
    change (map ?f ?l) with (f <$> l).
    rewrite list_lookup_fmap, lookup_seq_lt by done. done.
  - apply Forall_forall. intros p Hp.
    apply list_elem_of_In, in_map_iff in Hp as (i & <- & _). done.
  - rewrite map_map. simpl. apply concat_singletons.
Qed.

Lemma LeaveOneOut_partitions_witness :
  2 <= 3 /\
  exists parts : list (list nat * list nat),
    Split.LeaveOneOut_split 3 = Ok parts /\
    length parts = 3 /\
    (forall i, i < 3 ->
       parts !! i
       = Some (List.filter (fun j => negb (bool_decide (j = i))) (seq 0 3), [i])) /\
    Forall (fun p => length p.2 = 1) parts /\
    concat (map snd parts) = seq 0 3.
Proof. split; [lia|]. apply (LeaveOneOut_partitions 3). lia. Defined.

(** On a single row [LeaveOneOut] emits no pair: the split is refused. *)
Lemma LeaveOneOut_single_row :
  Split.LeaveOneOut_split 1 = Raise ValueError /\
  Harness.cross_validation nat Samples.count_fit Samples.count_predict
    ["Cu (%)"; "temper"] "TYS" 1234 "loocv" (Samples.alloys 1)
  = (Raise ValueError, Samples.alloys 1).
Proof. split; reflexivity. Qed.

(** C7: constructing [KFold(k)] and splitting [N] rows fails, with
    Python's [ValueError], whenever [k < 2] or [k > N]: the constructor
    refuses [k <= 1] and [split] refuses more folds than rows. *)
Theorem KFold_invalid_fold_count (N : nat) (k : Z) :
  (k < 2 \/ Z.of_nat N < k)%Z ->
  Split.run_KFold k N = Raise ValueError /\
  (k < 2 -> Split.KFold_init k = Raise ValueError)%Z /\
  (2 <= k -> exists kf, Split.KFold_init k = Ok kf /\
                        Split.KFold_split kf N = Raise ValueError)%Z.
Proof.
  intros Hk. unfold Split.run_KFold, Split.KFold_init.
  destruct (Z.leb_spec k 1) as [Hle|Hgt]; simpl.
  - split; [done|]. split; [done|]. intros; lia.
  - unfold Split.KFold_split. simpl.
    destruct (Z.ltb_spec (Z.of_nat N) k) as [_|?]; [|lia].
    split; [done|]. split; [intros; lia|].
    intros _. eexists. split; [reflexivity|]. simpl.
    destruct (Z.ltb_spec (Z.of_nat N) k) as [_|?]; [done|lia].
Qed.

Lemma KFold_invalid_fold_count_witness :
  (20 < 2 \/ Z.of_nat 12 < 20)%Z /\
  Split.run_KFold 20 12 = Raise ValueError /\
  (20 < 2 -> Split.KFold_init 20 = Raise ValueError)%Z /\
  (2 <= 20 -> exists kf, Split.KFold_init 20 = Ok kf /\
                         Split.KFold_split kf 12 = Raise ValueError)%Z.
Proof. split; [lia|]. apply (KFold_invalid_fold_count 12 20). lia. Defined.

(** ** Scoring *)

Section MetricsFacts.
Import Metrics.
Local Open Scope list_scope.
Local Open Scope nat_scope.

Lemma Prim2SF_zero (x : float) : is_zero x -> exists s, Prim2SF x = S754_zero s.
Proof.
  unfold is_zero. rewrite FloatAxioms.eqb_spec. unfold SFeqb, SFcompare.
  destruct (Prim2SF x) as [s|s| |s m e]; simpl; try discriminate.
  - eauto.
  - destruct s; discriminate.
  - destruct s; discriminate.
Qed.

Lemma is_zero_cases (x : float) : is_zero x -> x = 0%float \/ x = (-0)%float.
Proof.
  intros [s Hs]%Prim2SF_zero.
  destruct s; [right|left]; apply Prim2SF_inj; rewrite Hs; reflexivity.
Qed.

Lemma add_zero (x y : float) : is_zero x -> is_zero y -> is_zero (x + y)%float.
Proof. intros [->| ->]%is_zero_cases [->| ->]%is_zero_cases; reflexivity. Qed.

Lemma nonzero_zero (x : float) : is_zero x -> nonzero x = false.
Proof. unfold is_zero, nonzero. by intros ->. Qed.

Lemma finite_cases (x : float) :
  is_finite x = true ->
  (exists s, Prim2SF x = S754_zero s) \/
  (exists s m e, Prim2SF x = S754_finite s m e).
Proof.
  unfold is_finite, is_nan, is_infinity. rewrite !FloatAxioms.eqb_spec, abs_spec.
  destruct (Prim2SF x) as [s|s| |s m e]; simpl; eauto.
  - by destruct s.
  - discriminate.
Qed.

(** A finite float minus itself is zero. *)
Lemma sub_diag (x : float) : is_finite x = true -> (x - x)%float = 0%float.
Proof.
  intros H. apply Prim2SF_inj. rewrite sub_spec.
  destruct (finite_cases x H) as [[s ->]|(s & m & e & ->)].
  - by destruct s.
  - unfold SF64sub, SFsub. rewrite Z.min_id, Z.sub_diag. reflexivity.
Qed.

Lemma is_finite_in_range (l : list Qc) :
  forallb is_finite (map as_float64 l) = true <-> Forall in_range l.
Proof.
  induction l as [|q l IH]; simpl.
  - split; [constructor|done].
  - rewrite andb_true_iff, IH. split.
    + intros [Hq Hl]. by constructor.
    + intros H. inversion H; subst. by split.
Qed.

(** Past its checks, [r2_score] is the score assembled from the two sums
    of squares. *)
Lemma r2_score_scored (np_sum : list float -> float) (y_true y_pred : list Qc) :
  length y_true = length y_pred ->
  2 <= length y_true ->
  Forall in_range y_true -> Forall in_range y_pred ->
  r2_score np_sum y_true y_pred
  = if nonzero (ss_tot np_sum (map as_float64 y_true)) &&
       nonzero (ss_res np_sum (map as_float64 y_true) (map as_float64 y_pred))
    then Ok (1 - ss_res np_sum (map as_float64 y_true) (map as_float64 y_pred)
                 / ss_tot np_sum (map as_float64 y_true))%float
    else if nonzero (ss_res np_sum (map as_float64 y_true) (map as_float64 y_pred))
         then Ok 0%float
         else Ok 1%float.
Proof.
  intros Hlen H2 Ht Hp. unfold r2_score.
  rewrite <- Hlen, Nat.eqb_refl. simpl negb. cbv iota.
  destruct (Nat.eqb_spec (length y_true) 0) as [?|_]; [lia|].
  rewrite (proj2 (is_finite_in_range y_true) Ht).
  rewrite (proj2 (is_finite_in_range y_pred) Hp). simpl negb. cbv iota.
  destruct (Nat.ltb_spec (length y_true) 2) as [?|_]; [lia|]. done.
Qed.

(** The only error of [r2_score] is the value error. *)
Lemma r2_score_raises (np_sum : list float -> float) (y_true y_pred : list Qc)
    (e : exn) :
  r2_score np_sum y_true y_pred = Raise e -> e = ValueError.
Proof.
  unfold r2_score.
  repeat match goal with
         | |- context [if ?b then _ else _] => destruct b
         end; intros H; by inversion H.
Qed.

Lemma squares_zero (np_sum : list float -> float) (a : list float) (m : float) :
  sums_zeros np_sum -> a <> [] ->
  Forall (fun t => (t - m)%float = 0%float) a ->
  is_zero (np_sum (map (fun t => sq (t - m)%float) a)).
Proof.
  intros Hsum Hne Hall. apply Hsum.
  - by destruct a.
  - apply Forall_forall. intros x Hx.
    apply list_elem_of_In, in_map_iff in Hx as (t & <- & Ht).
    rewrite Forall_forall in Hall. rewrite (Hall t) by (by apply list_elem_of_In).
    reflexivity.
Qed.

(** Exact predictions leave no residual. *)
Lemma ss_res_same (np_sum : list float -> float) (l : list Qc) :
  sums_zeros np_sum -> l <> [] -> Forall in_range l ->
  is_zero (ss_res np_sum (map as_float64 l) (map as_float64 l)).
Proof.
  intros Hsum Hne Hl. unfold ss_res. apply Hsum.
  - by destruct l.
  - clear Hne. induction Hl as [|q l Hq _ IH]; simpl; [constructor|].
    constructor; [|done]. rewrite sub_diag by done. reflexivity.
Qed.

(** Equal true values whose mean is computed exactly have no variance. *)
Lemma ss_tot_const (np_sum : list float -> float) (l : list Qc) (c : Qc) :
  sums_zeros np_sum -> l <> [] -> Forall in_range l -> Forall (eq c) l ->
  average np_sum (map as_float64 l) = as_float64 c ->
  is_zero (ss_tot np_sum (map as_float64 l)).
Proof.
  intros Hsum Hne Hl Hc Havg. unfold ss_tot. cbv zeta. rewrite Havg.
  apply squares_zero; [done|by destruct l|].
  apply Forall_forall. intros x Hx.
  apply list_elem_of_In, in_map_iff in Hx as (q & <- & Hq).
  apply list_elem_of_In in Hq.
  rewrite Forall_forall in Hc, Hl. pose proof (Hl q Hq) as Hr.
  rewrite <- (Hc q Hq) in Hr |- *. by apply sub_diag.
Qed.

(** C8, as the code has it: on two sequences of the same length, at least
    two, of finite values, [r2_score] never fails, whatever the variance
    of the true values.  It returns [1 - SS_res / SS_tot], computed in
    float64, when both sums are non-zero.  True values that are all equal
    and whose mean is computed exactly have a sum of squares of zero, and
    are scored 1 when the residual sum is zero and 0 otherwise.
    Predictions identical to the true values score exactly 1. *)
Theorem r2_score_defined (np_sum : list float -> float) (y_true y_pred : list Qc) :
  sums_zeros np_sum ->
  length y_true = length y_pred ->
  2 <= length y_true ->
  Forall in_range y_true -> Forall in_range y_pred ->
  let yt := map as_float64 y_true in
  let yp := map as_float64 y_pred in
  (exists score, r2_score np_sum y_true y_pred = Ok score) /\
  (nonzero (ss_tot np_sum yt) = true -> nonzero (ss_res np_sum yt yp) = true ->
   r2_score np_sum y_true y_pred
   = Ok (1 - ss_res np_sum yt yp / ss_tot np_sum yt)%float) /\
  (forall c, Forall (eq c) y_true -> average np_sum yt = as_float64 c ->
   is_zero (ss_tot np_sum yt) /\
   r2_score np_sum y_true y_pred
   = Ok (if nonzero (ss_res np_sum yt yp) then 0 else 1)%float) /\
  (y_pred = y_true -> r2_score np_sum y_true y_pred = Ok 1%float).
Proof.
  intros Hsum Hlen H2 Ht Hp yt yp.
  assert (Hne : y_true <> []) by (destruct y_true; [simpl in H2; lia|done]).
  rewrite (r2_score_scored np_sum y_true y_pred Hlen H2 Ht Hp).
  fold yt yp. split; [|split; [|split]].
  - destruct (nonzero (ss_tot np_sum yt) && nonzero (ss_res np_sum yt yp));
      [by eexists|].
    destruct (nonzero (ss_res np_sum yt yp)); by eexists.
  - by intros -> ->.
  - intros c Hc Havg.
    pose proof (ss_tot_const np_sum y_true c Hsum Hne Ht Hc Havg) as Htot.
    split; [done|]. fold yt in Htot. rewrite (nonzero_zero _ Htot). simpl.
    by destruct (nonzero (ss_res np_sum yt yp)).
  - intros ->. subst yt yp.
    rewrite (nonzero_zero _ (ss_res_same np_sum y_true Hsum Hne Ht)).
    by rewrite andb_false_r.
Qed.

Lemma sum_in_order_zeros (a : list float) (z : float) :
  is_zero z -> Forall is_zero a -> is_zero (fold_left PrimFloat.add a z).
Proof.
  intros Hz Ha. revert z Hz.
  induction Ha as [|x a Hx _ IH]; intros z Hz; simpl; [done|].
  apply IH. by apply add_zero.
Qed.

Lemma sum_in_order_sums_zeros : sums_zeros Samples.sum_in_order.
Proof. intros a _ Ha. by apply sum_in_order_zeros. Qed.

End MetricsFacts.

Lemma r2_score_defined_witness :
  let y_true := [Samples.qz 3; Samples.qz 3] in
  let y_pred := [Samples.qz 3; Samples.qz 5] in
  let yt := map Metrics.as_float64 y_true in
  let yp := map Metrics.as_float64 y_pred in
  Metrics.sums_zeros Samples.sum_in_order /\
  length y_true = length y_pred /\
  (2 <= length y_true)%nat /\
  Forall Metrics.in_range y_true /\ Forall Metrics.in_range y_pred /\
  (exists score, Metrics.r2_score Samples.sum_in_order y_true y_pred = Ok score) /\
  (Metrics.nonzero (Metrics.ss_tot Samples.sum_in_order yt) = true ->
   Metrics.nonzero (Metrics.ss_res Samples.sum_in_order yt yp) = true ->
   Metrics.r2_score Samples.sum_in_order y_true y_pred
   = Ok (1 - Metrics.ss_res Samples.sum_in_order yt yp
             / Metrics.ss_tot Samples.sum_in_order yt)%float) /\
  (forall c, Forall (eq c) y_true ->
   Metrics.average Samples.sum_in_order yt = Metrics.as_float64 c ->
   Metrics.is_zero (Metrics.ss_tot Samples.sum_in_order yt) /\
   Metrics.r2_score Samples.sum_in_order y_true y_pred
   = Ok (if Metrics.nonzero (Metrics.ss_res Samples.sum_in_order yt yp)
         then 0 else 1)%float) /\
  (y_pred = y_true ->
   Metrics.r2_score Samples.sum_in_order y_true y_pred = Ok 1%float).
Proof.
  intros y_true y_pred yt yp.
  assert (Hlen : length y_true = length y_pred) by reflexivity.
  assert (H2 : (2 <= length y_true)%nat) by (simpl; lia).
  assert (Ht : Forall Metrics.in_range y_true)
    by (repeat constructor; vm_compute; reflexivity).
  assert (Hp : Forall Metrics.in_range y_pred)
    by (repeat constructor; vm_compute; reflexivity).
  split; [exact sum_in_order_sums_zeros|].
  repeat (split; [assumption|]).
  exact (r2_score_defined Samples.sum_in_order y_true y_pred
           sum_in_order_sums_zeros Hlen H2 Ht Hp).
Defined.

Example r2_score_sample :
  Metrics.r2_score Samples.sum_in_order
    [Samples.qz 1; Samples.qz 2; Samples.qz 3]
    [Samples.qz 1; Samples.qz 2; Samples.qz 5]
  = Ok (-1)%float.
Proof. vm_compute. reflexivity. Qed.

(** True values without variance are scored, not refused: 0 for a wrong
    prediction, 1 for an exact one. *)
Lemma zero_variance_is_scored :
  Metrics.r2_score Samples.sum_in_order
    [Samples.qz 3; Samples.qz 3] [Samples.qz 3; Samples.qz 5]
  = Ok 0%float /\
  Metrics.r2_score Samples.sum_in_order
    [Samples.qz 3; Samples.qz 3] [Samples.qz 3; Samples.qz 3]
  = Ok 1%float.
Proof. split; vm_compute; reflexivity. Qed.

(** The variance is judged on the computed sum of squares.  Three true
    values 0.1 (the float64 [3602879701896397 / 2^55]) have the computed
    mean 0.10000000000000002, which leaves a sum of squares of about
    5.8e-34, and against three predictions 0.2 the score is about
    -5.2e31. *)
Example rounded_mean_is_scored :
  let tenth := Q2Qc (3602879701896397 # 2 ^ 55) in
  let fifth := Q2Qc (3602879701896397 # 2 ^ 54) in
  exists score,
    Metrics.r2_score Samples.sum_in_order
      [tenth; tenth; tenth] [fifth; fifth; fifth] = Ok score /\
    (score <? Metrics.float_of_Z (- 10 ^ 31))%float = true /\
    (Metrics.float_of_Z (- 10 ^ 32) <? score)%float = true.
Proof. eexists. repeat split; vm_compute; reflexivity. Qed.

(** Rounding, overflow and underflow in the score: predictions that are
    not exact can score exactly 1, and a score can be [nan] or
    [-infinity]. *)
Example rounded_scores :
  Metrics.r2_score Samples.sum_in_order
    [Samples.qz 0; Samples.qz (10 ^ 9)] [Samples.qz 0; Samples.qz (10 ^ 9 + 1)]
  = Ok 1%float /\
  Metrics.r2_score Samples.sum_in_order
    [Samples.qz 0; Samples.qz (10 ^ 200)] [Samples.qz 0; Samples.qz 0]
  = Ok nan /\
  Metrics.r2_score Samples.sum_in_order
    [Samples.qz 0; Samples.qz 1] [Samples.qz 0; Samples.qz (10 ^ 200)]
  = Ok neg_infinity.
Proof. repeat split; vm_compute; reflexivity. Qed.

(** ** The store *)

Section StoreFacts.
Import Frame.

Lemma bind_ok {A B : Type} (m : M A) (k : A -> M B) (df df' : DataFrame) (a : A) :
  m df = (Ok a, df') -> bind m k df = k a df'.
Proof. unfold bind. by intros ->. Qed.

Lemma bind_raise {A B : Type} (m : M A) (k : A -> M B) (df df' : DataFrame) (e : exn) :
  m df = (Raise e, df') -> bind m k df = (Raise e, df').
Proof. unfold bind. by intros ->. Qed.

Lemma read_only_ret {A : Type} (a : A) : read_only (ret a).
Proof. by intros df. Qed.

Lemma read_only_lift {A : Type} (r : result A) : read_only (lift r).
Proof. by intros df. Qed.

Lemma read_only_read {A : Type} (f : DataFrame -> result A) : read_only (read f).
Proof. by intros df. Qed.

Lemma read_only_bind {A B : Type} (m : M A) (k : A -> M B) :
  read_only m -> (forall a, read_only (k a)) -> read_only (bind m k).
Proof.
  intros Hm Hk df. unfold bind. specialize (Hm df).
  destruct (m df) as [[a|e] df']; simpl in *; subst df'; [apply Hk|done].
Qed.

(** A read-only computation that fails leaves the store as it was, and so
    does one that succeeds. *)
Lemma read_only_run {A : Type} (m : M A) (df : DataFrame) :
  read_only m -> m df = ((m df).1, df).
Proof. intros Hm. specialize (Hm df). destruct (m df); simpl in *; by subst. Qed.

End StoreFacts.

Ltac read_only_step :=
  repeat first
    [ apply read_only_ret | apply read_only_lift | apply read_only_read
    | apply read_only_bind; [|intros ?] ].

(** ** The evaluation harness *)

Section HarnessFacts.
Import Frame Split Metrics Harness.
Local Open Scope list_scope.
Local Open Scope nat_scope.
Set Default Proof Using "Type".

Variable model : Type.
Variable fit : Z -> DataFrame -> Series -> result model.
Variable predict : model -> DataFrame -> result (list Qc).
Variable float_of_string : string -> option Qc.
Variable np_sum : list float -> float.

Abbreviation cross_validation := (Harness.cross_validation model fit predict).
Abbreviation cv_loop := (Harness.cv_loop model fit predict).
Abbreviation calc_R2s := (Harness.calc_R2s model fit predict float_of_string np_sum).
Abbreviation calc_loop := (Harness.calc_loop model fit predict float_of_string np_sum).
Abbreviation fit_predict := (Harness.fit_predict model fit predict).
Abbreviation learns := (Harness.learns model fit predict).
Abbreviation score := (Harness.score float_of_string np_sum).

Lemma cv_loop_read_only mi y_col rs parts yts yps :
  read_only (cv_loop mi y_col rs parts yts yps).
Proof.
  revert yts yps. induction parts as [|[train test] parts IH]; intros yts yps; simpl.
  - apply read_only_ret.
  - read_only_step. apply IH.
Qed.

Lemma cross_validation_read_only x_cols y_col rs validator :
  read_only (cross_validation x_cols y_col rs validator).
Proof.
  unfold Harness.cross_validation. read_only_step.
  destruct (validator =? "insample")%string.
  - read_only_step.
  - read_only_step. apply cv_loop_read_only.
Qed.

Lemma calc_loop_read_only x_cols y_col items r2_values :
  read_only (calc_loop x_cols y_col items r2_values).
Proof.
  revert r2_values.
  induction items as [|[validator name] items IH]; intros r2_values; simpl.
  - apply read_only_ret.
  - apply read_only_bind; [apply cross_validation_read_only|intros ys].
    apply read_only_bind; [apply read_only_lift|intros r2]. apply IH.
Qed.

(** C10: a call to [cross_validation] leaves the data table it is given
    as it was, row for row and column for column, whether it returns or
    raises. *)
Theorem cross_validation_leaves_data_unchanged
    (x_cols : list string) (y_col : string) (random_state : Z)
    (validator : string) (data : DataFrame) :
  (cross_validation x_cols y_col random_state validator data).2 = data /\
  cross_validation x_cols y_col random_state validator data
  = ((cross_validation x_cols y_col random_state validator data).1, data).
Proof.
  pose proof (cross_validation_read_only x_cols y_col random_state validator) as H.
  split; [apply H|]. by apply read_only_run.
Qed.

Lemma VALIDATORS_ok :
  VALIDATORS
  = Ok (<["20foldcv" := KFoldCV (mkKFold 20)]>
        (<["15foldcv" := KFoldCV (mkKFold 15)]>
        (<["5foldcv" := KFoldCV (mkKFold 5)]>
        (<["loocv" := LeaveOneOut]> ∅)))).
Proof. reflexivity. Qed.

Lemma loc_cols_missing (df : DataFrame) (x_cols : list string) (c : string) :
  c ∈ x_cols -> ~ has_col df c -> loc_cols df x_cols = Raise KeyError.
Proof.
  intros Hin Hmiss. unfold loc_cols.
  assert (rmapM (fun name => rbind (get_col df name) (fun c => Ok (name, c))) x_cols
          = Raise KeyError) as ->; [|done].
  induction x_cols as [|x x_cols IH]; [by apply elem_of_nil in Hin|].
  simpl. unfold get_col at 1.
  destruct (assoc x (cols df)) as [v|] eqn:Hx; [|done]. simpl.
  apply elem_of_cons in Hin as [->|Hin].
  - exfalso. apply Hmiss. unfold has_col. by rewrite Hx.
  - by rewrite IH.
Qed.

(** C6: with a column of [x_cols] absent from the table, the evaluation
    call fails with the key error of the column selection, whatever the
    strategy, and so does the comparison over all strategies; the table is
    left as it was. *)
Theorem missing_column_fails
    (data : DataFrame) (x_cols : list string) (y_col : string)
    (random_state : Z) (validator : string) (c : string) :
  c ∈ x_cols -> ~ has_col data c ->
  loc_cols data x_cols = Raise KeyError /\
  cross_validation x_cols y_col random_state validator data
  = (Raise KeyError, data) /\
  calc_R2s x_cols y_col data = (Raise KeyError, data).
Proof.
  intros Hin Hmiss.
  pose proof (loc_cols_missing data x_cols c Hin Hmiss) as Hloc.
  assert (Hcv : forall rs v,
             cross_validation x_cols y_col rs v data = (Raise KeyError, data)).
  { intros rs v. unfold Harness.cross_validation.
    rewrite VALIDATORS_ok. unfold bind at 1, lift at 1.
    unfold bind at 1, read at 1. by rewrite Hloc. }
  split; [done|]. split; [apply Hcv|].
  unfold Harness.calc_R2s, validators. cbn [Harness.calc_loop].
  by rewrite (bind_raise _ _ _ _ _ (Hcv 1234%Z "insample")).
Qed.

Lemma take_rows_omap {A : Type} (index : list nat) (v r : list A) :
  take_rows index v = Ok r -> r = omap (v !!.) index.
Proof.
  unfold take_rows. revert r.
  induction index as [|i index IH]; intros r H; simpl in *.
  - by inversion H.
  - destruct (v !! i) as [x|]; simpl in *; [|discriminate].
    destruct (rmapM _ index) as [r'|]; simpl in *; [|discriminate].
    inversion H; subst. f_equal. by apply IH.
Qed.

Lemma take_rows_ok {A : Type} (index : list nat) (v : list A) :
  Forall (fun i => i < length v) index ->
  take_rows index v = Ok (omap (v !!.) index).
Proof.
  unfold take_rows. induction 1 as [|i index Hi _ IH]; simpl; [done|].
  apply lookup_lt_is_Some in Hi as [x Hx]. rewrite Hx. simpl. by rewrite IH.
Qed.

Lemma check_labels_ok (df : DataFrame) (index : list nat) :
  check_labels df index = Ok tt <-> Forall (fun i => i < nrows df) index.
Proof.
  unfold check_labels. rewrite Forall_forall. split.
  - destruct (forallb _ index) eqn:Hall; [|discriminate]. intros _ i Hi.
    rewrite forallb_forall in Hall. apply Nat.ltb_lt, Hall.
    by apply list_elem_of_In.
  - intros Hall.
    assert (forallb (fun i => (i <? nrows df)%nat) index = true) as ->; [|done].
    apply forallb_forall. intros i Hi. apply Nat.ltb_lt, Hall.
    by apply list_elem_of_In.
Qed.

Lemma check_labels_same (df df' : DataFrame) (index : list nat) :
  nrows df = nrows df' -> check_labels df index = check_labels df' index.
Proof. unfold check_labels. by intros ->. Qed.

Lemma loc_rows_checks (df df' : DataFrame) (index : list nat) :
  loc_rows df index = Ok df' -> check_labels df index = Ok tt.
Proof.
  unfold loc_rows. destruct (check_labels df index) as [[]|]; [done|discriminate].
Qed.

Lemma omap_concat {A B : Type} (f : A -> option B) (ls : list (list A)) :
  omap f (concat ls) = concat (map (omap f) ls).
Proof.
  induction ls as [|l ls IH]; simpl; [done|]. by rewrite omap_app, IH.
Qed.

Lemma omap_lookup_seq {A : Type} (v pre : list A) :
  omap ((pre ++ v) !!.) (seq (length pre) (length v)) = v.
Proof.
  revert pre. induction v as [|x v IH]; intros pre; simpl; [done|].
  rewrite list_lookup_middle by done. f_equal.
  specialize (IH (pre ++ [x])).
  rewrite <- app_assoc, length_app in IH. simpl in IH.
  by rewrite Nat.add_1_r in IH.
Qed.

Lemma omap_lookup_all {A : Type} (v : list A) :
  omap (v !!.) (seq 0 (length v)) = v.
Proof. apply (omap_lookup_seq v []). Qed.

(** The loop appends, partition after partition, the target values of the
    test rows and the predictions for them. *)
Lemma cv_loop_spec (mi data : DataFrame) (y_col : string) (rs : Z) (yc : column) :
  nrows mi = nrows data ->
  get_col data y_col = Ok yc ->
  col_len yc = nrows data ->
  forall parts preds yts yps,
    rmapM (fit_predict mi (cells yc) rs) parts = Ok preds ->
    cv_loop mi y_col rs parts yts yps data
    = (Ok (yts ++ map (fun p => omap (cells yc !!.) p.2) parts, yps ++ preds), data).
Proof.
  intros Hrows Hget Hlen.
  induction parts as [|[train test] parts IH]; intros preds yts yps Hfp.
  - simpl in *. inversion Hfp; subst. by rewrite !app_nil_r.
  - simpl in Hfp.
    apply rbind_ok in Hfp as (yp & Hp & Hfp).
    apply rbind_ok in Hfp as (preds' & Hrest & Hfp). inversion Hfp; subst preds.
    unfold Harness.fit_predict in Hp. simpl in Hp.
    apply rbind_ok in Hp as (x_train & Hxtrain & Hp).
    apply rbind_ok in Hp as (y_train & Hytrain & Hp).
    apply rbind_ok in Hp as (m & Hfit & Hp).
    apply rbind_ok in Hp as (x_test & Hxtest & Hpred).
    assert (Hrc : forall index df',
               loc_rows mi index = Ok df' ->
               loc_rows_col data index y_col = take_rows index (cells yc)).
    { intros index df' Hloc. unfold loc_rows_col.
      rewrite <- (check_labels_same mi data) by done.
      rewrite (loc_rows_checks _ _ _ Hloc). simpl. by rewrite Hget. }
    assert (Htest : take_rows test (cells yc) = Ok (omap (cells yc !!.) test)).
    { apply take_rows_ok. apply loc_rows_checks, check_labels_ok in Hxtest.
      eapply Forall_impl; [exact Hxtest|]. simpl. intros i Hi.
      unfold col_len in Hlen. lia. }
    cbn [Harness.cv_loop].
    unfold bind at 1, read at 1. rewrite (Hrc _ _ Hxtest), Htest.
    unfold bind at 1, lift at 1. rewrite Hxtrain.
    unfold bind at 1, read at 1. rewrite (Hrc _ _ Hxtrain), Hytrain.
    unfold bind at 1, lift at 1. rewrite Hfit.
    unfold bind at 1, lift at 1. rewrite Hxtest.
    unfold bind at 1, lift at 1. rewrite Hpred.
    rewrite (IH preds' _ _ Hrest). simpl. by rewrite <- !app_assoc.
Qed.

Lemma KFold_split_tests (k : Z) (n : nat) (parts : list (list nat * list nat)) :
  (2 <= k)%Z -> KFold_split (mkKFold k) n = Ok parts ->
  concat (map snd parts) = seq 0 n /\ (k <= Z.of_nat n)%Z /\ length parts = Z.to_nat k.
Proof.
  intros Hk. unfold KFold_split. simpl.
  destruct (Z.ltb_spec (Z.of_nat n) k) as [?|Hle]; [discriminate|].
  intros H. inversion H; subst parts. clear H.
  unfold KFold_iter_test_indices, arange. simpl.
  set (sizes := fold_sizes (Z.to_nat k) n).
  assert (Hsum : sum_list sizes = n) by (apply fold_sizes_sum; lia).
  rewrite kfold_iter_runs, split_masks_runs by lia.
  rewrite map_map. simpl. rewrite map_id, concat_runs, Hsum.
  split; [done|]. split; [done|]. rewrite length_map.
  assert (forall c, length (runs c sizes) = length sizes) as ->.
  { generalize sizes. intros l. induction l; intros c; simpl; congruence. }
  apply fold_sizes_length.
Qed.

Lemma LeaveOneOut_split_tests (n : nat) (parts : list (list nat * list nat)) :
  LeaveOneOut_split n = Ok parts ->
  concat (map snd parts) = seq 0 n /\ 2 <= n /\ length parts = n.
Proof.
  unfold LeaveOneOut_split, arange.
  destruct (Nat.leb_spec n 1) as [?|Hlt]; [discriminate|].
  intros H. inversion H; subst parts. clear H.
  rewrite split_masks_singletons, map_map, length_map, length_seq. simpl.
  by rewrite concat_singletons.
Qed.

(** The strategies registered under a name other than ["insample"]. *)
Lemma emitted_cases (validator : string) (n : nat) (parts : list (list nat * list nat)) :
  emitted validator n = Ok parts ->
  (validator = "loocv" /\ LeaveOneOut_split n = Ok parts) \/
  (validator = "5foldcv" /\ KFold_split (mkKFold 5) n = Ok parts) \/
  (validator = "15foldcv" /\ KFold_split (mkKFold 15) n = Ok parts) \/
  (validator = "20foldcv" /\ KFold_split (mkKFold 20) n = Ok parts).
Proof.
  unfold emitted. rewrite VALIDATORS_ok. cbn [rbind]. unfold getitem.
  rewrite !lookup_insert, lookup_empty.
  repeat case_decide; subst; cbn [rbind split]; intros Hs;
    try discriminate; tauto.
Qed.

Lemma emitted_tests (validator : string) (n : nat) (parts : list (list nat * list nat)) :
  emitted validator n = Ok parts ->
  concat (map snd parts) = seq 0 n /\ 2 <= n /\ parts <> [].
Proof.
  intros H.
  assert (concat (map snd parts) = seq 0 n /\ 2 <= n) as [Hcat Hn].
  { apply emitted_cases in H.
    destruct H as [[_ H1]|[[_ H1]|[[_ H1]|[_ H1]]]].
    - apply LeaveOneOut_split_tests in H1 as (H2 & H3 & _). by split.
    - apply KFold_split_tests in H1 as (H2 & H3 & _); [|lia]. split; [done|lia].
    - apply KFold_split_tests in H1 as (H2 & H3 & _); [|lia]. split; [done|lia].
    - apply KFold_split_tests in H1 as (H2 & H3 & _); [|lia]. split; [done|lia]. }
  repeat split; [done..|]. intros ->. simpl in Hcat.
  destruct n as [|n]; [lia|discriminate].
Qed.

Lemma loc_cols_nrows (df selected : DataFrame) (x_cols : list string) :
  loc_cols df x_cols = Ok selected -> nrows selected = nrows df.
Proof.
  unfold loc_cols. intros H. apply rbind_ok in H as (cs & _ & H).
  by inversion H.
Qed.

Lemma get_dummies_nrows (df mi : DataFrame) :
  get_dummies df = Ok mi -> nrows mi = nrows df.
Proof.
  unfold get_dummies. destruct (cols df); intros H; by inversion H.
Qed.

Lemma get_dummies_raises (df : DataFrame) (e : exn) :
  get_dummies df = Raise e -> e = ValueError.
Proof.
  unfold get_dummies. destruct (cols df); intros H; by inversion H.
Qed.

Lemma get_dummies_columns (df : DataFrame) :
  cols df <> [] ->
  get_dummies df
  = Ok (mkDF (nrows df)
          (List.filter is_numeric (cols df) ++ flat_map dummies (cols df))).
Proof. unfold get_dummies. by destruct (cols df). Qed.

Lemma model_input_nrows (data selected mi : DataFrame) (x_cols : list string) :
  loc_cols data x_cols = Ok selected -> get_dummies selected = Ok mi ->
  nrows mi = nrows data.
Proof.
  intros Hsel Hmi. apply get_dummies_nrows in Hmi. apply loc_cols_nrows in Hsel.
  congruence.
Qed.

Lemma test_rows_in_order (data : DataFrame) (y_col : string) (yc : column)
    (validator : string) (parts : list (list nat * list nat)) :
  wf_frame data ->
  get_col data y_col = Ok yc ->
  emitted validator (nrows data) = Ok parts ->
  concat (map (fun p => omap (cells yc !!.) p.2) parts) = cells yc.
Proof.
  intros Hwf Hget Hparts.
  pose proof (wf_col_len _ _ _ Hwf Hget) as Hlen.
  pose proof (emitted_tests _ _ _ Hparts) as (Hcat & _ & _).
  rewrite <- (map_map snd (omap (cells yc !!.))), <- omap_concat, Hcat.
  unfold col_len in Hlen. rewrite <- Hlen. apply omap_lookup_all.
Qed.

Lemma cross_validation_cv
    (data selected model_input : DataFrame) (x_cols : list string)
    (y_col : string) (random_state : Z) (yc : column) (validator : string)
    (parts : list (list nat * list nat)) (preds : list (list Qc)) :
  wf_frame data ->
  loc_cols data x_cols = Ok selected ->
  get_dummies selected = Ok model_input ->
  get_col data y_col = Ok yc ->
  validator <> "insample" ->
  emitted validator (nrows data) = Ok parts ->
  rmapM (fit_predict model_input (cells yc) random_state) parts = Ok preds ->
  cross_validation x_cols y_col random_state validator data
  = (Ok (concat (map (fun p => omap (cells yc !!.) p.2) parts), concat preds), data).
Proof.
  intros Hwf Hsel Hmi Hget Hv Hparts Hpreds.
  pose proof (wf_col_len _ _ _ Hwf Hget) as Hlen.
  pose proof (emitted_tests _ _ _ Hparts) as (Hcat & HN & Hne).
  pose proof (model_input_nrows _ _ _ _ Hsel Hmi) as Hrows.
  unfold Harness.cross_validation. rewrite VALIDATORS_ok.
  unfold bind at 1, lift at 1. unfold bind at 1, read at 1. rewrite Hsel.
  unfold bind at 1, lift at 1. rewrite Hmi.
  rewrite (proj2 (String.eqb_neq validator "insample") Hv).
  unfold emitted in Hparts. rewrite VALIDATORS_ok in Hparts. simpl in Hparts.
  apply rbind_ok in Hparts as (sp & Hsp & Hsplit).
  unfold bind at 1, lift at 1. rewrite Hsp.
  unfold bind at 1, lift at 1. rewrite Hrows, Hsplit.
  rewrite (bind_ok _ _ _ _ _
             (cv_loop_spec _ _ _ _ _ Hrows Hget Hlen parts preds [] [] Hpreds)).
  cbn beta. cbn [fst snd app].
  assert (Hpne : preds <> []).
  { apply rmapM_length in Hpreds. destruct preds, parts; simpl in *; congruence. }
  unfold bind, lift, np_concatenate, ret.
  destruct parts as [|p parts]; [done|]. destruct preds as [|yp preds]; [done|].
  done.
Qed.

Lemma cross_validation_insample
    (data selected model_input : DataFrame) (x_cols : list string)
    (y_col : string) (random_state : Z) (yc : column) :
  loc_cols data x_cols = Ok selected ->
  get_dummies selected = Ok model_input ->
  get_col data y_col = Ok yc ->
  cross_validation x_cols y_col random_state "insample" data
  = (rbind (fit random_state model_input (cells yc)) (fun m =>
     rbind (predict m model_input) (fun y_pred =>
     Ok (cells yc, y_pred))), data).
Proof.
  intros Hsel Hmi Hget.
  unfold Harness.cross_validation. rewrite VALIDATORS_ok.
  unfold bind at 1, lift at 1. unfold bind at 1, read at 1. rewrite Hsel.
  unfold bind at 1, lift at 1. rewrite Hmi.
  rewrite String.eqb_refl.
  unfold bind, read, lift, ret, loc_col. rewrite Hget. simpl.
  destruct (fit random_state model_input (cells yc)) as [m|e]; [|done].
  simpl. by destruct (predict m model_input).
Qed.

(** Without input columns nothing is encoded: the call fails with the
    value error of [pd.get_dummies]. *)
Lemma cross_validation_not_encoded
    (data selected : DataFrame) (x_cols : list string) (y_col : string)
    (random_state : Z) (validator : string) (e : exn) :
  loc_cols data x_cols = Ok selected ->
  get_dummies selected = Raise e ->
  cross_validation x_cols y_col random_state validator data
  = (Raise ValueError, data).
Proof.
  intros Hsel Hmi. rewrite (get_dummies_raises _ _ Hmi) in Hmi.
  unfold Harness.cross_validation. rewrite VALIDATORS_ok.
  unfold bind at 1, lift at 1. unfold bind at 1, read at 1. rewrite Hsel.
  unfold bind at 1, lift at 1. by rewrite Hmi.
Qed.

(** C3: on a table whose input columns are encoded (there is at least
    one), the harness returns the target values and the predictions of
    the partitions laid end to end, in the order the strategy emits the
    partitions and, within a partition, in the order of its test rows;
    nothing is sorted afterwards.  For the registered strategies
    ([LeaveOneOut] and the index-ordered [KFold]s) the test rows laid end
    to end are [0 .. N-1], so the returned target values are the target
    column in its original row order.  In-sample evaluation returns the
    target column and the predictions for all rows. *)
Theorem cross_validation_order
    (data selected model_input : DataFrame) (x_cols : list string)
    (y_col : string) (random_state : Z) (yc : column) (validator : string)
    (parts : list (list nat * list nat)) (preds : list (list Qc)) :
  wf_frame data ->
  loc_cols data x_cols = Ok selected ->
  get_dummies selected = Ok model_input ->
  get_col data y_col = Ok yc ->
  validator <> "insample" ->
  emitted validator (nrows data) = Ok parts ->
  rmapM (fit_predict model_input (cells yc) random_state) parts = Ok preds ->
  cross_validation x_cols y_col random_state validator data
  = (Ok (concat (map (fun p => omap (cells yc !!.) p.2) parts), concat preds), data) /\
  concat (map snd parts) = seq 0 (nrows data) /\
  concat (map (fun p => omap (cells yc !!.) p.2) parts) = cells yc /\
  cross_validation x_cols y_col random_state "insample" data
  = (rbind (fit random_state model_input (cells yc)) (fun m =>
     rbind (predict m model_input) (fun y_pred =>
     Ok (cells yc, y_pred))), data).
Proof.
  intros Hwf Hsel Hmi Hget Hv Hparts Hpreds.
  split; [by eapply cross_validation_cv|].
  split; [by apply (emitted_tests _ _ _ Hparts)|].
  split; [by eapply test_rows_in_order|].
  by eapply cross_validation_insample.
Qed.

Lemma rmapM_is_ok {A B : Type} (f : A -> result B) (l : list A) :
  Forall (fun x => is_ok (f x)) l -> is_ok (rmapM f l).
Proof.
  induction 1 as [|x l [y Hy] _ [ys IH]]; simpl.
  - by exists [].
  - rewrite Hy, IH. simpl. by eexists.
Qed.

Lemma loc_cols_wf (df selected : DataFrame) (x_cols : list string) :
  wf_frame df -> loc_cols df x_cols = Ok selected -> wf_frame selected.
Proof.
  unfold loc_cols. intros Hwf H. apply rbind_ok in H as (cs & Hcs & H).
  inversion H; subst selected. clear H. unfold wf_frame. simpl.
  revert cs Hcs. induction x_cols as [|x x_cols IH]; intros cs Hcs; simpl in Hcs.
  - inversion Hcs. constructor.
  - apply rbind_ok in Hcs as (nc & Hnc & Hcs).
    apply rbind_ok in Hcs as (cs' & Hcs' & Hcs). inversion Hcs; subst cs.
    apply rbind_ok in Hnc as (c & Hc & Hnc). inversion Hnc; subst nc.
    constructor; [|by apply IH]. simpl. by apply (wf_col_len df x).
Qed.

Lemma get_dummies_wf (df mi : DataFrame) :
  wf_frame df -> get_dummies df = Ok mi -> wf_frame mi.
Proof.
  unfold get_dummies. intros Hwf Hmi.
  assert (mi = mkDF (nrows df)
                 (List.filter is_numeric (cols df) ++ flat_map dummies (cols df)))
    as -> by (destruct (cols df); by inversion Hmi).
  clear Hmi. unfold wf_frame in *. simpl.
  apply Forall_app. split.
  - induction Hwf as [|nc l Hnc _ IH]; simpl; [constructor|].
    destruct (is_numeric nc); [constructor|]; done.
  - induction Hwf as [|[name c] l Hnc _ IH]; simpl; [constructor|].
    apply Forall_app. split; [|done].
    unfold dummies. simpl. destruct c as [v|v]; [constructor|].
    apply Forall_forall. intros nc Hin.
    apply list_elem_of_In, in_map_iff in Hin as (cat & <- & _). simpl.
    unfold col_len in *. simpl in *. by rewrite !length_map in *.
Qed.

Lemma col_rows_ok (index : list nat) (c : column) :
  Forall (fun i => i < col_len c) index -> is_ok (col_rows index c).
Proof.
  intros Hidx. unfold col_len in Hidx.
  destruct c as [v|v]; simpl in *; rewrite length_map in Hidx;
    rewrite (take_rows_ok index v Hidx); simpl; by eexists.
Qed.

Lemma loc_rows_ok (df : DataFrame) (index : list nat) :
  wf_frame df -> Forall (fun i => i < nrows df) index ->
  exists x, loc_rows df index = Ok x /\ nrows x = length index.
Proof.
  intros Hwf Hidx. unfold loc_rows.
  rewrite (proj2 (check_labels_ok df index) Hidx). simpl.
  destruct (rmapM_is_ok
              (fun nc : string * column =>
                 rbind (col_rows index nc.2) (fun c => Ok (nc.1, c))) (cols df))
    as [cs Hcs].
  - unfold wf_frame in Hwf. eapply Forall_impl; [exact Hwf|].
    intros nc Hlen. simpl in Hlen.
    destruct (col_rows_ok index nc.2) as [c Hc]; [by rewrite Hlen|].
    rewrite Hc. simpl. by eexists.
  - rewrite Hcs. simpl. by eexists.
Qed.

Lemma filter_out_segment_length (n cur sz : nat) :
  cur + sz <= n ->
  length (List.filter (fun i => negb (bool_decide (i ∈ seq cur sz))) (seq 0 n))
  = n - sz.
Proof.
  intros Hle.
  replace n with (cur + (sz + (n - (cur + sz)))) at 1 by lia.
  rewrite !seq_app, !List.filter_app. simpl.
  rewrite filter_all, filter_none, filter_all.
  - rewrite !length_app, !length_seq. simpl. lia.
  - intros x Hx. apply elem_of_seq in Hx. apply negb_true_iff, bool_decide_eq_false.
    rewrite elem_of_seq. lia.
  - intros x Hx. by apply negb_false_iff, bool_decide_eq_true.
  - intros x Hx. apply elem_of_seq in Hx. apply negb_true_iff, bool_decide_eq_false.
    rewrite elem_of_seq. lia.
Qed.

Lemma runs_proper (n : nat) (sizes : list nat) (cur : nat) :
  cur + sum_list sizes <= n ->
  Forall (fun sz => sz < n) sizes ->
  Forall (proper_part n)
    (map (fun t => (List.filter (fun i => negb (bool_decide (i ∈ t))) (seq 0 n), t))
         (runs cur sizes)).
Proof.
  intros Hsum Hlt. revert cur Hsum.
  induction Hlt as [|sz sizes Hsz _ IH]; intros cur Hsum; simpl in *.
  - constructor.
  - constructor; [|apply IH; lia].
    exists cur, sz. split; [done|]. lia.
Qed.

Lemma fold_sizes_lt (k n : nat) :
  2 <= k -> k <= n -> Forall (fun sz => sz < n) (fold_sizes k n).
Proof.
  intros Hk Hn. unfold fold_sizes. simpl.
  assert (Hk0 : k <> 0) by lia.
  pose proof (Nat.div_mod n k Hk0) as Hdm.
  pose proof (Nat.mod_upper_bound n k Hk0) as Hr.
  assert (Hq : 1 <= n / k) by (apply Nat.div_str_pos; lia).
  rewrite take_replicate, drop_replicate.
  apply Forall_app. split.
  - destruct (n mod k) as [|r] eqn:Hmod; [constructor|].
    apply Forall_forall. intros sz Hin.
    apply list_elem_of_In, in_map_iff in Hin as (q & <- & Hq').
    apply list_elem_of_In, elem_of_replicate in Hq' as [-> _]. nia.
  - apply Forall_forall. intros sz Hin.
    apply elem_of_replicate in Hin as [-> _]. nia.
Qed.

Lemma emitted_proper (validator : string) (n : nat) (parts : list (list nat * list nat)) :
  emitted validator n = Ok parts -> Forall (proper_part n) parts.
Proof.
  intros H. apply emitted_cases in H.
  assert (HK : forall k, (2 <= k)%Z -> KFold_split (mkKFold k) n = Ok parts ->
                         Forall (proper_part n) parts).
  { intros k Hk. unfold KFold_split. simpl.
    destruct (Z.ltb_spec (Z.of_nat n) k) as [?|Hle]; [discriminate|].
    intros Hs. inversion Hs; subst parts.
    unfold KFold_iter_test_indices, arange. simpl.
    assert (sum_list (fold_sizes (Z.to_nat k) n) = n) as Hsum
      by (apply fold_sizes_sum; lia).
    rewrite kfold_iter_runs, split_masks_runs by lia.
    apply runs_proper; [lia|]. apply fold_sizes_lt; lia. }
  destruct H as [[_ H1]|[[_ H1]|[[_ H1]|[_ H1]]]];
    [|apply (HK 5%Z); [lia|done]|apply (HK 15%Z); [lia|done]
     |apply (HK 20%Z); [lia|done]].
  unfold LeaveOneOut_split, arange in H1.
  destruct (Nat.leb_spec n 1) as [?|Hlt]; [discriminate|].
  inversion H1; subst parts. rewrite split_masks_spec, map_map.
  apply Forall_forall. intros p Hp.
  apply list_elem_of_In, in_map_iff in Hp as (i & <- & Hi). apply in_seq in Hi.
  exists i, 1. split; [|lia]. f_equal.
  change [i] with (seq i 1). apply filter_seq_segment. lia.
Qed.

Section TotalLearner.

(** The learner fits whenever it is given at least one row, and predicts
    one value per row. *)
Hypothesis fit_total :
  forall rs x y, 0 < nrows x -> is_ok (fit rs x y).
Hypothesis predict_total :
  forall m x, exists ys, predict m x = Ok ys /\ length ys = nrows x.

Lemma fit_predict_proper (mi : DataFrame) (targets : Series) (rs : Z)
    (p : list nat * list nat) :
  wf_frame mi -> length targets = nrows mi -> proper_part (nrows mi) p ->
  exists yp, fit_predict mi targets rs p = Ok yp /\ length yp = length p.2.
Proof using fit_total predict_total.
  intros Hwf Hlen (cur & sz & -> & Hle & Hlt). unfold Harness.fit_predict. simpl.
  set (train := List.filter _ _).
  assert (Htrain : Forall (fun i => i < nrows mi) train).
  { apply Forall_forall. intros i Hi.
    apply list_elem_of_In, filter_In in Hi as [Hi _]. apply in_seq in Hi. lia. }
  assert (Htest : Forall (fun i => i < nrows mi) (seq cur sz)).
  { apply Forall_forall. intros i Hi. apply elem_of_seq in Hi. lia. }
  destruct (loc_rows_ok mi train Hwf Htrain) as (x_train & -> & Hxn). simpl.
  rewrite take_rows_ok by (by rewrite Hlen). simpl.
  match goal with
  | |- context [fit rs x_train ?y] =>
      destruct (fit_total rs x_train y) as [m ->]
  end.
  { rewrite Hxn. unfold train. rewrite filter_out_segment_length by done. lia. }
  simpl.
  destruct (loc_rows_ok mi (seq cur sz) Hwf Htest) as (x_test & -> & Hxt). simpl.
  destruct (predict_total m x_test) as (ys & -> & Hys).
  exists ys. split; [done|]. by rewrite Hys, Hxt.
Qed.

Lemma fit_predict_all (mi : DataFrame) (targets : Series) (rs : Z)
    (parts : list (list nat * list nat)) :
  wf_frame mi -> length targets = nrows mi ->
  Forall (proper_part (nrows mi)) parts ->
  exists preds,
    rmapM (fit_predict mi targets rs) parts = Ok preds /\
    length (concat preds) = length (concat (map snd parts)).
Proof using fit_total predict_total.
  intros Hwf Hlen. induction 1 as [|p parts Hp _ (preds & IH & IHlen)]; simpl.
  - by exists [].
  - destruct (fit_predict_proper mi targets rs p Hwf Hlen Hp) as (yp & -> & Hyp).
    rewrite IH. simpl. eexists. split; [done|].
    simpl. rewrite !length_app. congruence.
Qed.

Lemma total_learns (mi : DataFrame) (targets : Series) (rs : Z) :
  wf_frame mi -> length targets = nrows mi -> 0 < nrows mi ->
  learns mi targets rs.
Proof using fit_total predict_total.
  intros Hwf Hlen Hpos. split.
  - destruct (fit_total rs mi targets Hpos) as [m ->]. simpl.
    destruct (predict_total m mi) as (ys & -> & _). by eexists.
  - intros validator parts Hparts.
    destruct (fit_predict_all mi targets rs parts Hwf Hlen) as (preds & -> & _);
      [by eapply emitted_proper|by eexists].
Qed.

End TotalLearner.

Lemma loc_rows_nrows (df x : DataFrame) (index : list nat) :
  loc_rows df index = Ok x -> nrows x = length index.
Proof.
  unfold loc_rows. intros H. apply rbind_ok in H as (_ & _ & H).
  apply rbind_ok in H as (cs & _ & H). by inversion H.
Qed.

Lemma fit_predict_length (mi : DataFrame) (targets : Series) (rs : Z)
    (p : list nat * list nat) (yp : list Qc) :
  (forall m x ys, predict m x = Ok ys -> length ys = nrows x) ->
  fit_predict mi targets rs p = Ok yp -> length yp = length p.2.
Proof.
  intros Hpredict H. unfold Harness.fit_predict in H.
  apply rbind_ok in H as (x_train & _ & H).
  apply rbind_ok in H as (y_train & _ & H).
  apply rbind_ok in H as (m & _ & H).
  apply rbind_ok in H as (x_test & Hx & H).
  apply Hpredict in H. apply loc_rows_nrows in Hx. lia.
Qed.

Lemma fit_predict_lengths (mi : DataFrame) (targets : Series) (rs : Z)
    (parts : list (list nat * list nat)) (preds : list (list Qc)) :
  (forall m x ys, predict m x = Ok ys -> length ys = nrows x) ->
  rmapM (fit_predict mi targets rs) parts = Ok preds ->
  length (concat preds) = length (concat (map snd parts)).
Proof.
  intros Hpredict. revert preds.
  induction parts as [|p parts IH]; intros preds H; simpl in H.
  - by inversion H.
  - apply rbind_ok in H as (yp & Hyp & H).
    apply rbind_ok in H as (preds' & Hpreds & H). inversion H; subst.
    simpl. rewrite !length_app, (IH _ Hpreds).
    by rewrite (fit_predict_length _ _ _ _ _ Hpredict Hyp).
Qed.

Lemma fit_predict_Forall (P : Qc -> Prop) (mi : DataFrame) (targets : Series)
    (rs : Z) (parts : list (list nat * list nat)) (preds : list (list Qc)) :
  (forall m x ys, predict m x = Ok ys -> Forall P ys) ->
  rmapM (fit_predict mi targets rs) parts = Ok preds ->
  Forall P (concat preds).
Proof.
  intros Hpredict. revert preds.
  induction parts as [|p parts IH]; intros preds H; simpl in H.
  - inversion H. constructor.
  - apply rbind_ok in H as (yp & Hyp & H).
    apply rbind_ok in H as (preds' & Hpreds & H). inversion H; subst.
    simpl. apply Forall_app. split; [|by apply IH].
    unfold Harness.fit_predict in Hyp.
    apply rbind_ok in Hyp as (x_train & _ & Hyp).
    apply rbind_ok in Hyp as (y_train & _ & Hyp).
    apply rbind_ok in Hyp as (m & _ & Hyp).
    apply rbind_ok in Hyp as (x_test & _ & Hyp). by eapply Hpredict.
Qed.

Lemma r2_score_ok (y_true y_pred : list Qc) :
  length y_true = length y_pred -> 1 <= length y_true ->
  Forall in_range y_true -> Forall in_range y_pred ->
  is_ok (r2_score np_sum y_true y_pred).
Proof.
  intros Hlen H1 Ht Hp. unfold r2_score. rewrite <- Hlen, Nat.eqb_refl.
  simpl negb. cbv iota.
  destruct (Nat.eqb_spec (length y_true) 0) as [?|_]; [lia|]. cbv zeta.
  rewrite (proj2 (is_finite_in_range y_true) Ht).
  rewrite (proj2 (is_finite_in_range y_pred) Hp). simpl negb. cbv iota.
  repeat match goal with
         | |- context [if ?b then _ else _] => destruct b
         end; by eexists.
Qed.

Lemma r2_score_ok_or_refused (y_true y_pred : list Qc) :
  is_ok (r2_score np_sum y_true y_pred) \/
  r2_score np_sum y_true y_pred = Raise ValueError.
Proof.
  destruct (r2_score np_sum y_true y_pred) as [x|e] eqn:H; [left; by eexists|].
  right. by rewrite (r2_score_raises _ _ _ _ H).
Qed.

Lemma float_of_cells_num (v : list Qc) :
  rmapM (Harness.float_of_cell float_of_string) (map Num v) = Ok v.
Proof. induction v as [|q v IH]; simpl; [done|]. by rewrite IH. Qed.

Lemma score_num (v y_pred : list Qc) :
  score (map Num v) y_pred = r2_score np_sum v y_pred.
Proof. unfold Harness.score. by rewrite float_of_cells_num. Qed.

Lemma emitted_ok (validator : string) (n : nat) :
  20 <= n ->
  validator ∈ ["loocv"; "5foldcv"; "15foldcv"; "20foldcv"]%string ->
  is_ok (emitted validator n).
Proof.
  intros Hn Hin. unfold emitted. rewrite VALIDATORS_ok. cbn [rbind].
  unfold getitem.
  repeat (apply elem_of_cons in Hin as [->|Hin]);
    [..|by apply elem_of_nil in Hin];
    rewrite !lookup_insert; repeat (case_decide; [|try done]);
    try discriminate; cbn [rbind split];
    unfold LeaveOneOut_split, KFold_split; cbn [n_splits].
  - destruct (Nat.leb_spec n 1) as [?|_]; [lia|]. by eexists.
  - destruct (Z.ltb_spec (Z.of_nat n) 5) as [?|_]; [lia|]. by eexists.
  - destruct (Z.ltb_spec (Z.of_nat n) 15) as [?|_]; [lia|]. by eexists.
  - destruct (Z.ltb_spec (Z.of_nat n) 20) as [?|_]; [lia|]. by eexists.
Qed.

(** A run on which the learner fits and predicts returns the target
    column and one prediction per row. *)
Lemma run_returns
    (data selected mi : DataFrame) (x_cols : list string) (y_col : string)
    (rs : Z) (yc : column) (validator : string) :
  (forall m x ys, predict m x = Ok ys -> length ys = nrows x) ->
  wf_frame data ->
  loc_cols data x_cols = Ok selected ->
  get_dummies selected = Ok mi ->
  get_col data y_col = Ok yc ->
  learns mi (cells yc) rs ->
  validator = "insample"%string \/
  (validator <> "insample"%string /\ is_ok (emitted validator (nrows data))) ->
  exists y_pred,
    cross_validation x_cols y_col rs validator data = (Ok (cells yc, y_pred), data) /\
    length y_pred = nrows data /\
    forall P : Qc -> Prop,
      (forall m x ys, predict m x = Ok ys -> Forall P ys) -> Forall P y_pred.
Proof.
  intros Hpredict Hwf Hsel Hmi Hget [Hin Hcv] Hv.
  pose proof (model_input_nrows _ _ _ _ Hsel Hmi) as Hrows.
  destruct Hv as [->|[Hv [parts Hparts]]].
  - rewrite (cross_validation_insample _ _ _ _ _ _ _ Hsel Hmi Hget).
    destruct Hin as [yp Hyp].
    apply rbind_ok in Hyp as (m & Hm & Hyp). rewrite Hm. cbn [rbind].
    rewrite Hyp. cbn [rbind].
    exists yp. split; [done|]. split.
    + apply Hpredict in Hyp. lia.
    + intros P HP. by eapply HP.
  - rewrite <- Hrows in Hparts.
    destruct (Hcv validator parts Hparts) as [preds Hpreds].
    rewrite Hrows in Hparts.
    rewrite (cross_validation_cv _ _ _ _ _ _ _ _ _ _ Hwf Hsel Hmi Hget Hv
               Hparts Hpreds).
    rewrite (test_rows_in_order _ _ _ _ _ Hwf Hget Hparts).
    pose proof (emitted_tests _ _ _ Hparts) as (Hcat & _ & _).
    exists (concat preds). split; [done|]. split.
    + by rewrite (fit_predict_lengths _ _ _ _ _ Hpredict Hpreds), Hcat, length_seq.
    + intros P HP. by eapply fit_predict_Forall.
Qed.

(** A run on a numeric target in float range, with predictions in float
    range, is scored. *)
Lemma run_scored
    (data selected mi : DataFrame) (x_cols : list string) (y_col : string)
    (rs : Z) (v : list Qc) (validator : string) :
  (forall m x ys, predict m x = Ok ys ->
                  length ys = nrows x /\ Forall in_range ys) ->
  wf_frame data ->
  1 <= nrows data ->
  loc_cols data x_cols = Ok selected ->
  get_dummies selected = Ok mi ->
  get_col data y_col = Ok (NumCol v) ->
  Forall in_range v ->
  learns mi (map Num v) rs ->
  validator = "insample"%string \/
  (validator <> "insample"%string /\ is_ok (emitted validator (nrows data))) ->
  exists ys s,
    cross_validation x_cols y_col rs validator data = (Ok ys, data) /\
    score ys.1 ys.2 = Ok s.
Proof.
  intros Hpredict Hwf HN Hsel Hmi Hget Hv Hlearns Hval.
  pose proof (wf_col_len _ _ _ Hwf Hget) as Hlen.
  unfold col_len in Hlen. simpl in Hlen. rewrite length_map in Hlen.
  destruct (run_returns data selected mi x_cols y_col rs (NumCol v) validator)
    as (y_pred & Hrun & Hplen & HP); try done.
  { intros m x ys H. by apply Hpredict in H as [? _]. }
  destruct (r2_score_ok v y_pred) as [s Hs]; [lia|lia|done| |].
  { apply HP. intros m x ys H. by apply Hpredict in H as [_ ?]. }
  exists (map Num v, y_pred), s. split; [done|]. simpl. by rewrite score_num.
Qed.

Lemma calc_R2s_mapping
    (data selected model_input : DataFrame) (x_cols : list string)
    (y_col : string) (v : list Qc) :
  (forall m x ys, predict m x = Ok ys ->
                  length ys = nrows x /\ Forall in_range ys) ->
  wf_frame data ->
  20 <= nrows data ->
  loc_cols data x_cols = Ok selected ->
  get_dummies selected = Ok model_input ->
  get_col data y_col = Ok (NumCol v) ->
  Forall in_range v ->
  learns model_input (map Num v) 1234 ->
  exists (r2_values : gmap string pyfloat) (s1 s2 s3 s4 s5 : pyfloat),
    calc_R2s x_cols y_col data = (Ok r2_values, data) /\
    (forall name,
       r2_values !! name
       = assoc name [ ("In Sample", s1); ("Leave One Out CV", s2);
                      ("5 Fold CV", s3); ("15 Fold CV", s4);
                      ("20 Fold CV", s5) ]%string) /\
    size r2_values = 5 /\
    Forall2 (fun validator s =>
               exists ys,
                 cross_validation x_cols y_col 1234 validator data = (Ok ys, data) /\
                 score ys.1 ys.2 = Ok s)
            (map fst validators) [s1; s2; s3; s4; s5].
Proof.
  intros Hpredict Hwf HN Hsel Hmi Hget Hv Hlearns.
  assert (Hrun : forall validator,
             validator ∈ ["insample"; "loocv"; "5foldcv"; "15foldcv"; "20foldcv"]%string ->
             exists ys s,
               cross_validation x_cols y_col 1234 validator data = (Ok ys, data) /\
               score ys.1 ys.2 = Ok s).
  { intros validator Hin.
    apply (run_scored data selected model_input x_cols y_col 1234 v validator);
      try done; [lia|].
    apply elem_of_cons in Hin as [->|Hin]; [by left|right]. split.
    - intros ->. repeat (apply elem_of_cons in Hin as [Hin|Hin]; [discriminate|]).
      by apply elem_of_nil in Hin.
    - by apply emitted_ok. }
  destruct (Hrun "insample"%string) as (ys1 & q1 & Hc1 & Hs1); [apply list_elem_of_In; simpl; tauto|].
  destruct (Hrun "loocv"%string) as (ys2 & q2 & Hc2 & Hs2); [apply list_elem_of_In; simpl; tauto|].
  destruct (Hrun "5foldcv"%string) as (ys3 & q3 & Hc3 & Hs3); [apply list_elem_of_In; simpl; tauto|].
  destruct (Hrun "15foldcv"%string) as (ys4 & q4 & Hc4 & Hs4); [apply list_elem_of_In; simpl; tauto|].
  destruct (Hrun "20foldcv"%string) as (ys5 & q5 & Hc5 & Hs5); [apply list_elem_of_In; simpl; tauto|].
  eexists _, q1, q2, q3, q4, q5.
  split; [|split; [|split]].
  - unfold Harness.calc_R2s, validators. cbn [Harness.calc_loop].
    rewrite (bind_ok _ _ _ _ _ Hc1). unfold bind at 1, lift at 1. rewrite Hs1.
    rewrite (bind_ok _ _ _ _ _ Hc2). unfold bind at 1, lift at 1. rewrite Hs2.
    rewrite (bind_ok _ _ _ _ _ Hc3). unfold bind at 1, lift at 1. rewrite Hs3.
    rewrite (bind_ok _ _ _ _ _ Hc4). unfold bind at 1, lift at 1. rewrite Hs4.
    rewrite (bind_ok _ _ _ _ _ Hc5). unfold bind at 1, lift at 1. rewrite Hs5.
    reflexivity.
  - intros name. rewrite !lookup_insert, lookup_empty. cbn [assoc].
    repeat case_decide; subst; try done;
      repeat match goal with
             | |- context [String.eqb ?a ?b] =>
                 destruct (String.eqb_spec a b); try done
             end.
  - reflexivity.
  - repeat constructor; eauto.
Qed.

(** C4, as the code has it: on a table of at least 20 rows whose input
    columns are encoded (there is at least one), with a numeric target in
    float range and a learner that fits and predicts on the table and on
    every partition, [calc_R2s] returns a mapping with exactly five
    entries: the display names "In Sample", "Leave One Out CV",
    "5 Fold CV", "15 Fold CV" and "20 Fold CV", each bound to the R² score
    of the pair that [cross_validation] returns for that strategy with the
    default seed.  The table is left as it was. *)
Theorem calc_R2s_scores
    (data selected model_input : DataFrame) (x_cols : list string)
    (y_col : string) (v : list Qc) :
  (forall m x ys, predict m x = Ok ys ->
                  length ys = nrows x /\ Forall in_range ys) ->
  wf_frame data ->
  20 <= nrows data ->
  loc_cols data x_cols = Ok selected ->
  get_dummies selected = Ok model_input ->
  get_col data y_col = Ok (NumCol v) ->
  Forall in_range v ->
  learns model_input (map Num v) 1234 ->
  exists (r2_values : gmap string pyfloat) (s1 s2 s3 s4 s5 : pyfloat),
    calc_R2s x_cols y_col data = (Ok r2_values, data) /\
    (forall name,
       r2_values !! name
       = assoc name [ ("In Sample", s1); ("Leave One Out CV", s2);
                      ("5 Fold CV", s3); ("15 Fold CV", s4);
                      ("20 Fold CV", s5) ]%string) /\
    size r2_values = 5 /\
    Forall2 (fun validator s =>
               exists ys,
                 cross_validation x_cols y_col 1234 validator data = (Ok ys, data) /\
                 score ys.1 ys.2 = Ok s)
            (map fst validators) [s1; s2; s3; s4; s5].
Proof.
  intros Hpredict Hwf HN Hsel Hmi Hget Hv Hlearns.
  by apply (calc_R2s_mapping data selected model_input x_cols y_col v).
Qed.

End HarnessFacts.

(** ** The harness on the sample data *)

Example cross_validation_5_fold_of_7 :
  Harness.cross_validation nat Samples.count_fit Samples.count_predict
    ["Cu (%)"; "temper"] "TYS" 1234 "5foldcv" (Samples.alloys 7)
  = (Ok (map Frame.Num (Samples.targets 7), concat Samples.counts_5_of_7),
     Samples.alloys 7).
Proof. vm_compute. reflexivity. Qed.

Lemma cross_validation_order_witness :
  let data := Samples.alloys 7 in
  let x_cols := ["Cu (%)"; "temper"] in
  let yc := Frame.NumCol (Samples.targets 7) in
  let cv := Harness.cross_validation nat Samples.count_fit Samples.count_predict in
  Frame.wf_frame data /\
  Frame.loc_cols data x_cols = Ok (Samples.features 7) /\
  Frame.get_dummies (Samples.features 7) = Ok (Samples.encoded 7) /\
  Frame.get_col data "TYS" = Ok yc /\
  "5foldcv" <> "insample" /\
  Harness.emitted "5foldcv" (Frame.nrows data) = Ok Samples.folds_5_of_7 /\
  rmapM (Harness.fit_predict nat Samples.count_fit Samples.count_predict
           (Samples.encoded 7) (Frame.cells yc) 1234)
        Samples.folds_5_of_7 = Ok Samples.counts_5_of_7 /\
  cv x_cols "TYS" 1234%Z "5foldcv" data
  = (Ok (concat (map (fun p => omap (Frame.cells yc !!.) p.2) Samples.folds_5_of_7),
         concat Samples.counts_5_of_7), data) /\
  concat (map snd Samples.folds_5_of_7) = seq 0 (Frame.nrows data) /\
  concat (map (fun p => omap (Frame.cells yc !!.) p.2) Samples.folds_5_of_7)
  = Frame.cells yc /\
  cv x_cols "TYS" 1234%Z "insample" data
  = (rbind (Samples.count_fit 1234 (Samples.encoded 7) (Frame.cells yc)) (fun m =>
     rbind (Samples.count_predict m (Samples.encoded 7))
           (fun y_pred => Ok (Frame.cells yc, y_pred))), data).
Proof.
  intros data x_cols yc cv.
  assert (Hwf : Frame.wf_frame data) by (repeat constructor).
  assert (Hsel : Frame.loc_cols data x_cols = Ok (Samples.features 7))
    by reflexivity.
  assert (Hmi : Frame.get_dummies (Samples.features 7) = Ok (Samples.encoded 7))
    by reflexivity.
  assert (Hget : Frame.get_col data "TYS" = Ok yc) by reflexivity.
  assert (Hv : "5foldcv" <> "insample") by discriminate.
  assert (Hparts : Harness.emitted "5foldcv" (Frame.nrows data)
                   = Ok Samples.folds_5_of_7) by (vm_compute; reflexivity).
  assert (Hpreds : rmapM (Harness.fit_predict nat Samples.count_fit
                            Samples.count_predict
                            (Samples.encoded 7) (Frame.cells yc) 1234)
                         Samples.folds_5_of_7 = Ok Samples.counts_5_of_7)
    by (vm_compute; reflexivity).
  repeat (split; [assumption|]).
  exact (cross_validation_order nat Samples.count_fit Samples.count_predict
           data (Samples.features 7) (Samples.encoded 7) x_cols "TYS" 1234%Z yc
           "5foldcv" Samples.folds_5_of_7 Samples.counts_5_of_7
           Hwf Hsel Hmi Hget Hv Hparts Hpreds).
Defined.

Lemma missing_column_fails_witness :
  "nonexistent_col" ∈ ["nonexistent_col"] /\
  ~ Frame.has_col (Samples.alloys 7) "nonexistent_col" /\
  Frame.loc_cols (Samples.alloys 7) ["nonexistent_col"] = Raise KeyError /\
  Harness.cross_validation nat Samples.count_fit Samples.count_predict
    ["nonexistent_col"] "TYS" 1234 "loocv" (Samples.alloys 7)
  = (Raise KeyError, Samples.alloys 7) /\
  Harness.calc_R2s nat Samples.count_fit Samples.count_predict Samples.no_float
    Samples.sum_in_order ["nonexistent_col"] "TYS" (Samples.alloys 7)
  = (Raise KeyError, Samples.alloys 7).
Proof.
  assert (Hin : "nonexistent_col" ∈ ["nonexistent_col"]) by left.
  assert (Hmiss : ~ Frame.has_col (Samples.alloys 7) "nonexistent_col").
  { unfold Frame.has_col. simpl. intros [x Hx]. discriminate. }
  split; [exact Hin|]. split; [exact Hmiss|].
  exact (missing_column_fails nat Samples.count_fit Samples.count_predict
           Samples.no_float Samples.sum_in_order (Samples.alloys 7)
           ["nonexistent_col"] "TYS" 1234%Z "loocv" "nonexistent_col" Hin Hmiss).
Defined.

Lemma small_in_range (k : nat) :
  (k <= 100)%nat -> Metrics.in_range (Samples.qz (Z.of_nat k)).
Proof.
  intros Hk.
  assert (Hall : forallb (fun i => is_finite (Metrics.as_float64
                                                (Samples.qz (Z.of_nat i))))
                         (seq 0 101) = true) by (vm_compute; reflexivity).
  rewrite forallb_forall in Hall. apply Hall, in_seq. lia.
Qed.

Lemma capped_predict_shape (m : nat) (x : Frame.DataFrame) (ys : list Qc) :
  Samples.capped_predict m x = Ok ys ->
  length ys = Frame.nrows x /\ Forall Metrics.in_range ys.
Proof.
  intros H. inversion H. split; [apply length_replicate|].
  apply Forall_forall. intros q Hq. apply elem_of_replicate in Hq as [-> _].
  apply small_in_range. lia.
Qed.

Lemma capped_learns (mi : Frame.DataFrame) (targets : Frame.Series) (rs : Z) :
  Frame.wf_frame mi -> length targets = Frame.nrows mi ->
  (0 < Frame.nrows mi)%nat ->
  Harness.learns nat Samples.count_fit Samples.capped_predict mi targets rs.
Proof.
  apply total_learns.
  - intros ? x y _. by eexists.
  - intros m x. eexists. split; [reflexivity|apply length_replicate].
Qed.

Lemma calc_R2s_scores_witness :
  let data := Samples.alloys 20 in
  let x_cols := ["Cu (%)"; "temper"] in
  let cv := Harness.cross_validation nat Samples.count_fit Samples.capped_predict in
  (forall m x ys, Samples.capped_predict m x = Ok ys ->
                  length ys = Frame.nrows x /\ Forall Metrics.in_range ys) /\
  Frame.wf_frame data /\
  (20 <= Frame.nrows data)%nat /\
  Frame.loc_cols data x_cols = Ok (Samples.features 20) /\
  Frame.get_dummies (Samples.features 20) = Ok (Samples.encoded 20) /\
  Frame.get_col data "TYS" = Ok (Frame.NumCol (Samples.targets 20)) /\
  Forall Metrics.in_range (Samples.targets 20) /\
  Harness.learns nat Samples.count_fit Samples.capped_predict
    (Samples.encoded 20) (map Frame.Num (Samples.targets 20)) 1234 /\
  exists (r2_values : gmap string Metrics.pyfloat)
         (s1 s2 s3 s4 s5 : Metrics.pyfloat),
    Harness.calc_R2s nat Samples.count_fit Samples.capped_predict Samples.no_float
      Samples.sum_in_order x_cols "TYS" data = (Ok r2_values, data) /\
    (forall name,
       r2_values !! name
       = Frame.assoc name [ ("In Sample", s1); ("Leave One Out CV", s2);
                            ("5 Fold CV", s3); ("15 Fold CV", s4);
                            ("20 Fold CV", s5) ]) /\
    size r2_values = 5%nat /\
    Forall2 (fun validator s =>
               exists ys,
                 cv x_cols "TYS" 1234%Z validator data = (Ok ys, data) /\
                 Harness.score Samples.no_float Samples.sum_in_order ys.1 ys.2
                 = Ok s)
            (map fst Harness.validators) [s1; s2; s3; s4; s5].
Proof.
  intros data x_cols cv.
  assert (Hpredict : forall m x ys, Samples.capped_predict m x = Ok ys ->
             length ys = Frame.nrows x /\ Forall Metrics.in_range ys)
    by exact capped_predict_shape.
  assert (Hwf : Frame.wf_frame data) by (repeat constructor).
  assert (HN : (20 <= Frame.nrows data)%nat) by (simpl; lia).
  assert (Hsel : Frame.loc_cols data x_cols = Ok (Samples.features 20))
    by reflexivity.
  assert (Hmi : Frame.get_dummies (Samples.features 20) = Ok (Samples.encoded 20))
    by reflexivity.
  assert (Hget : Frame.get_col data "TYS" = Ok (Frame.NumCol (Samples.targets 20)))
    by reflexivity.
  assert (Hv : Forall Metrics.in_range (Samples.targets 20))
    by (repeat constructor; vm_compute; reflexivity).
  assert (Hlearns : Harness.learns nat Samples.count_fit Samples.capped_predict
                      (Samples.encoded 20) (map Frame.Num (Samples.targets 20)) 1234).
  { apply capped_learns; [repeat constructor|reflexivity|simpl; lia]. }
  repeat (split; [assumption|]).
  exact (calc_R2s_scores nat Samples.count_fit Samples.capped_predict
           Samples.no_float Samples.sum_in_order data (Samples.features 20)
           (Samples.encoded 20) x_cols "TYS" (Samples.targets 20)
           Hpredict Hwf HN Hsel Hmi Hget Hv Hlearns).
Defined.

(** On seven rows the comparison stops at the first strategy with more
    folds than rows: no mapping is returned. *)
Lemma calc_R2s_on_7_rows :
  Harness.calc_R2s nat Samples.count_fit Samples.count_predict Samples.no_float
    Samples.sum_in_order ["Cu (%)"; "temper"] "TYS" (Samples.alloys 7)
  = (Raise ValueError, Samples.alloys 7).
Proof. vm_compute. reflexivity. Qed.

(** * Further properties *)

(** ** The temper lambdas *)

Section TemperFacts.
Import Temper.

Lemma temper_truncated_slice (x : string) : temper_truncated x = slice_to 2 x.
Proof.
  unfold temper_truncated. destruct (String.eqb_spec x "O") as [->|_]; done.
Qed.

Lemma slice_to_prefix (n : nat) (x : string) : String.prefix (slice_to n x) x = true.
Proof.
  revert x. induction n as [|n IH]; intros [|c x]; simpl; try done.
  destruct (ascii_dec c c); [apply IH|done].
Qed.

Lemma slice_to_length (n : nat) (x : string) :
  String.length (slice_to n x) = Nat.min n (String.length x).
Proof.
  revert x. induction n as [|n IH]; intros [|c x]; simpl; try done.
  by rewrite IH.
Qed.

(** X1: the truncated code is a prefix of the code, of two characters or of
    the whole code when that is shorter, and truncating again changes
    nothing (the special case for "O" never changes the outcome). *)
Theorem temper_truncated_prefix (x : string) :
  temper_truncated x = slice_to 2 x /\
  String.prefix (temper_truncated x) x = true /\
  String.length (temper_truncated x) = Nat.min 2 (String.length x) /\
  temper_truncated (temper_truncated x) = temper_truncated x.
Proof.
  rewrite !temper_truncated_slice.
  split; [done|]. split; [apply slice_to_prefix|]. split; [apply slice_to_length|].
  destruct x as [|c0 [|c1 x]]; done.
Qed.

(** X2: the letter and the digit of a code are those of its truncated code:
    the split columns can be computed from the truncated column. *)
Theorem temper_split_of_truncated (x : string) :
  temper_c0 (temper_truncated x) = temper_c0 x /\
  temper_c1 (temper_truncated x) = temper_c1 x.
Proof.
  rewrite temper_truncated_slice.
  destruct x as [|c0 [|c1 x]]; done.
Qed.

Lemma int_of_char_range (c : ascii) (z : Z) :
  int_of_char c = Ok z -> (0 <= z <= 9)%Z.
Proof.
  unfold int_of_char, is_digit.
  destruct (Nat.leb_spec 48 (nat_of_ascii c)); simpl; [|discriminate].
  destruct (Nat.leb_spec (nat_of_ascii c) 57); simpl; [|discriminate].
  intros Hz. inversion Hz. lia.
Qed.

(** X3: how the two split lambdas can end: [temper_c0] returns a one-character
    prefix, or raises the index error on the empty code and on nothing
    else; [temper_c1] returns a number from 0 to 9, or raises the value
    error of [int], and then the code has a second character. *)
Theorem temper_split_outcomes (x : string) :
  match temper_c0 x with
  | Ok c => String.length c = 1%nat /\ String.prefix c x = true
  | Raise e => e = IndexError /\ x = EmptyString
  end /\
  match temper_c1 x with
  | Ok z => (0 <= z <= 9)%Z
  | Raise e => e = ValueError /\ (2 <= String.length x)%nat
  end.
Proof.
  split.
  - destruct x as [|c x]; simpl; [done|]. split; [done|].
    destruct (ascii_dec c c); [by destruct x|done].
  - destruct x as [|c0 [|c1 x]]; try (simpl; lia).
    unfold temper_c1. simpl.
    destruct (int_of_char c1) as [z|e] eqn:Hz.
    + by apply int_of_char_range in Hz.
    + split; [|lia]. unfold int_of_char in Hz.
      destruct (is_digit c1); [discriminate|]. by inversion Hz.
Qed.

Lemma int_of_char_inj (c d : ascii) (z : Z) :
  int_of_char c = Ok z -> int_of_char d = Ok z -> c = d.
Proof.
  unfold int_of_char, is_digit. intros Hc Hd.
  destruct (Nat.leb_spec 48 (nat_of_ascii c)); simpl in Hc; [|discriminate].
  destruct (Nat.leb_spec (nat_of_ascii c) 57); simpl in Hc; [|discriminate].
  destruct (Nat.leb_spec 48 (nat_of_ascii d)); simpl in Hd; [|discriminate].
  destruct (Nat.leb_spec (nat_of_ascii d) 57); simpl in Hd; [|discriminate].
  inversion Hc. inversion Hd.
  assert (nat_of_ascii c = nat_of_ascii d) as Heq by lia.
  rewrite <- (ascii_nat_embedding c), <- (ascii_nat_embedding d). by rewrite Heq.
Qed.

(** X4: on codes whose second character is one of the ASCII digits
    '0' .. '9', the letter and the digit together determine the truncated
    code: two such codes with the same [temper_c0] and the same
    [temper_c1] have the same [temper_truncated]. *)
Theorem temper_split_determines_truncated
    (c0 c1 d0 d1 : ascii) (x y : string) :
  is_digit c1 = true -> is_digit d1 = true ->
  temper_c0 (String c0 (String c1 x)) = temper_c0 (String d0 (String d1 y)) ->
  temper_c1 (String c0 (String c1 x)) = temper_c1 (String d0 (String d1 y)) ->
  temper_truncated (String c0 (String c1 x))
  = temper_truncated (String d0 (String d1 y)).
Proof.
  intros Hc1 Hd1 Hc Hz. rewrite !temper_truncated_slice.
  simpl in Hc. inversion Hc; subst d0.
  unfold temper_c1 in Hz. simpl in Hz.
  assert (exists z, int_of_char c1 = Ok z) as [z Hzc]
    by (unfold int_of_char; rewrite Hc1; by eexists).
  rewrite Hzc in Hz. symmetry in Hz.
  by rewrite (int_of_char_inj c1 d1 z Hzc Hz).
Qed.

Lemma temper_split_determines_truncated_witness :
  is_digit "6" = true /\ is_digit "6" = true /\
  temper_c0 "T614" = temper_c0 "T6" /\
  temper_c1 "T614" = temper_c1 "T6" /\
  temper_truncated "T614" = temper_truncated "T6".
Proof.
  repeat (split; [reflexivity|]).
  exact (temper_split_determines_truncated "T" "6" "T" "6" "14" ""
           eq_refl eq_refl eq_refl eq_refl).
Defined.

End TemperFacts.

(** ** The cells that add the derived columns *)

Section CellFacts.
Import Frame Cells Columns.
Local Open Scope list_scope.
Local Open Scope nat_scope.

Lemma assoc_set_same {V : Type} (k : string) (v : V) (l : list (string * V)) :
  assoc k (assoc_set k v l) = Some v.
Proof.
  induction l as [|[k' v'] l IH]; simpl.
  - by rewrite String.eqb_refl.
  - destruct (String.eqb_spec k k') as [->|Hne]; simpl.
    + by rewrite String.eqb_refl.
    + by rewrite (proj2 (String.eqb_neq k k') Hne).
Qed.

Lemma assoc_set_id {V : Type} (k : string) (v : V) (l : list (string * V)) :
  assoc k l = Some v -> assoc_set k v l = l.
Proof.
  induction l as [|[k' v'] l IH]; simpl; [done|].
  destruct (String.eqb_spec k k') as [->|Hne]; intros H.
  - by inversion H.
  - by rewrite IH.
Qed.

Lemma assoc_set_Forall {V : Type} (P : string * V -> Prop) (k : string) (v : V)
    (l : list (string * V)) :
  Forall P l -> P (k, v) -> Forall P (assoc_set k v l).
Proof.
  intros Hl Hkv. induction Hl as [|[k' v'] l Hx Hl IH]; simpl.
  - by constructor.
  - destruct (String.eqb k k'); by constructor.
Qed.

Lemma assoc_set_filter_names {V : Type} (p : string -> bool) (k : string) (v : V)
    (l : list (string * V)) :
  p k = false ->
  List.filter p (map fst (assoc_set k v l)) = List.filter p (map fst l).
Proof.
  intros Hk. induction l as [|[k' v'] l IH]; simpl.
  - by rewrite Hk.
  - destruct (String.eqb_spec k k') as [->|Hne]; simpl; [done|].
    by rewrite IH.
Qed.

Lemma apply_length {B : Type} (f : string -> result B) (c : column) (values : list B) :
  apply f c = Ok values -> length values = col_len c.
Proof.
  unfold col_len. destruct c as [v|v]; simpl; intros H;
    apply rmapM_length in H; by rewrite length_map.
Qed.

(** One assignment [df[name] = df["temper"].apply(f)]. *)
Lemma cell_run {B : Type} (f : string -> result B) (mk : list B -> column)
    (name : string) (df : DataFrame) (c : column) (values : list B) :
  get_col df "temper" = Ok c ->
  apply f c = Ok values ->
  col_len (mk values) = nrows df ->
  bind (read (fun df => get_col df "temper"))
       (fun temper => bind (lift (apply f temper))
                        (fun values => setitem name (mk values))) df
  = (Ok tt, mkDF (nrows df) (assoc_set name (mk values) (cols df))).
Proof.
  intros Hget Happly Hlen. unfold bind, read, lift. rewrite Hget, Happly.
  unfold setitem. by rewrite Hlen, Nat.eqb_refl.
Qed.

Lemma cell_run_inv {B : Type} (f : string -> result B) (mk : list B -> column)
    (name : string) (df df' : DataFrame) :
  bind (read (fun df => get_col df "temper"))
       (fun temper => bind (lift (apply f temper))
                        (fun values => setitem name (mk values))) df
  = (Ok tt, df') ->
  exists c values,
    get_col df "temper" = Ok c /\ apply f c = Ok values /\
    col_len (mk values) = nrows df /\
    df' = mkDF (nrows df) (assoc_set name (mk values) (cols df)).
Proof.
  unfold bind, read, lift.
  destruct (get_col df "temper") as [c|e] eqn:Hget; [|discriminate].
  destruct (apply f c) as [values|e] eqn:Happly; [|discriminate].
  unfold setitem. destruct (Nat.eqb_spec (col_len (mk values)) (nrows df)) as [Hlen|];
    [|discriminate].
  intros H. inversion H. by exists c, values.
Qed.

Lemma get_col_setitem_other (df : DataFrame) (name k : string) (c : column) :
  k <> name ->
  get_col (mkDF (nrows df) (assoc_set name c (cols df))) k = get_col df k.
Proof. intros Hne. unfold get_col. simpl. by rewrite assoc_set_other. Qed.

Lemma get_col_setitem_same (df : DataFrame) (name : string) (c : column) :
  get_col (mkDF (nrows df) (assoc_set name c (cols df))) name = Ok c.
Proof. unfold get_col. simpl. by rewrite assoc_set_same. Qed.

Lemma wf_setitem (df : DataFrame) (name : string) (c : column) :
  wf_frame df -> col_len c = nrows df ->
  wf_frame (mkDF (nrows df) (assoc_set name c (cols df))).
Proof. intros Hwf Hlen. unfold wf_frame. simpl. by apply assoc_set_Forall. Qed.

(** X5: running the three cells on a well-formed table whose temper codes the
    lambdas accept succeeds: the table gains the three derived columns
    with the values of the lambdas, row for row, keeps its row count and
    every other column as it was, and stays well formed. *)
Theorem derived_columns_added
    (df : DataFrame) (v c0s : list string) (c1s : list Z) :
  wf_frame df ->
  get_col df "temper" = Ok (ObjCol v) ->
  rmapM Temper.temper_c0 v = Ok c0s ->
  rmapM Temper.temper_c1 v = Ok c1s ->
  exists df',
    add_derived_columns df = (Ok tt, df') /\
    wf_frame df' /\
    nrows df' = nrows df /\
    get_col df' "temper_truncated" = Ok (ObjCol (map Temper.temper_truncated v)) /\
    get_col df' "temper_c0" = Ok (ObjCol c0s) /\
    get_col df' "temper_c1" = Ok (NumCol (map (fun z => Q2Qc (inject_Z z)) c1s)) /\
    forall name,
      name ∉ ["temper_truncated"; "temper_c0"; "temper_c1"]%string ->
      get_col df' name = get_col df name.
Proof.
  intros Hwf Hget H0 H1.
  pose proof (wf_col_len _ _ _ Hwf Hget) as Hlen.
  unfold col_len in Hlen. simpl in Hlen. rewrite length_map in Hlen.
  set (t := ObjCol (map Temper.temper_truncated v)).
  set (c0 := ObjCol c0s).
  set (c1 := NumCol (map (fun z => Q2Qc (inject_Z z)) c1s)).
  assert (Ht : col_len t = nrows df)
    by (unfold col_len; simpl; by rewrite !length_map).
  assert (Hc0 : col_len c0 = nrows df).
  { unfold col_len. simpl. rewrite length_map.
    apply rmapM_length in H0. lia. }
  assert (Hc1 : col_len c1 = nrows df).
  { unfold col_len. simpl. rewrite !length_map.
    apply rmapM_length in H1. lia. }
  set (df1 := mkDF (nrows df) (assoc_set "temper_truncated" t (cols df))).
  set (df2 := mkDF (nrows df1) (assoc_set "temper_c0" c0 (cols df1))).
  set (df3 := mkDF (nrows df2) (assoc_set "temper_c1" c1 (cols df2))).
  assert (Hrun1 : add_temper_truncated df = (Ok tt, df1)).
  { apply (cell_run (fun x => Ok (Temper.temper_truncated x)) ObjCol
             "temper_truncated" df (ObjCol v) (map Temper.temper_truncated v));
      [done| |done].
    simpl. apply rmapM_all_ok. by apply Forall_forall. }
  assert (Hget1 : get_col df1 "temper" = Ok (ObjCol v))
    by (unfold df1; by rewrite get_col_setitem_other).
  assert (Hrun2 : add_temper_c0 df1 = (Ok tt, df2))
    by (by apply (cell_run Temper.temper_c0 ObjCol "temper_c0" df1 (ObjCol v) c0s)).
  assert (Hget2 : get_col df2 "temper" = Ok (ObjCol v))
    by (unfold df2; by rewrite get_col_setitem_other).
  assert (Hrun3 : add_temper_c1 df2 = (Ok tt, df3)).
  { by apply (cell_run Temper.temper_c1
                (fun values => NumCol (map (fun z => Q2Qc (inject_Z z)) values))
                "temper_c1" df2 (ObjCol v) c1s). }
  exists df3. split; [|split; [|split; [done|split; [|split; [|split]]]]].
  - unfold add_derived_columns.
    rewrite (bind_ok _ _ _ _ _ Hrun1), (bind_ok _ _ _ _ _ Hrun2). exact Hrun3.
  - apply wf_setitem; [|done]. apply wf_setitem; [|done]. by apply wf_setitem.
  - unfold df3, df2. rewrite !get_col_setitem_other by discriminate.
    apply get_col_setitem_same.
  - unfold df3. rewrite get_col_setitem_other by discriminate.
    apply get_col_setitem_same.
  - apply get_col_setitem_same.
  - intros name Hname. unfold df3, df2, df1.
    rewrite !get_col_setitem_other; [done|..];
      intros ->; apply Hname; apply list_elem_of_In; simpl; tauto.
Qed.

Lemma bind_inv {A B : Type} (m : M A) (k : A -> M B) (df df' : DataFrame) (b : B) :
  bind m k df = (Ok b, df') ->
  exists a df1, m df = (Ok a, df1) /\ k a df1 = (Ok b, df').
Proof.
  unfold bind. destruct (m df) as [[a|e] df1]; [|discriminate]. eauto.
Qed.

Lemma derived_run_inv (df df' : DataFrame) :
  add_derived_columns df = (Ok tt, df') ->
  exists c t0 t1 t2,
    get_col df "temper" = Ok c /\
    apply (fun x => Ok (Temper.temper_truncated x)) c = Ok t0 /\
    apply Temper.temper_c0 c = Ok t1 /\
    apply Temper.temper_c1 c = Ok t2 /\
    col_len (ObjCol t0) = nrows df /\
    col_len (ObjCol t1) = nrows df /\
    col_len (NumCol (map (fun z => Q2Qc (inject_Z z)) t2)) = nrows df /\
    df' = mkDF (nrows df)
            (assoc_set "temper_c1" (NumCol (map (fun z => Q2Qc (inject_Z z)) t2))
               (assoc_set "temper_c0" (ObjCol t1)
                  (assoc_set "temper_truncated" (ObjCol t0) (cols df)))).
Proof.
  unfold add_derived_columns. intros H.
  apply bind_inv in H as ([] & df1 & H1 & H).
  apply bind_inv in H as ([] & df2 & H2 & H3).
  apply cell_run_inv in H1 as (c & t0 & Hc & Ht0 & Hl0 & ->).
  apply cell_run_inv in H2 as (c' & t1 & Hc' & Ht1 & Hl1 & ->).
  apply cell_run_inv in H3 as (c'' & t2 & Hc'' & Ht2 & Hl2 & ->).
  cbn [nrows cols] in *.
  unfold get_col in Hc, Hc', Hc''. cbn [cols] in Hc', Hc''.
  rewrite assoc_set_other in Hc' by discriminate.
  do 2 rewrite assoc_set_other in Hc'' by discriminate.
  destruct (assoc "temper" (cols df)) as [c0|] eqn:Ha; [|discriminate].
  simplify_eq.
  eexists _, t0, t1, t2. unfold get_col. rewrite Ha. repeat split; done.
Qed.

(** X6: running the three cells a second time changes nothing: every derived
    column is assigned the value it already has. *)
Theorem derived_columns_rerun (df df' : DataFrame) :
  add_derived_columns df = (Ok tt, df') ->
  add_derived_columns df' = (Ok tt, df').
Proof.
  intros H.
  apply derived_run_inv in H
    as (c & t0 & t1 & t2 & Hc & Ht0 & Ht1 & Ht2 & Hl0 & Hl1 & Hl2 & ->).
  set (c0 := ObjCol t0) in *. set (c1 := ObjCol t1) in *.
  set (c2 := NumCol (map (fun z => Q2Qc (inject_Z z)) t2)) in *.
  set (cols3 := assoc_set "temper_c1" c2
                  (assoc_set "temper_c0" c1
                     (assoc_set "temper_truncated" c0 (cols df)))).
  assert (Htemper : get_col (mkDF (nrows df) cols3) "temper" = Ok c).
  { unfold get_col, cols3 in *. simpl.
    by rewrite !assoc_set_other by discriminate. }
  assert (H0 : assoc_set "temper_truncated" c0 cols3 = cols3).
  { apply assoc_set_id. unfold cols3.
    rewrite !assoc_set_other by discriminate. apply assoc_set_same. }
  assert (H1 : assoc_set "temper_c0" c1 cols3 = cols3).
  { apply assoc_set_id. unfold cols3.
    rewrite assoc_set_other by discriminate. apply assoc_set_same. }
  assert (H2 : assoc_set "temper_c1" c2 cols3 = cols3)
    by (apply assoc_set_id, assoc_set_same).
  assert (Hrun : forall {B : Type} (f : string -> result B) mk name values,
             apply f c = Ok values -> col_len (mk values) = nrows df ->
             assoc_set name (mk values) cols3 = cols3 ->
             bind (read (fun df => get_col df "temper"))
               (fun temper => bind (lift (apply f temper))
                                (fun values => setitem name (mk values)))
               (mkDF (nrows df) cols3)
             = (Ok tt, mkDF (nrows df) cols3)).
  { intros B f mk name values Hf Hlen Hid.
    rewrite (cell_run f mk name _ c values Htemper Hf Hlen). simpl.
    by rewrite Hid. }
  unfold add_derived_columns.
  rewrite (bind_ok _ _ _ _ _
             (Hrun _ (fun x => Ok (Temper.temper_truncated x)) ObjCol
                "temper_truncated" t0 Ht0 Hl0 H0)).
  rewrite (bind_ok _ _ _ _ _
             (Hrun _ Temper.temper_c0 ObjCol "temper_c0" t1 Ht1 Hl1 H1)).
  exact (Hrun _ Temper.temper_c1
           (fun values => NumCol (map (fun z => Q2Qc (inject_Z z)) values))
           "temper_c1" t2 Ht2 Hl2 H2).
Qed.

End CellFacts.

Lemma derived_columns_added_witness :
  let df := Samples.alloys 3 in
  Frame.wf_frame df /\
  Frame.get_col df "temper" = Ok (Frame.ObjCol ["T6"; "O"; "H14"]) /\
  rmapM Temper.temper_c0 ["T6"; "O"; "H14"] = Ok ["T"; "O"; "H"] /\
  rmapM Temper.temper_c1 ["T6"; "O"; "H14"] = Ok [6; 1; 1]%Z /\
  exists df',
    Cells.add_derived_columns df = (Ok tt, df') /\
    Frame.wf_frame df' /\
    Frame.nrows df' = Frame.nrows df /\
    Frame.get_col df' "temper_truncated"
    = Ok (Frame.ObjCol (map Temper.temper_truncated ["T6"; "O"; "H14"])) /\
    Frame.get_col df' "temper_c0" = Ok (Frame.ObjCol ["T"; "O"; "H"]) /\
    Frame.get_col df' "temper_c1"
    = Ok (Frame.NumCol (map (fun z => Q2Qc (inject_Z z)) [6; 1; 1]%Z)) /\
    forall name,
      name ∉ ["temper_truncated"; "temper_c0"; "temper_c1"] ->
      Frame.get_col df' name = Frame.get_col df name.
Proof.
  intros df.
  assert (Hwf : Frame.wf_frame df) by (repeat constructor).
  assert (Hget : Frame.get_col df "temper" = Ok (Frame.ObjCol ["T6"; "O"; "H14"]))
    by reflexivity.
  assert (H0 : rmapM Temper.temper_c0 ["T6"; "O"; "H14"] = Ok ["T"; "O"; "H"])
    by reflexivity.
  assert (H1 : rmapM Temper.temper_c1 ["T6"; "O"; "H14"] = Ok [6; 1; 1]%Z)
    by reflexivity.
  repeat (split; [assumption|]).
  exact (derived_columns_added df ["T6"; "O"; "H14"] ["T"; "O"; "H"] [6; 1; 1]%Z
           Hwf Hget H0 H1).
Defined.

Lemma derived_columns_rerun_witness :
  let df' := (Cells.add_derived_columns (Samples.alloys 3)).2 in
  Cells.add_derived_columns (Samples.alloys 3) = (Ok tt, df') /\
  Cells.add_derived_columns df' = (Ok tt, df').
Proof.
  intros df'.
  assert (H : Cells.add_derived_columns (Samples.alloys 3) = (Ok tt, df'))
    by reflexivity.
  split; [exact H|].
  exact (derived_columns_rerun (Samples.alloys 3) df' H).
Defined.

(** ** The column lists *)

Section ColumnFacts.
Import Frame Cells Columns.
Local Open Scope list_scope.
Local Open Scope nat_scope.

Lemma cell_store {B : Type} (f : string -> result B) (mk : list B -> column)
    (name : string) (df : DataFrame) :
  let run := bind (read (fun df => get_col df "temper"))
               (fun temper => bind (lift (apply f temper))
                                (fun values => setitem name (mk values))) df in
  run.2 = df \/
  exists c, run = (Ok tt, mkDF (nrows df) (assoc_set name c (cols df))).
Proof.
  unfold bind, read, lift. simpl.
  destruct (get_col df "temper") as [c|e]; [|by left].
  destruct (apply f c) as [values|e]; [|by left].
  unfold setitem. destruct (col_len (mk values) =? nrows df); [|by left].
  right. by eexists.
Qed.

Lemma cell_keeps_composition {B : Type} (f : string -> result B)
    (mk : list B -> column) (name : string) (df : DataFrame) :
  str_in "%" name = false ->
  composition_cols
    (bind (read (fun df => get_col df "temper"))
       (fun temper => bind (lift (apply f temper))
                        (fun values => setitem name (mk values))) df).2
  = composition_cols df.
Proof.
  intros Hname. destruct (cell_store f mk name df) as [->|[c ->]]; [done|].
  unfold composition_cols, columns. simpl. by apply assoc_set_filter_names.
Qed.

(** X7: the composition columns do not depend on whether the derived temper
    columns have been added yet: the three cells, whether they succeed or
    fail, leave the list [composition_cols] computes as it was. *)
Theorem composition_cols_unaffected (df : DataFrame) :
  composition_cols (add_derived_columns df).2 = composition_cols df.
Proof.
  unfold add_derived_columns.
  pose proof (cell_keeps_composition
                (fun x => Ok (Temper.temper_truncated x)) ObjCol
                "temper_truncated" df eq_refl) as H1.
  change (composition_cols (add_temper_truncated df).2 = composition_cols df) in H1.
  unfold bind at 1.
  destruct (add_temper_truncated df) as [[[]|e] df1]; simpl in H1; [|done].
  pose proof (cell_keeps_composition Temper.temper_c0 ObjCol
                "temper_c0" df1 eq_refl) as H2.
  change (composition_cols (add_temper_c0 df1).2 = composition_cols df1) in H2.
  unfold bind at 1.
  destruct (add_temper_c0 df1) as [[[]|e] df2]; simpl in H2;
    [|simpl; congruence].
  pose proof (cell_keeps_composition Temper.temper_c1
                (fun values => NumCol (map (fun z => Q2Qc (inject_Z z)) values))
                "temper_c1" df2 eq_refl) as H3.
  change (composition_cols (add_temper_c1 df2).2 = composition_cols df2) in H3.
  congruence.
Qed.

Lemma str_in_char (a : ascii) (s : string) :
  str_in (String a EmptyString) s = true <-> In a (list_ascii_of_string s).
Proof.
  induction s as [|c s IH]; simpl.
  - split; [discriminate|tauto].
  - destruct (ascii_dec a c) as [->|Hne].
    + destruct s; simpl; tauto.
    + simpl. rewrite IH. split; [tauto|]. intros [?|?]; [congruence|done].
Qed.

(** X8: [composition_cols] keeps, in the order of the table, exactly the
    column names in which a percent sign occurs; "temper" and the derived
    temper columns are never among them. *)
Theorem composition_cols_spec (df : DataFrame) :
  (forall col, col ∈ composition_cols df <->
               col ∈ columns df /\ In "%"%char (list_ascii_of_string col)) /\
  composition_cols df `sublist_of` columns df /\
  Forall (fun col => col ∉ composition_cols df)
         ["temper"; "temper_truncated"; "temper_c0"; "temper_c1"]%string.
Proof.
  assert (Hin : forall col, col ∈ composition_cols df <->
                  col ∈ columns df /\ In "%"%char (list_ascii_of_string col)).
  { intros col. unfold composition_cols.
    rewrite list_elem_of_In, filter_In, <- list_elem_of_In.
    by rewrite (str_in_char "%"%char col). }
  split; [exact Hin|]. split.
  - unfold composition_cols. generalize (columns df). intros l.
    induction l as [|x l IH]; simpl; [done|].
    destruct (str_in "%" x); by constructor.
  - repeat constructor; intros H; apply Hin in H as [_ H]; simpl in H;
      repeat destruct H as [H|H]; try discriminate; done.
Qed.

End ColumnFacts.

(** ** More on the evaluation harness *)

Section HarnessEdgeFacts.
Import Frame Split Metrics Harness.
Local Open Scope list_scope.
Local Open Scope nat_scope.
Set Default Proof Using "Type".

Variable model : Type.
Variable fit : Z -> DataFrame -> Series -> result model.
Variable predict : model -> DataFrame -> result (list Qc).
Variable float_of_string : string -> option Qc.
Variable np_sum : list float -> float.

Abbreviation cross_validation := (Harness.cross_validation model fit predict).
Abbreviation cv_loop := (Harness.cv_loop model fit predict).
Abbreviation calc_R2s := (Harness.calc_R2s model fit predict float_of_string np_sum).
Abbreviation calc_loop := (Harness.calc_loop model fit predict float_of_string np_sum).
Abbreviation fit_predict := (Harness.fit_predict model fit predict).
Abbreviation learns := (Harness.learns model fit predict).
Abbreviation score := (Harness.score float_of_string np_sum).

Lemma proper_part_labels (n : nat) (p : list nat * list nat) :
  proper_part n p ->
  Forall (fun i => i < n) p.1 /\ Forall (fun i => i < n) p.2.
Proof.
  intros (cur & sz & -> & Hle & Hlt). simpl. split.
  - apply Forall_forall. intros i Hi.
    apply list_elem_of_In, filter_In in Hi as [Hi _]. apply in_seq in Hi. lia.
  - apply Forall_forall. intros i Hi. apply elem_of_seq in Hi. lia.
Qed.

(** The loop, whatever the learner does: it fails with the first error of
    a partition, and otherwise has appended every partition's targets and
    predictions. *)
Lemma cv_loop_run (mi data : DataFrame) (y_col : string) (rs : Z) (yc : column) :
  nrows mi = nrows data ->
  get_col data y_col = Ok yc ->
  col_len yc = nrows data ->
  forall parts yts yps,
    Forall (proper_part (nrows data)) parts ->
    cv_loop mi y_col rs parts yts yps data
    = (rbind (rmapM (fit_predict mi (cells yc) rs) parts)
         (fun preds => Ok (yts ++ map (fun p => omap (cells yc !!.) p.2) parts,
                           yps ++ preds)),
       data).
Proof.
  intros Hrows Hget Hlen parts. unfold col_len in Hlen.
  induction parts as [|[train test] parts IH]; intros yts yps Hproper.
  - simpl. by rewrite !app_nil_r.
  - inversion Hproper as [|p ps Hp Hps]; subst.
    destruct (proper_part_labels _ _ Hp) as [Htrain Htest]. simpl in Htrain, Htest.
    assert (Hrc : forall index,
               Forall (fun i => i < nrows data) index ->
               loc_rows_col data index y_col = Ok (omap (cells yc !!.) index)).
    { intros index Hidx. unfold loc_rows_col.
      rewrite (proj2 (check_labels_ok data index) Hidx). simpl. rewrite Hget.
      apply take_rows_ok. by rewrite Hlen. }
    cbn [Harness.cv_loop rmapM]. unfold Harness.fit_predict at 1. cbn [fst snd].
    unfold bind at 1, read at 1. rewrite (Hrc test Htest).
    unfold bind at 1, lift at 1.
    destruct (loc_rows mi train) as [x_train|e]; [|done]. cbn [rbind].
    unfold bind at 1, read at 1. rewrite (Hrc train Htrain).
    rewrite (take_rows_ok train (cells yc)) by (by rewrite Hlen). cbn [rbind].
    unfold bind at 1, lift at 1.
    destruct (fit rs x_train _) as [m|e]; [|done]. cbn [rbind].
    unfold bind at 1, lift at 1.
    destruct (loc_rows mi test) as [x_test|e]; [|done]. cbn [rbind].
    unfold bind at 1, lift at 1.
    destruct (predict m x_test) as [yp|e]; [|done]. cbn [rbind].
    rewrite (IH _ _ Hps).
    destruct (rmapM _ parts) as [preds|e]; [|done]. simpl.
    by rewrite <- !app_assoc.
Qed.

Lemma cross_validation_emitted_raise
    (data selected mi : DataFrame) (x_cols : list string) (y_col : string)
    (rs : Z) (validator : string) (e : exn) :
  loc_cols data x_cols = Ok selected ->
  get_dummies selected = Ok mi ->
  validator <> "insample"%string ->
  emitted validator (nrows data) = Raise e ->
  cross_validation x_cols y_col rs validator data = (Raise e, data).
Proof.
  intros Hsel Hmi Hv He.
  pose proof (model_input_nrows _ _ _ _ Hsel Hmi) as Hrows.
  unfold Harness.cross_validation. rewrite VALIDATORS_ok.
  unfold bind at 1, lift at 1. unfold bind at 1, read at 1. rewrite Hsel.
  unfold bind at 1, lift at 1. rewrite Hmi.
  rewrite (proj2 (String.eqb_neq validator "insample") Hv).
  unfold emitted in He. rewrite VALIDATORS_ok in He. cbn [rbind] in He.
  unfold bind at 1, lift at 1.
  destruct (getitem _ validator) as [sp|e']; cbn [rbind] in He.
  - unfold bind at 1, lift at 1. by rewrite Hrows, He.
  - by inversion He.
Qed.

Lemma cross_validation_map
    (data selected model_input : DataFrame) (x_cols : list string)
    (y_col : string) (random_state : Z) (yc : column) (validator : string)
    (parts : list (list nat * list nat)) :
  wf_frame data ->
  loc_cols data x_cols = Ok selected ->
  get_dummies selected = Ok model_input ->
  get_col data y_col = Ok yc ->
  validator <> "insample"%string ->
  emitted validator (nrows data) = Ok parts ->
  cross_validation x_cols y_col random_state validator data
  = (rbind (rmapM (fit_predict model_input (cells yc) random_state) parts)
       (fun preds => Ok (cells yc, concat preds)),
     data).
Proof.
  intros Hwf Hsel Hmi Hget Hv Hparts.
  pose proof (wf_col_len _ _ _ Hwf Hget) as Hlen.
  pose proof (emitted_tests _ _ _ Hparts) as (_ & _ & Hne).
  pose proof (emitted_proper _ _ _ Hparts) as Hproper.
  pose proof (test_rows_in_order _ _ _ _ _ Hwf Hget Hparts) as Horder.
  pose proof (model_input_nrows _ _ _ _ Hsel Hmi) as Hrows.
  unfold Harness.cross_validation. rewrite VALIDATORS_ok.
  unfold bind at 1, lift at 1. unfold bind at 1, read at 1. rewrite Hsel.
  unfold bind at 1, lift at 1. rewrite Hmi.
  rewrite (proj2 (String.eqb_neq validator "insample") Hv).
  unfold emitted in Hparts. rewrite VALIDATORS_ok in Hparts. simpl in Hparts.
  apply rbind_ok in Hparts as (sp & Hsp & Hsplit).
  unfold bind at 1, lift at 1. rewrite Hsp.
  unfold bind at 1, lift at 1. rewrite Hrows, Hsplit.
  unfold bind at 1.
  rewrite (cv_loop_run _ _ _ random_state _ Hrows Hget Hlen parts [] [] Hproper).
  destruct (rmapM _ parts) as [preds|e] eqn:Hpreds; [|done].
  cbn [rbind app fst snd].
  assert (Hpne : preds <> []).
  { apply rmapM_length in Hpreds. destruct preds, parts; simpl in *; congruence. }
  unfold bind, lift, np_concatenate, ret.
  destruct parts as [|p parts]; [done|]. destruct preds as [|yp preds]; [done|].
  cbn [map] in Horder |- *. by rewrite Horder.
Qed.

(** X9: outside in-sample evaluation, and once the input columns are encoded
    (there is at least one), the harness is, for every learner, the map of
    "fit on the train rows, predict the test rows" over the partitions of
    the strategy: it fails with the first error the learner raises on a
    partition, and otherwise returns the target column with the
    predictions of the partitions laid end to end. *)
Theorem cross_validation_as_map
    (data selected model_input : DataFrame) (x_cols : list string)
    (y_col : string) (random_state : Z) (yc : column) (validator : string)
    (parts : list (list nat * list nat)) :
  wf_frame data ->
  loc_cols data x_cols = Ok selected ->
  get_dummies selected = Ok model_input ->
  get_col data y_col = Ok yc ->
  validator <> "insample"%string ->
  emitted validator (nrows data) = Ok parts ->
  cross_validation x_cols y_col random_state validator data
  = (rbind (rmapM (fit_predict model_input (cells yc) random_state) parts)
       (fun preds => Ok (cells yc, concat preds)),
     data).
Proof.
  intros Hwf Hsel Hmi Hget Hv Hparts.
  by apply (cross_validation_map data selected).
Qed.

Lemma emitted_unknown (validator : string) (n : nat) :
  validator ∉ ["loocv"; "5foldcv"; "15foldcv"; "20foldcv"]%string ->
  emitted validator n = Raise KeyError.
Proof.
  intros Hv. unfold emitted. rewrite VALIDATORS_ok. cbn [rbind]. unfold getitem.
  rewrite !lookup_insert, lookup_empty.
  repeat case_decide; subst; try done;
    exfalso; apply Hv; apply list_elem_of_In; simpl; tauto.
Qed.

(** X10: a validator name that is not registered is refused with the key error
    of the dict lookup, once the input columns have been selected and
    encoded (there is at least one); the learner is not consulted and the
    table is left as it was. *)
Theorem unknown_validator_fails
    (data selected model_input : DataFrame) (x_cols : list string)
    (y_col : string) (random_state : Z) (validator : string) :
  loc_cols data x_cols = Ok selected ->
  get_dummies selected = Ok model_input ->
  validator ∉ ["insample"; "loocv"; "5foldcv"; "15foldcv"; "20foldcv"]%string ->
  cross_validation x_cols y_col random_state validator data
  = (Raise KeyError, data).
Proof.
  intros Hsel Hmi Hv.
  apply (cross_validation_emitted_raise data selected model_input); [done|done| |].
  - intros ->. apply Hv. left.
  - apply emitted_unknown. intros Hin. apply Hv. by right.
Qed.

Lemma emitted_too_few (validator : string) (k n : nat) :
  In (validator, k)
     [("loocv", 2); ("5foldcv", 5); ("15foldcv", 15); ("20foldcv", 20)]%string ->
  n < k ->
  emitted validator n = Raise ValueError.
Proof.
  intros Hin Hn. unfold emitted. rewrite VALIDATORS_ok. cbn [rbind]. unfold getitem.
  simpl in Hin.
  destruct Hin as [H|[H|[H|[H|[]]]]]; inversion H; subst;
    rewrite !lookup_insert; repeat (case_decide; [|try done]);
    try discriminate; cbn [rbind split];
    unfold LeaveOneOut_split, KFold_split; cbn [n_splits].
  - destruct (Nat.leb_spec n 1) as [_|?]; [done|lia].
  - destruct (Z.ltb_spec (Z.of_nat n) 5) as [_|?]; [done|lia].
  - destruct (Z.ltb_spec (Z.of_nat n) 15) as [_|?]; [done|lia].
  - destruct (Z.ltb_spec (Z.of_nat n) 20) as [_|?]; [done|lia].
Qed.

(** X11: with fewer rows than the strategy needs (two for leave-one-out, k for
    k-fold) the harness fails with the value error of the splitter, for
    every learner and whether or not the target column exists; the table
    is left as it was. *)
Theorem too_few_rows_fails
    (data selected : DataFrame) (x_cols : list string) (y_col : string)
    (random_state : Z) (validator : string) (k : nat) :
  loc_cols data x_cols = Ok selected ->
  In (validator, k)
     [("loocv", 2); ("5foldcv", 5); ("15foldcv", 15); ("20foldcv", 20)]%string ->
  nrows data < k ->
  cross_validation x_cols y_col random_state validator data
  = (Raise ValueError, data).
Proof.
  intros Hsel Hin Hn.
  destruct (get_dummies selected) as [mi|e] eqn:Hmi;
    [|by apply (cross_validation_not_encoded _ _ _ data selected _ _ _ _ e)].
  apply (cross_validation_emitted_raise data selected mi); [done|done| |].
  - intros ->. simpl in Hin. destruct Hin as [H|[H|[H|[H|[]]]]]; discriminate.
  - by apply (emitted_too_few validator k).
Qed.

(** X12: a target column that the table does not have makes the harness fail
    with a key error, once the input columns are encoded (there is at
    least one): at the column selection of in-sample evaluation, and at
    the first partition of a strategy that could split the rows. *)
Theorem missing_target_fails
    (data selected model_input : DataFrame) (x_cols : list string)
    (y_col : string) (random_state : Z) (validator : string) :
  loc_cols data x_cols = Ok selected ->
  get_dummies selected = Ok model_input ->
  ~ has_col data y_col ->
  validator = "insample"%string \/ is_ok (emitted validator (nrows data)) ->
  cross_validation x_cols y_col random_state validator data
  = (Raise KeyError, data).
Proof.
  intros Hsel Hmi Hmiss Hv.
  assert (Hget : get_col data y_col = Raise KeyError).
  { unfold get_col. unfold has_col in Hmiss.
    destruct (assoc y_col (cols data)); [|done]. exfalso. by apply Hmiss. }
  pose proof (model_input_nrows _ _ _ _ Hsel Hmi) as Hrows.
  unfold Harness.cross_validation. rewrite VALIDATORS_ok.
  unfold bind at 1, lift at 1. unfold bind at 1, read at 1. rewrite Hsel.
  unfold bind at 1, lift at 1. rewrite Hmi.
  destruct (String.eqb_spec validator "insample") as [->|Hne].
  - unfold bind, read, loc_col. by rewrite Hget.
  - destruct Hv as [?|[parts Hparts]]; [done|].
    pose proof (emitted_tests _ _ _ Hparts) as (_ & _ & Hnil).
    pose proof (emitted_proper _ _ _ Hparts) as Hproper.
    unfold emitted in Hparts. rewrite VALIDATORS_ok in Hparts. simpl in Hparts.
    apply rbind_ok in Hparts as (sp & Hsp & Hsplit).
    unfold bind at 1, lift at 1. rewrite Hsp.
    unfold bind at 1, lift at 1. rewrite Hrows, Hsplit.
    destruct parts as [|[train test] parts]; [done|].
    inversion Hproper as [|p ps Hp _]; subst.
    destruct (proper_part_labels _ _ Hp) as [_ Htest]. simpl in Htest.
    cbn [Harness.cv_loop]. unfold bind at 1 2, read at 1, loc_rows_col.
    rewrite (proj2 (check_labels_ok data test) Htest). simpl. by rewrite Hget.
Qed.

(** X13: whenever the harness returns, for any registered strategy and any
    learner that predicts one value per row, it returns the target column
    in its row order together with exactly one prediction per row, and
    the table is as it was. *)
Theorem cross_validation_aligned
    (data selected data' : DataFrame) (x_cols : list string) (y_col : string)
    (random_state : Z) (yc : column) (validator : string)
    (y_true : Series) (y_pred : list Qc) :
  (forall m x ys, predict m x = Ok ys -> length ys = nrows x) ->
  wf_frame data ->
  loc_cols data x_cols = Ok selected ->
  get_col data y_col = Ok yc ->
  cross_validation x_cols y_col random_state validator data
  = (Ok (y_true, y_pred), data') ->
  data' = data /\ y_true = cells yc /\
  length y_pred = nrows data /\ length y_true = nrows data.
Proof.
  intros Hpredict Hwf Hsel Hget Hrun.
  pose proof (wf_col_len _ _ _ Hwf Hget) as Hlen. unfold col_len in Hlen.
  destruct (get_dummies selected) as [mi|e0] eqn:Hmi.
  2: { rewrite (cross_validation_not_encoded _ _ _ _ _ _ _ _ _ _ Hsel Hmi) in Hrun.
       discriminate. }
  pose proof (model_input_nrows _ _ _ _ Hsel Hmi) as Hrows.
  destruct (String.eqb_spec validator "insample") as [->|Hne].
  - rewrite (cross_validation_insample _ _ _ _ _ _ _ _ _ _ Hsel Hmi Hget) in Hrun.
    destruct (fit random_state _ _) as [m|e]; [|discriminate]. cbn [rbind] in Hrun.
    destruct (predict m _) as [yp|e] eqn:Hyp; [|discriminate].
    inversion Hrun; subst. apply Hpredict in Hyp.
    split; [done|]. split; [done|]. split; lia.
  - destruct (emitted validator (nrows data)) as [parts|e] eqn:Hparts.
    + rewrite (cross_validation_map _ _ _ _ _ _ _ _ _ Hwf Hsel Hmi Hget Hne Hparts)
        in Hrun.
      destruct (rmapM _ parts) as [preds|e] eqn:Hpreds; [|discriminate].
      inversion Hrun; subst.
      pose proof (emitted_tests _ _ _ Hparts) as (Hcat & _ & _).
      rewrite (fit_predict_lengths _ _ _ _ _ _ _ _ Hpredict Hpreds), Hcat, length_seq.
      split; [done|]. split; [done|]. split; lia.
    + rewrite (cross_validation_emitted_raise _ _ _ _ _ _ _ _ Hsel Hmi Hne Hparts)
        in Hrun. discriminate.
Qed.

Lemma emitted_ok_or_few (validator : string) (n : nat) :
  validator ∈ ["loocv"; "5foldcv"; "15foldcv"; "20foldcv"]%string ->
  is_ok (emitted validator n) \/ emitted validator n = Raise ValueError.
Proof.
  intros Hin. unfold emitted. rewrite VALIDATORS_ok. cbn [rbind]. unfold getitem.
  repeat (apply elem_of_cons in Hin as [->|Hin]);
    [..|by apply elem_of_nil in Hin];
    rewrite !lookup_insert; repeat (case_decide; [|try done]);
    try discriminate; cbn [rbind split];
    unfold LeaveOneOut_split, KFold_split; cbn [n_splits].
  - destruct (n <=? 1); [by right|left; by eexists].
  - destruct (Z.of_nat n <? 5)%Z; [by right|left; by eexists].
  - destruct (Z.of_nat n <? 15)%Z; [by right|left; by eexists].
  - destruct (Z.of_nat n <? 20)%Z; [by right|left; by eexists].
Qed.

(** The loop over the strategies stops at the first evaluation or score
    that raises. *)
Lemma calc_loop_raises (x_cols : list string) (y_col : string) (data : DataFrame)
    (e : exn) (items : list (string * string)) :
  Forall (fun item =>
            (exists ys,
                cross_validation x_cols y_col 1234 item.1 data = (Ok ys, data) /\
                (is_ok (score ys.1 ys.2) \/ score ys.1 ys.2 = Raise e)) \/
            cross_validation x_cols y_col 1234 item.1 data = (Raise e, data))
         items ->
  Exists (fun item =>
            cross_validation x_cols y_col 1234 item.1 data = (Raise e, data))
         items ->
  forall r2_values,
    calc_loop x_cols y_col items r2_values data = (Raise e, data).
Proof.
  induction 1 as [|[validator name] items Hhead _ IH]; intros Hex r2_values.
  - inversion Hex.
  - cbn [Harness.calc_loop]. simpl in Hhead.
    destruct Hhead as [(ys & Hrun & [[s Hs]|Hs])|Hraise].
    + rewrite (bind_ok _ _ _ _ _ Hrun). unfold bind at 1, lift at 1. rewrite Hs.
      apply IH. inversion Hex as [? ? Hx|? ? Hx]; subst; [|done].
      simpl in Hx. rewrite Hrun in Hx. discriminate.
    + rewrite (bind_ok _ _ _ _ _ Hrun). unfold bind at 1, lift at 1.
      by rewrite Hs.
    + by rewrite (bind_raise _ _ _ _ _ Hraise).
Qed.

(** X14: the comparison needs at least 20 rows: on a table of 1 to 19 rows
    that has the columns asked for and a numeric target, with a learner
    that fits and predicts, [calc_R2s] fails with the value error of the
    first strategy that cannot split the rows; no partial mapping is
    returned and the table is left as it was. *)
Theorem calc_R2s_needs_20_rows
    (data selected : DataFrame) (x_cols : list string) (y_col : string)
    (v : list Qc) :
  (forall rs x y, 0 < nrows x -> is_ok (fit rs x y)) ->
  (forall m x, exists ys, predict m x = Ok ys /\ length ys = nrows x) ->
  wf_frame data ->
  1 <= nrows data < 20 ->
  loc_cols data x_cols = Ok selected ->
  get_col data y_col = Ok (NumCol v) ->
  calc_R2s x_cols y_col data = (Raise ValueError, data).
Proof.
  intros fit_total predict_total Hwf [H1 H20] Hsel Hget.
  destruct (get_dummies selected) as [mi|e0] eqn:Hmi.
  2: { unfold Harness.calc_R2s, validators. cbn [Harness.calc_loop].
       apply bind_raise. by eapply cross_validation_not_encoded. }
  pose proof (model_input_nrows _ _ _ _ Hsel Hmi) as Hrows.
  pose proof (wf_col_len _ _ _ Hwf Hget) as Hlen. unfold col_len in Hlen.
  assert (Hlearns : learns mi (cells (NumCol v)) 1234).
  { apply total_learns; [done|done| |lia|lia].
    by eapply get_dummies_wf; [eapply loc_cols_wf|]. }
  assert (Hpredict : forall m x ys, predict m x = Ok ys -> length ys = nrows x).
  { intros m x ys H. destruct (predict_total m x) as (ys' & H' & Hl). congruence. }
  assert (Hrun : forall validator,
             validator = "insample"%string \/
             (validator <> "insample"%string /\
              is_ok (emitted validator (nrows data))) ->
             exists ys,
               cross_validation x_cols y_col 1234 validator data = (Ok ys, data) /\
               (is_ok (score ys.1 ys.2) \/ score ys.1 ys.2 = Raise ValueError)).
  { intros validator Hv.
    destruct (run_returns _ _ _ data selected mi x_cols y_col 1234 (NumCol v)
                validator Hpredict Hwf Hsel Hmi Hget Hlearns Hv)
      as (y_pred & Hcv & _).
    exists (cells (NumCol v), y_pred). split; [done|].
    cbn [fst snd cells]. rewrite score_num. apply r2_score_ok_or_refused. }
  unfold Harness.calc_R2s. apply calc_loop_raises.
  - assert (Hcv : forall validator,
               validator ∈ ["loocv"; "5foldcv"; "15foldcv"; "20foldcv"]%string ->
               (exists ys,
                   cross_validation x_cols y_col 1234 validator data = (Ok ys, data) /\
                   (is_ok (score ys.1 ys.2) \/ score ys.1 ys.2 = Raise ValueError)) \/
               cross_validation x_cols y_col 1234 validator data
               = (Raise ValueError, data)).
    { intros validator Hin.
      assert (Hv : validator <> "insample"%string).
      { intros ->. repeat (apply elem_of_cons in Hin as [Hin|Hin]; [discriminate|]).
        by apply elem_of_nil in Hin. }
      destruct (emitted_ok_or_few validator (nrows data) Hin) as [Hok|Hfew].
      - left. apply Hrun. by right.
      - right. by eapply cross_validation_emitted_raise. }
    unfold validators.
    constructor; [simpl; left; apply Hrun; by left|].
    repeat (constructor;
            [simpl; apply Hcv; apply list_elem_of_In; simpl; tauto|]).
    constructor.
  - unfold validators. do 4 apply Exists_cons_tl. apply Exists_cons_hd. simpl.
    apply (cross_validation_emitted_raise data selected mi); [done|done|discriminate|].
    apply (emitted_too_few "20foldcv" 20); [simpl; tauto|lia].
Qed.

End HarnessEdgeFacts.

(** ** The final overview *)

Section OverviewFacts.
Import Frame Split Metrics Harness Columns Overview.
Local Open Scope list_scope.
Local Open Scope nat_scope.
Set Default Proof Using "Type".

Variable model : Type.
Variable fit : Z -> DataFrame -> Series -> result model.
Variable predict : model -> DataFrame -> result (list Qc).
Variable float_of_string : string -> option Qc.
Variable np_sum : list float -> float.

Abbreviation cross_validation := (Harness.cross_validation model fit predict).
Abbreviation calc_R2s := (Harness.calc_R2s model fit predict float_of_string np_sum).
Abbreviation model_scores := (Overview.model_scores model fit predict float_of_string np_sum).
Abbreviation scores_loop := (Overview.scores_loop model fit predict float_of_string np_sum).
Abbreviation learns := (Harness.learns model fit predict).

Lemma assoc_is_Some {V : Type} (k : string) (l : list (string * V)) :
  k ∈ map fst l -> is_Some (assoc k l).
Proof.
  induction l as [|[k' v] l IH]; simpl; intros Hin.
  - by apply elem_of_nil in Hin.
  - destruct (String.eqb_spec k k') as [->|Hne]; [by eexists|].
    apply elem_of_cons in Hin as [?|Hin]; [done|]. by apply IH.
Qed.

Lemma composition_cols_has_col (df : DataFrame) :
  Forall (has_col df) (composition_cols df).
Proof.
  apply Forall_forall. intros col Hin. unfold has_col. apply assoc_is_Some.
  unfold composition_cols in Hin.
  apply list_elem_of_In, filter_In in Hin as [Hin _]. by apply list_elem_of_In.
Qed.

Lemma loc_cols_ok (df : DataFrame) (x_cols : list string) :
  Forall (has_col df) x_cols -> is_ok (loc_cols df x_cols).
Proof.
  intros Hall. unfold loc_cols.
  destruct (rmapM_is_ok
              (fun name => rbind (get_col df name) (fun c => Ok (name, c))) x_cols)
    as [cs Hcs].
  - eapply Forall_impl; [exact Hall|]. intros name [c Hc]. unfold get_col.
    rewrite Hc. simpl. by eexists.
  - rewrite Hcs. simpl. by eexists.
Qed.

Lemma loc_cols_columns (df selected : DataFrame) (x_cols : list string) :
  loc_cols df x_cols = Ok selected -> map fst (cols selected) = x_cols.
Proof.
  unfold loc_cols. intros H. apply rbind_ok in H as (cs & Hcs & H).
  inversion H; subst selected. clear H. simpl.
  revert cs Hcs. induction x_cols as [|x x_cols IH]; intros cs Hcs; simpl in Hcs.
  - by inversion Hcs.
  - apply rbind_ok in Hcs as (nc & Hnc & Hcs).
    apply rbind_ok in Hcs as (cs' & Hcs' & Hcs). inversion Hcs; subst cs.
    apply rbind_ok in Hnc as (c & Hc & Hnc). inversion Hnc; subst nc.
    simpl. f_equal. by apply IH.
Qed.

Lemma calc_R2s_ok
    (data : DataFrame) (x_cols : list string) (y_col : string) (v : list Qc) :
  (forall m x ys, predict m x = Ok ys ->
                  length ys = nrows x /\ Forall in_range ys) ->
  (forall x_cols selected mi,
     loc_cols data x_cols = Ok selected -> get_dummies selected = Ok mi ->
     learns mi (map Num v) 1234) ->
  wf_frame data ->
  20 <= nrows data ->
  Forall (has_col data) x_cols ->
  x_cols <> [] ->
  get_col data y_col = Ok (NumCol v) ->
  Forall in_range v ->
  exists r2_values,
    calc_R2s x_cols y_col data = (Ok r2_values, data) /\ size r2_values = 5.
Proof.
  intros Hpredict Hlearns Hwf HN Hcols Hne Hget Hv.
  destruct (loc_cols_ok data x_cols Hcols) as [selected Hsel].
  assert (Hmi : get_dummies selected
                = Ok (mkDF (nrows selected)
                        (List.filter is_numeric (cols selected)
                         ++ flat_map dummies (cols selected)))).
  { apply get_dummies_columns. intros Hnil.
    apply loc_cols_columns in Hsel. rewrite Hnil in Hsel. by symmetry in Hsel. }
  destruct (calc_R2s_mapping _ _ _ float_of_string np_sum data selected _ x_cols
              y_col v Hpredict Hwf HN Hsel Hmi Hget Hv (Hlearns _ _ _ Hsel Hmi))
    as (r2_values & s1 & s2 & s3 & s4 & s5 & Hrun & _ & Hsize & _).
  by exists r2_values.
Qed.


(** X15: the score table: on a table of at least 20 rows that has a
    composition column, the temper column and the three derived columns,
    with a numeric target in float range and a learner that fits and
    predicts on every selection of columns and every partition, the
    overview cell fills [model_scores] with exactly four rows,
    "No Temper", "Temper", "Truncated" and "Split", each a mapping of five
    scores; the table is left as it was. *)
Theorem model_scores_table
    (data : DataFrame) (y_col : string) (v : list Qc) :
  (forall m x ys, predict m x = Ok ys ->
                  length ys = nrows x /\ Forall in_range ys) ->
  (forall x_cols selected mi,
     loc_cols data x_cols = Ok selected -> get_dummies selected = Ok mi ->
     learns mi (map Num v) 1234) ->
  wf_frame data ->
  20 <= nrows data ->
  get_col data y_col = Ok (NumCol v) ->
  Forall in_range v ->
  composition_cols data <> [] ->
  Forall (has_col data) ["temper"; "temper_truncated"; "temper_c0"; "temper_c1"]%string ->
  exists (table : gmap string (gmap string pyfloat)) (r1 r2 r3 r4 : gmap string pyfloat),
    model_scores (composition_cols data) y_col data = (Ok table, data) /\
    (forall case,
       table !! case
       = assoc case [ ("No Temper", r1); ("Temper", r2);
                      ("Truncated", r3); ("Split", r4) ]%string) /\
    size table = 4 /\
    Forall (fun r => size r = 5) [r1; r2; r3; r4] /\
    calc_R2s (composition_cols data) y_col data = (Ok r1, data) /\
    calc_R2s (paper_x_cols (composition_cols data)) y_col data = (Ok r2, data) /\
    calc_R2s (trunc_x_cols (composition_cols data)) y_col data = (Ok r3, data) /\
    calc_R2s (split_x_cols (composition_cols data)) y_col data = (Ok r4, data).
Proof.
  intros Hpredict Hlearns Hwf HN Hget Hv Hcomp Hderived.
  pose proof (composition_cols_has_col data) as Hcc.
  inversion Hderived as [|? ? Ht Hd1]; subst.
  inversion Hd1 as [|? ? Htt Hd2]; subst.
  inversion Hd2 as [|? ? Hc0 Hd3]; subst.
  inversion Hd3 as [|? ? Hc1 _]; subst.
  assert (Happ : forall l : list string, composition_cols data ++ l <> []).
  { intros l H. by apply app_eq_nil in H as [? _]. }
  destruct (calc_R2s_ok data (composition_cols data) y_col v)
    as (r1 & Hr1 & Hs1); try done.
  destruct (calc_R2s_ok data (paper_x_cols (composition_cols data)) y_col v)
    as (r2 & Hr2 & Hs2); try done.
  { apply Forall_app. split; [done|]. by repeat constructor. }
  { apply Happ. }
  destruct (calc_R2s_ok data (trunc_x_cols (composition_cols data)) y_col v)
    as (r3 & Hr3 & Hs3); try done.
  { apply Forall_app. split; [done|]. by repeat constructor. }
  { apply Happ. }
  destruct (calc_R2s_ok data (split_x_cols (composition_cols data)) y_col v)
    as (r4 & Hr4 & Hs4); try done.
  { apply Forall_app. split; [done|]. by repeat constructor. }
  { apply Happ. }
  eexists _, r1, r2, r3, r4. split; [|split; [|split; [|split]]].
  - unfold Overview.model_scores, case_columns, cases. cbn [zip zip_with].
    cbn [Overview.scores_loop].
    rewrite (bind_ok _ _ _ _ _ Hr1), (bind_ok _ _ _ _ _ Hr2),
      (bind_ok _ _ _ _ _ Hr3), (bind_ok _ _ _ _ _ Hr4).
    reflexivity.
  - intros case. rewrite !lookup_insert, lookup_empty. cbn [assoc].
    repeat case_decide; subst; try done;
      repeat match goal with
             | |- context [String.eqb ?a ?b] =>
                 destruct (String.eqb_spec a b); try done
             end.
  - reflexivity.
  - by repeat constructor.
  - done.
Qed.


End OverviewFacts.

(** ** More on the resampling strategies *)

Section SplitMoreFacts.
Import Split.
Local Open Scope list_scope.
Local Open Scope nat_scope.

Lemma KFold_split_proper (k : Z) (n : nat) (parts : list (list nat * list nat)) :
  (2 <= k)%Z -> KFold_split (mkKFold k) n = Ok parts ->
  Forall (proper_part n) parts.
Proof.
  intros Hk. unfold KFold_split. simpl.
  destruct (Z.ltb_spec (Z.of_nat n) k) as [?|Hle]; [discriminate|].
  intros Hs. inversion Hs; subst parts.
  unfold KFold_iter_test_indices, arange. simpl.
  assert (sum_list (fold_sizes (Z.to_nat k) n) = n) as Hsum
    by (apply fold_sizes_sum; lia).
  rewrite kfold_iter_runs, split_masks_runs by lia.
  apply runs_proper; [lia|]. apply fold_sizes_lt; lia.
Qed.

Lemma LeaveOneOut_split_proper (n : nat) (parts : list (list nat * list nat)) :
  LeaveOneOut_split n = Ok parts -> Forall (proper_part n) parts.
Proof.
  unfold LeaveOneOut_split, arange.
  destruct (Nat.leb_spec n 1) as [?|Hlt]; [discriminate|].
  intros H1. inversion H1; subst parts. rewrite split_masks_spec, map_map.
  apply Forall_forall. intros p Hp.
  apply list_elem_of_In, in_map_iff in Hp as (i & <- & Hi). apply in_seq in Hi.
  exists i, 1. split; [|lia]. f_equal.
  change [i] with (seq i 1). apply filter_seq_segment. lia.
Qed.

Lemma filter_split_Permutation {A : Type} (f : A -> bool) (l : list A) :
  List.filter (fun x => negb (f x)) l ++ List.filter f l ≡ₚ l.
Proof.
  induction l as [|x l IH]; simpl; [done|].
  destruct (f x); simpl.
  - rewrite <- Permutation_middle. by constructor.
  - by constructor.
Qed.

(** X17: no partition of any strategy lets a test row into its train rows:
    train and test rows are disjoint, together they are all the rows,
    each once, and the train rows are never empty. *)
Theorem partitions_do_not_leak
    (strategy : splitter) (n : nat) (parts : list (list nat * list nat)) :
  match strategy with
  | LeaveOneOut => True
  | KFoldCV kf => (2 <= n_splits kf)%Z
  end ->
  split strategy n = Ok parts ->
  Forall (fun p => p.1 ## p.2 /\ p.1 ++ p.2 ≡ₚ seq 0 n /\ p.1 <> []) parts.
Proof.
  intros Hk Hsplit.
  assert (Hproper : Forall (proper_part n) parts).
  { destruct strategy as [|[k]]; simpl in *.
    - by apply LeaveOneOut_split_proper.
    - by apply (KFold_split_proper k). }
  eapply Forall_impl; [exact Hproper|].
  intros p (cur & sz & -> & Hle & Hlt). simpl. split; [|split].
  - intros x Hx Hx'. apply list_elem_of_In, filter_In in Hx as [_ Hx].
    apply negb_true_iff, bool_decide_eq_false in Hx. done.
  - etrans;
      [|apply (filter_split_Permutation
                 (fun i => bool_decide (i ∈ seq cur sz)) (seq 0 n))].
    by rewrite filter_seq_segment.
  - intros Hnil.
    pose proof (filter_out_segment_length n cur sz Hle) as Hlen.
    rewrite Hnil in Hlen. simpl in Hlen. lia.
Qed.

Lemma runs_ones (n cur : nat) :
  runs cur (replicate n 1) = map (fun i => [i]) (seq cur n).
Proof.
  revert cur. induction n as [|n IH]; intros cur; simpl; [done|].
  f_equal. rewrite Nat.add_1_r. apply IH.
Qed.

(** X18: leave-one-out is k-fold with as many folds as rows. *)
Theorem LeaveOneOut_is_KFold_n (n : nat) :
  2 <= n -> LeaveOneOut_split n = run_KFold (Z.of_nat n) n.
Proof.
  intros Hn. unfold run_KFold, KFold_init.
  destruct (Z.leb_spec (Z.of_nat n) 1) as [?|_]; [lia|]. simpl.
  unfold KFold_split, LeaveOneOut_split. simpl.
  destruct (Nat.leb_spec n 1) as [?|_]; [lia|].
  rewrite Z.ltb_irrefl. f_equal.
  unfold KFold_iter_test_indices, arange. simpl. rewrite Nat2Z.id.
  assert (fold_sizes n n = replicate n 1) as Hsizes.
  { unfold fold_sizes. simpl.
    rewrite Nat.Div0.mod_same, Nat.div_same by lia. by rewrite drop_0. }
  rewrite Hsizes, kfold_iter_runs, runs_ones; [done|].
  rewrite sum_list_replicate. lia.
Qed.

Lemma fold_sizes_shape (k n : nat) :
  k <> 0 ->
  fold_sizes k n
  = replicate (n mod k) (n / k + 1) ++ replicate (k - n mod k) (n / k).
Proof.
  intros Hk. unfold fold_sizes. simpl.
  pose proof (Nat.mod_upper_bound n k Hk) as Hlt.
  rewrite take_replicate, drop_replicate, Nat.min_l by lia.
  f_equal. clear. rewrite Nat.add_1_r. generalize (n mod k). intros m.
  induction m; simpl; congruence.
Qed.

Lemma runs_lengths (sizes : list nat) (cur : nat) :
  map length (runs cur sizes) = sizes.
Proof.
  revert cur. induction sizes as [|sz sizes IH]; intros cur; simpl; [done|].
  by rewrite length_seq, IH.
Qed.

(** X19: the folds of [KFold(k)] on [n >= k] rows are balanced: the first
    [n mod k] test sets have [n / k + 1] rows and the others [n / k], so
    no test set is empty and two test sets differ by at most one row. *)
Theorem KFold_folds_balanced (k n : nat) (parts : list (list nat * list nat)) :
  2 <= k -> k <= n ->
  run_KFold (Z.of_nat k) n = Ok parts ->
  map (fun p => length p.2) parts
  = replicate (n mod k) (n / k + 1) ++ replicate (k - n mod k) (n / k) /\
  1 <= n / k /\
  Forall (fun p => n / k <= length p.2 <= n / k + 1) parts.
Proof.
  intros Hk Hn. unfold run_KFold, KFold_init.
  destruct (Z.leb_spec (Z.of_nat k) 1) as [?|_]; [lia|]. simpl.
  unfold KFold_split. simpl.
  destruct (Z.ltb_spec (Z.of_nat n) (Z.of_nat k)) as [?|_]; [lia|].
  intros H. inversion H; subst parts. clear H.
  unfold KFold_iter_test_indices, arange. simpl. rewrite Nat2Z.id.
  assert (Hsum : sum_list (fold_sizes k n) = n) by (apply fold_sizes_sum; lia).
  rewrite kfold_iter_runs, split_masks_runs by lia.
  assert (Hlens : map (fun p : list nat * list nat => length p.2)
                    (map (fun t => (List.filter
                                      (fun i => negb (bool_decide (i ∈ t)))
                                      (seq 0 n), t))
                         (runs 0 (fold_sizes k n)))
                  = replicate (n mod k) (n / k + 1)
                    ++ replicate (k - n mod k) (n / k)).
  { rewrite map_map. simpl. rewrite runs_lengths. apply fold_sizes_shape. lia. }
  split; [exact Hlens|]. split; [apply Nat.div_str_pos; lia|].
  apply Forall_forall. intros p Hp.
  assert (length p.2 ∈ replicate (n mod k) (n / k + 1)
                       ++ replicate (k - n mod k) (n / k)) as Hin.
  { rewrite <- Hlens. apply list_elem_of_In.
    apply (in_map (fun p : list nat * list nat => length p.2)).
    by apply list_elem_of_In. }
  apply elem_of_app in Hin as [Hin|Hin]; apply elem_of_replicate in Hin as [-> _]; lia.
Qed.

End SplitMoreFacts.

(** ** More on scoring *)

Section MetricsMoreFacts.
Import Metrics.
Local Open Scope list_scope.
Local Open Scope nat_scope.


End MetricsMoreFacts.

(** ** The encoder *)

Section EncoderFacts.
Import Frame.
Local Open Scope list_scope.

(** The order in which the categories of a string column are listed. *)
Abbreviation str_lt := (fun a b : string => String.compare a b = Lt).

Lemma ascii_compare_refl (a : ascii) : Ascii.compare a a = Eq.
Proof. unfold Ascii.compare. apply N.compare_refl. Qed.

Lemma string_compare_refl (s : string) : String.compare s s = Eq.
Proof. induction s as [|c s IH]; simpl; [done|]. by rewrite ascii_compare_refl. Qed.

Lemma string_compare_lt_trans (a b c : string) :
  String.compare a b = Lt -> String.compare b c = Lt -> String.compare a c = Lt.
Proof.
  revert b c. induction a as [|x a IH]; intros [|y b] [|z c]; simpl; try done.
  unfold Ascii.compare.
  destruct (N.compare_spec (N_of_ascii x) (N_of_ascii y)) as [Hxy|Hxy|Hxy];
    try done;
    destruct (N.compare_spec (N_of_ascii y) (N_of_ascii z)) as [Hyz|Hyz|Hyz];
    try done; intros H1 H2.
  - rewrite Hxy, Hyz, N.compare_refl. by apply (IH b c).
  - rewrite Hxy. by apply N.compare_lt_iff in Hyz as ->.
  - rewrite <- Hyz. by apply N.compare_lt_iff in Hxy as ->.
  - assert (N_of_ascii x < N_of_ascii z)%N as Hxz by lia.
    by apply N.compare_lt_iff in Hxz as ->.
Qed.

Lemma string_compare_gt (a b : string) :
  String.compare a b = Gt -> String.compare b a = Lt.
Proof. intros H. rewrite String.compare_antisym, H. done. Qed.

Lemma insert_cat_elem (s : string) (l : list string) (x : string) :
  x ∈ insert_cat s l <-> x = s \/ x ∈ l.
Proof.
  induction l as [|y l IH]; simpl.
  - rewrite elem_of_cons, elem_of_nil. tauto.
  - destruct (String.compare s y) eqn:Hc.
    + apply String.compare_eq_iff in Hc as ->. rewrite elem_of_cons. tauto.
    + rewrite !elem_of_cons. tauto.
    + rewrite !elem_of_cons, IH. tauto.
Qed.

Lemma insert_cat_sorted (s : string) (l : list string) :
  StronglySorted str_lt l -> StronglySorted str_lt (insert_cat s l).
Proof.
  induction 1 as [|y l Hl IH Hy]; simpl.
  - repeat constructor.
  - destruct (String.compare s y) eqn:Hc.
    + by constructor.
    + constructor; [by constructor|]. constructor; [done|].
      eapply Forall_impl; [exact Hy|]. intros z Hz. simpl in *.
      by apply (string_compare_lt_trans s y z).
    + constructor; [done|]. apply Forall_forall. intros z Hz.
      apply insert_cat_elem in Hz as [->|Hz].
      * by apply string_compare_gt.
      * rewrite Forall_forall in Hy. by apply Hy.
Qed.

Lemma str_sorted_NoDup (l : list string) : StronglySorted str_lt l -> NoDup l.
Proof.
  induction 1 as [|y l Hl IH Hy]; constructor; [|done].
  intros Hin. rewrite Forall_forall in Hy. specialize (Hy y Hin). simpl in Hy.
  by rewrite string_compare_refl in Hy.
Qed.

Lemma str_sorted_unique (l1 l2 : list string) :
  StronglySorted str_lt l1 -> StronglySorted str_lt l2 ->
  (forall x, x ∈ l1 <-> x ∈ l2) -> l1 = l2.
Proof.
  intros H1. revert l2. induction H1 as [|a l1 Hl1 IH Ha]; intros l2 H2 Hsame.
  - destruct l2 as [|b l2]; [done|]. exfalso.
    apply (not_elem_of_nil b). apply Hsame. left.
  - destruct H2 as [|b l2 Hl2 Hb].
    { exfalso. apply (not_elem_of_nil a). apply Hsame. left. }
    rewrite Forall_forall in Ha, Hb.
    assert (a = b) as ->.
    { assert (a ∈ b :: l2) as Hab by (apply Hsame; left).
      assert (b ∈ a :: l1) as Hba by (apply Hsame; left).
      apply elem_of_cons in Hab as [?|Hab]; [done|].
      apply elem_of_cons in Hba as [?|Hba]; [done|].
      specialize (Ha b Hba). specialize (Hb a Hab). simpl in *.
      pose proof (string_compare_lt_trans a b a Ha Hb) as Hrefl.
      by rewrite string_compare_refl in Hrefl. }
    f_equal. apply IH; [done|]. intros x. split; intros Hx.
    + assert (x ∈ b :: l2) as Hx' by (apply Hsame; by right).
      apply elem_of_cons in Hx' as [->|?]; [|done].
      specialize (Ha b Hx). simpl in Ha. by rewrite string_compare_refl in Ha.
    + assert (x ∈ b :: l1) as Hx' by (apply Hsame; by right).
      apply elem_of_cons in Hx' as [->|?]; [|done].
      specialize (Hb b Hx). simpl in Hb. by rewrite string_compare_refl in Hb.
Qed.

Lemma categories_sorted (v : list string) : StronglySorted str_lt (categories v).
Proof.
  unfold categories. induction v as [|x v IH]; simpl; [constructor|].
  by apply insert_cat_sorted.
Qed.

Lemma categories_elem (v : list string) (x : string) : x ∈ categories v <-> x ∈ v.
Proof.
  unfold categories. induction v as [|y v IH]; simpl; [done|].
  rewrite insert_cat_elem, elem_of_cons, IH. done.
Qed.

(** X23: the categories of a string column are its distinct values in
    increasing order; they depend on which values occur, not on the rows
    they occur in, so the indicator columns come out in the same order
    however the rows are arranged. *)
Theorem categories_reproducible (v v' : list string) :
  (forall x, x ∈ v <-> x ∈ v') ->
  StronglySorted str_lt (categories v) /\
  NoDup (categories v) /\
  (forall x, x ∈ categories v <-> x ∈ v) /\
  categories v = categories v'.
Proof.
  intros Hsame.
  split; [apply categories_sorted|].
  split; [apply str_sorted_NoDup, categories_sorted|].
  split; [apply categories_elem|].
  apply str_sorted_unique; [apply categories_sorted..|].
  intros x. by rewrite !categories_elem.
Qed.

Local Open Scope Qc_scope.

Lemma one_hot_sum (x : string) (cats : list string) :
  NoDup cats -> x ∈ cats ->
  Metrics.qsum (map (fun cat => if String.eqb x cat then 1 else 0) cats) = 1.
Proof.
  induction 1 as [|c cats Hc Hnd IH]; intros Hin.
  - by apply elem_of_nil in Hin.
  - cbn [map]. change (Metrics.qsum (?a :: ?r)) with (a + Metrics.qsum r).
    destruct (String.eqb_spec x c) as [->|Hne].
    + assert (Metrics.qsum (map (fun cat => if String.eqb c cat then 1 else 0) cats)
              = 0) as ->; [|ring].
      clear IH Hnd Hin. induction cats as [|d cats IH]; [done|].
      cbn [map]. change (Metrics.qsum (?a :: ?r)) with (a + Metrics.qsum r).
      destruct (String.eqb_spec c d) as [->|_].
      * exfalso. apply Hc. left.
      * rewrite IH; [ring|]. intros H. apply Hc. by right.
    + apply elem_of_cons in Hin as [?|Hin]; [done|]. rewrite IH by done. ring.
Qed.

(** X24: one-hot encoding: for every row of a string column, the indicator
    column of the row's own value holds 1 there, and the values that the
    row has in all the indicator columns of that column add up to 1; the
    indicator columns are named [<col>_<value>], one per category. *)
Theorem dummies_one_hot (name : string) (v : list string) (i : nat) (x : string) :
  v !! i = Some x ->
  map fst (dummies (name, ObjCol v))
  = map (fun cat => (name ++ "_" ++ cat)%string) (categories v) /\
  (name ++ "_" ++ x, indicator v x)%string ∈ dummies (name, ObjCol v) /\
  Forall (fun nc => exists vals q,
              nc.2 = NumCol vals /\ vals !! i = Some q /\ (q = 0 \/ q = 1))
         (dummies (name, ObjCol v)) /\
  Metrics.qsum
    (omap (fun nc : string * column =>
             match nc.2 with
             | NumCol vals => vals !! i
             | ObjCol _ => None
             end) (dummies (name, ObjCol v))) = 1.
Proof.
  intros Hi. unfold dummies. simpl.
  assert (Hx : x ∈ categories v).
  { apply categories_elem. apply list_elem_of_lookup. eauto. }
  assert (Hrow : forall cat,
             map (fun y => if String.eqb y cat then 1 else 0) v !! i
             = Some (if String.eqb x cat then 1 else 0)).
  { intros cat. change (map ?f ?l) with (f <$> l).
    by rewrite list_lookup_fmap, Hi. }
  split; [by rewrite map_map|]. split; [|split].
  - apply list_elem_of_In, in_map_iff. exists x. split; [done|].
    by apply list_elem_of_In.
  - apply Forall_forall. intros nc Hnc.
    apply list_elem_of_In, in_map_iff in Hnc as (cat & <- & _). simpl.
    eexists _, _. split; [reflexivity|]. split; [apply Hrow|].
    destruct (String.eqb x cat); tauto.
  - rewrite <- (one_hot_sum x (categories v));
      [|apply str_sorted_NoDup, categories_sorted|done].
    f_equal. generalize (categories v). intros cats.
    induction cats as [|cat cats IH]; [done|].
    cbn [map omap list_omap]. simpl. rewrite Hrow. simpl. f_equal. apply IH.
Qed.

Lemma dummies_numeric (nc : string * column) : Forall (fun d => is_numeric d = true) (dummies nc).
Proof.
  unfold dummies. destruct nc as [name [v|v]]; simpl; [constructor|].
  apply Forall_forall. intros d Hd.
  by apply list_elem_of_In, in_map_iff in Hd as (cat & <- & _).
Qed.

Lemma get_dummies_numeric_cols (l : list (string * column)) :
  Forall (fun d => is_numeric d = true) l ->
  List.filter is_numeric l ++ flat_map dummies l = l.
Proof.
  induction 1 as [|[name c] l Hc _ IH]; simpl; [done|].
  rewrite Hc. unfold is_numeric in Hc. simpl in Hc. unfold dummies at 1. simpl.
  destruct c; [|discriminate]. simpl. by rewrite IH.
Qed.

Lemma categories_nonempty (v : list string) : v <> [] -> categories v <> [].
Proof.
  destruct v as [|x v]; [done|]. intros _ Hnil.
  assert (x ∈ categories (x :: v)) as Hx by (apply categories_elem; left).
  rewrite Hnil in Hx. by apply elem_of_nil in Hx.
Qed.

Lemma get_dummies_inv (df encoded : DataFrame) :
  get_dummies df = Ok encoded ->
  cols df <> [] /\
  encoded = mkDF (nrows df)
              (List.filter is_numeric (cols df) ++ flat_map dummies (cols df)).
Proof.
  unfold get_dummies. destruct (cols df) eqn:Hc; intros H; [discriminate|].
  by inversion H.
Qed.

(** X25: where the encoder returns (the table has a column), it returns
    numeric columns only and keeps the row count; encoding the encoded
    table again changes nothing, unless all its columns are gone, which
    does not happen to a well-formed table with a row. *)
Theorem get_dummies_idempotent (df encoded : DataFrame) :
  get_dummies df = Ok encoded ->
  Forall (fun d => is_numeric d = true) (cols encoded) /\
  nrows encoded = nrows df /\
  (cols encoded <> [] -> get_dummies encoded = Ok encoded) /\
  (wf_frame df -> (0 < nrows df)%nat -> cols encoded <> []).
Proof.
  intros [Hne ->]%get_dummies_inv. cbn [cols nrows].
  assert (Hnum : Forall (fun d => is_numeric d = true)
                   (List.filter is_numeric (cols df) ++ flat_map dummies (cols df))).
  { apply Forall_app. split.
    - apply Forall_forall. intros d Hd.
      by apply list_elem_of_In, filter_In in Hd as [_ Hd].
    - apply Forall_forall. intros d Hd.
      apply list_elem_of_In, in_flat_map in Hd as (nc & _ & Hd).
      pose proof (dummies_numeric nc) as Hall. rewrite Forall_forall in Hall.
      by apply Hall, list_elem_of_In. }
  split; [exact Hnum|]. split; [done|]. split.
  - intros Hcols. unfold get_dummies. cbn [cols nrows].
    rewrite (get_dummies_numeric_cols _ Hnum).
    by destruct (List.filter is_numeric (cols df) ++ flat_map dummies (cols df)).
  - intros Hwf Hpos. unfold wf_frame in Hwf.
    destruct (cols df) as [|[name c] l]; [done|].
    inversion Hwf as [|? ? Hc _]; subst. unfold col_len in Hc.
    destruct c as [v|v]; simpl; [done|].
    unfold dummies at 1. simpl. cbn [snd cells] in Hc. rewrite length_map in Hc.
    assert (categories v <> []) as Hcat.
    { apply categories_nonempty. intros ->. simpl in Hc. lia. }
    destruct (categories v); [done|]. simpl.
    intros H. by apply app_eq_nil in H as [_ H].
Qed.

(** X26: a table with at least one column, all of them numeric, is its own
    encoding. *)
Theorem get_dummies_numeric_identity (df : DataFrame) :
  cols df <> [] ->
  Forall (fun d => is_numeric d = true) (cols df) -> get_dummies df = Ok df.
Proof.
  intros Hne Hnum. rewrite (get_dummies_columns df Hne).
  rewrite (get_dummies_numeric_cols _ Hnum). by destruct df.
Qed.

End EncoderFacts.

(** ** The temper groups *)

Section CountFacts.
Import Frame Counts.
Local Open Scope list_scope.
Local Open Scope nat_scope.
Set Default Proof Using "Type".

Variable sort_values : list (cell * nat) -> list (cell * nat).

(** The rows of [v] that carry the value [x]. *)
Abbreviation occurrences x v := (length (List.filter (String.eqb x) v)).

Lemma filter_length_Permutation {A : Type} (f : A -> bool) (l l' : list A) :
  l ≡ₚ l' -> length (List.filter f l) = length (List.filter f l').
Proof.
  induction 1 as [|x l l' _ IH|x y l|l l' l'' _ IH1 _ IH2]; simpl.
  - done.
  - destruct (f x); simpl; congruence.
  - destruct (f x), (f y); simpl; congruence.
  - congruence.
Qed.

Lemma small_group_rows_Permutation (l l' : list (cell * nat)) :
  l ≡ₚ l' -> small_group_rows l = small_group_rows l'.
Proof.
  intros Hperm. unfold small_group_rows, max_count, groups_of_size. simpl.
  by rewrite !(filter_length_Permutation _ l l' Hperm).
Qed.

Lemma sum_list_Permutation_snd (l l' : list (cell * nat)) :
  l ≡ₚ l' -> sum_list (map snd l) = sum_list (map snd l').
Proof.
  induction 1 as [|x l l' _ IH|x y l|l l' l'' _ IH1 _ IH2]; simpl; lia.
Qed.

Lemma group_size_Str (x : string) (v : list string) :
  group_size (Str x) (map Str v) = occurrences x v.
Proof.
  unfold group_size. induction v as [|y v IH]; simpl; [done|].
  destruct (String.eqb x y); simpl; congruence.
Qed.

Lemma small_group_rows_groups (n : string -> nat) (cats : list string) :
  small_group_rows (map (fun cat => (Str cat, n cat)) cats)
  = sum_list (map (fun cat => if n cat <=? 3 then n cat else 0) cats).
Proof.
  unfold small_group_rows, max_count, groups_of_size. simpl.
  induction cats as [|cat cats IH]; simpl in *; [done|].
  rewrite <- IH. clear IH.
  destruct (Nat.eqb_spec (n cat) 1), (Nat.eqb_spec (n cat) 2),
    (Nat.eqb_spec (n cat) 3), (Nat.leb_spec (n cat) 3); simpl; lia.
Qed.

Lemma sum_list_indicator (x : string) (b : bool) (cats : list string) :
  NoDup cats -> x ∈ cats ->
  sum_list (map (fun cat => if b && String.eqb cat x then 1 else 0) cats)
  = if b then 1 else 0.
Proof.
  destruct b; simpl.
  - induction 1 as [|c cats Hc Hnd IH]; intros Hin; [by apply elem_of_nil in Hin|].
    simpl. destruct (String.eqb_spec c x) as [->|Hne].
    + assert (sum_list (map (fun cat => if String.eqb cat x then 1 else 0) cats) = 0)
        as ->; [|done].
      clear IH Hin Hnd. induction cats as [|d cats IH]; [done|]. simpl.
      destruct (String.eqb_spec d x) as [->|_]; [exfalso; apply Hc; left|].
      apply IH. intros H. apply Hc. by right.
    + apply elem_of_cons in Hin as [?|Hin]; [done|]. by rewrite IH.
  - intros _ _. induction cats as [|c cats IH]; simpl; [done|]. by rewrite IH.
Qed.

Lemma sum_list_map_add {A : Type} (f g : A -> nat) (l : list A) :
  sum_list (map (fun a => f a + g a) l) = sum_list (map f l) + sum_list (map g l).
Proof. induction l as [|a l IH]; simpl; [done|]. rewrite IH. lia. Qed.

Lemma rows_by_category (P : string -> bool) (cats v : list string) :
  NoDup cats -> (forall x, x ∈ v -> x ∈ cats) ->
  length (List.filter P v)
  = sum_list (map (fun cat => if P cat then occurrences cat v else 0) cats).
Proof.
  intros Hnd. induction v as [|x v IH]; intros Hcover.
  - simpl. clear. induction cats as [|c cats IHc]; simpl; [done|].
    rewrite <- IHc. by destruct (P c).
  - assert (Hx : x ∈ cats) by (apply Hcover; left).
    assert (IH' := IH (fun y Hy => Hcover y (list_elem_of_further _ _ _ Hy))).
    assert (Hsplit :
              sum_list (map (fun cat => if P cat then occurrences cat (x :: v) else 0) cats)
              = sum_list (map (fun cat => if P cat then occurrences cat v else 0) cats)
                + sum_list (map (fun cat => if P x && String.eqb cat x then 1 else 0) cats)).
    { rewrite <- sum_list_map_add. f_equal. apply map_ext. intros c. simpl.
      destruct (String.eqb_spec c x) as [->|Hne].
      - destruct (P x); simpl; lia.
      - rewrite andb_false_r. destruct (P c); simpl; lia. }
    rewrite Hsplit, <- IH', (sum_list_indicator x (P x) cats Hnd Hx).
    simpl. destruct (P x); simpl; lia.
Qed.

(** X27: the number the percentage cell divides: [rows] is exactly the number
    of rows whose temper is shared by at most three rows, however
    [sort_values] arranges groups of equal size; the group sizes add up
    to the number of rows. *)
Theorem small_group_rows_counts_rows (df : DataFrame) (v : list string) :
  (forall l, sort_values l ≡ₚ l) ->
  has_col df "alloy name" ->
  get_col df "temper" = Ok (ObjCol v) ->
  exists tc,
    temper_counts sort_values df = Ok tc /\
    small_group_rows tc
    = length (List.filter (fun x => occurrences x v <=? 3) v) /\
    sum_list (map snd tc) = length v /\
    small_group_rows tc <= sum_list (map snd tc).
Proof.
  intros Hsort [a Ha] Hget.
  set (groups := map (fun cat => (Str cat, occurrences cat v)) (categories v)).
  assert (Hgroups : groupby_count df = Ok groups).
  { unfold groupby_count, loc_cols. simpl. unfold get_col in *. rewrite Ha.
    destruct (assoc "temper" (cols df)) as [c|]; [|discriminate].
    inversion Hget; subst c. simpl.
    f_equal. unfold groups. rewrite map_map. apply map_ext. intros cat.
    by rewrite group_size_Str. }
  assert (Hnd : NoDup (categories v))
    by apply str_sorted_NoDup, categories_sorted.
  assert (Hcover : forall x, x ∈ v -> x ∈ categories v)
    by (intros x; apply categories_elem).
  assert (Hrows : small_group_rows groups
                  = length (List.filter (fun x => occurrences x v <=? 3) v)).
  { unfold groups. rewrite small_group_rows_groups.
    by rewrite (rows_by_category (fun x => occurrences x v <=? 3) _ v Hnd Hcover). }
  assert (Htotal : sum_list (map snd groups) = length v).
  { unfold groups. rewrite map_map. simpl.
    pose proof (rows_by_category (fun _ => true) _ v Hnd Hcover) as H.
    simpl in H. rewrite <- H. clear. induction v; simpl; congruence. }
  exists (sort_values groups). unfold temper_counts. rewrite Hgroups. simpl.
  split; [done|].
  rewrite (small_group_rows_Permutation _ _ (Hsort groups)).
  rewrite (sum_list_Permutation_snd _ _ (Hsort groups)).
  split; [done|]. split; [done|].
  rewrite Hrows, Htotal. apply filter_length_le.
Qed.

End CountFacts.

(** ** The further properties on the sample data *)

Lemma cross_validation_as_map_witness :
  let data := Samples.alloys 7 in
  let x_cols := ["Cu (%)"; "temper"] in
  let yc := Frame.NumCol (Samples.targets 7) in
  Frame.wf_frame data /\
  Frame.loc_cols data x_cols = Ok (Samples.features 7) /\
  Frame.get_dummies (Samples.features 7) = Ok (Samples.encoded 7) /\
  Frame.get_col data "TYS" = Ok yc /\
  "5foldcv" <> "insample" /\
  Harness.emitted "5foldcv" (Frame.nrows data) = Ok Samples.folds_5_of_7 /\
  Harness.cross_validation nat Samples.count_fit Samples.count_predict
    x_cols "TYS" 1234%Z "5foldcv" data
  = (rbind (rmapM (Harness.fit_predict nat Samples.count_fit Samples.count_predict
                     (Samples.encoded 7) (Frame.cells yc) 1234%Z)
                  Samples.folds_5_of_7)
       (fun preds => Ok (Frame.cells yc, concat preds)),
     data).
Proof.
  intros data x_cols yc.
  assert (Hwf : Frame.wf_frame data) by (repeat constructor).
  assert (Hsel : Frame.loc_cols data x_cols = Ok (Samples.features 7))
    by reflexivity.
  assert (Hmi : Frame.get_dummies (Samples.features 7) = Ok (Samples.encoded 7))
    by reflexivity.
  assert (Hget : Frame.get_col data "TYS" = Ok yc) by reflexivity.
  assert (Hv : "5foldcv" <> "insample") by discriminate.
  assert (Hparts : Harness.emitted "5foldcv" (Frame.nrows data)
                   = Ok Samples.folds_5_of_7) by (vm_compute; reflexivity).
  repeat (split; [assumption|]).
  exact (cross_validation_as_map nat Samples.count_fit Samples.count_predict
           data (Samples.features 7) (Samples.encoded 7) x_cols "TYS" 1234%Z yc
           "5foldcv" Samples.folds_5_of_7 Hwf Hsel Hmi Hget Hv Hparts).
Defined.

Lemma unknown_validator_fails_witness :
  let selected := Frame.mkDF 7
    [("Cu (%)", Frame.NumCol (map (fun i => Samples.qz (Z.of_nat (i mod 4))) (seq 0 7)))] in
  Frame.loc_cols (Samples.alloys 7) ["Cu (%)"] = Ok selected /\
  Frame.get_dummies selected = Ok selected /\
  ("10foldcv" ∉ ["insample"; "loocv"; "5foldcv"; "15foldcv"; "20foldcv"]) /\
  Harness.cross_validation nat Samples.count_fit Samples.count_predict
    ["Cu (%)"] "TYS" 1234%Z "10foldcv" (Samples.alloys 7)
  = (Raise KeyError, Samples.alloys 7).
Proof.
  intros selected.
  assert (Hsel : Frame.loc_cols (Samples.alloys 7) ["Cu (%)"] = Ok selected)
    by reflexivity.
  assert (Hmi : Frame.get_dummies selected = Ok selected) by reflexivity.
  assert (Hv : "10foldcv" ∉ ["insample"; "loocv"; "5foldcv"; "15foldcv"; "20foldcv"]).
  { intros H. apply list_elem_of_In in H. simpl in H.
    destruct H as [H|[H|[H|[H|[H|[]]]]]]; discriminate. }
  split; [exact Hsel|]. split; [exact Hmi|]. split; [exact Hv|].
  exact (unknown_validator_fails nat Samples.count_fit Samples.count_predict
           (Samples.alloys 7) selected selected ["Cu (%)"] "TYS" 1234%Z
           "10foldcv" Hsel Hmi Hv).
Defined.

Lemma too_few_rows_fails_witness :
  Frame.loc_cols (Samples.alloys 7) ["Cu (%)"; "temper"] = Ok (Samples.features 7) /\
  In ("15foldcv", 15%nat)
     [("loocv", 2%nat); ("5foldcv", 5%nat); ("15foldcv", 15%nat); ("20foldcv", 20%nat)] /\
  (Frame.nrows (Samples.alloys 7) < 15)%nat /\
  Harness.cross_validation nat Samples.count_fit Samples.count_predict
    ["Cu (%)"; "temper"] "TYS" 1234%Z "15foldcv" (Samples.alloys 7)
  = (Raise ValueError, Samples.alloys 7).
Proof.
  assert (Hsel : Frame.loc_cols (Samples.alloys 7) ["Cu (%)"; "temper"]
                 = Ok (Samples.features 7)) by reflexivity.
  assert (Hin : In ("15foldcv", 15%nat)
                  [("loocv", 2%nat); ("5foldcv", 5%nat); ("15foldcv", 15%nat);
                   ("20foldcv", 20%nat)]) by (simpl; tauto).
  assert (Hn : (Frame.nrows (Samples.alloys 7) < 15)%nat) by (simpl; lia).
  repeat (split; [assumption|]).
  exact (too_few_rows_fails nat Samples.count_fit Samples.count_predict
           (Samples.alloys 7) (Samples.features 7) ["Cu (%)"; "temper"] "TYS"
           1234%Z "15foldcv" 15%nat Hsel Hin Hn).
Defined.

Lemma missing_target_fails_witness :
  Frame.loc_cols (Samples.alloys 7) ["Cu (%)"; "temper"] = Ok (Samples.features 7) /\
  Frame.get_dummies (Samples.features 7) = Ok (Samples.encoded 7) /\
  ~ Frame.has_col (Samples.alloys 7) "UTS" /\
  ("loocv" = "insample" \/
   is_ok (Harness.emitted "loocv" (Frame.nrows (Samples.alloys 7)))) /\
  Harness.cross_validation nat Samples.count_fit Samples.count_predict
    ["Cu (%)"; "temper"] "UTS" 1234%Z "loocv" (Samples.alloys 7)
  = (Raise KeyError, Samples.alloys 7).
Proof.
  assert (Hsel : Frame.loc_cols (Samples.alloys 7) ["Cu (%)"; "temper"]
                 = Ok (Samples.features 7)) by reflexivity.
  assert (Hmi : Frame.get_dummies (Samples.features 7) = Ok (Samples.encoded 7))
    by reflexivity.
  assert (Hmiss : ~ Frame.has_col (Samples.alloys 7) "UTS").
  { unfold Frame.has_col. simpl. intros [x Hx]. discriminate. }
  assert (Hv : "loocv" = "insample" \/
               is_ok (Harness.emitted "loocv" (Frame.nrows (Samples.alloys 7)))).
  { right. eexists. vm_compute. reflexivity. }
  repeat (split; [assumption|]).
  exact (missing_target_fails nat Samples.count_fit Samples.count_predict
           (Samples.alloys 7) (Samples.features 7) (Samples.encoded 7)
           ["Cu (%)"; "temper"] "UTS" 1234%Z "loocv" Hsel Hmi Hmiss Hv).
Defined.

Lemma cross_validation_aligned_witness :
  let data := Samples.alloys 7 in
  let x_cols := ["Cu (%)"; "temper"] in
  let yc := Frame.NumCol (Samples.targets 7) in
  (forall m x ys, Samples.count_predict m x = Ok ys -> length ys = Frame.nrows x) /\
  Frame.wf_frame data /\
  Frame.loc_cols data x_cols = Ok (Samples.features 7) /\
  Frame.get_col data "TYS" = Ok yc /\
  Harness.cross_validation nat Samples.count_fit Samples.count_predict
    x_cols "TYS" 1234%Z "5foldcv" data
  = (Ok (map Frame.Num (Samples.targets 7), concat Samples.counts_5_of_7), data) /\
  data = data /\
  map Frame.Num (Samples.targets 7) = Frame.cells yc /\
  length (concat Samples.counts_5_of_7) = Frame.nrows data /\
  length (map Frame.Num (Samples.targets 7)) = Frame.nrows data.
Proof.
  intros data x_cols yc.
  assert (Hpredict : forall m x ys,
             Samples.count_predict m x = Ok ys -> length ys = Frame.nrows x).
  { intros m x ys H. inversion H. apply length_replicate. }
  assert (Hwf : Frame.wf_frame data) by (repeat constructor).
  assert (Hsel : Frame.loc_cols data x_cols = Ok (Samples.features 7))
    by reflexivity.
  assert (Hget : Frame.get_col data "TYS" = Ok yc) by reflexivity.
  assert (Hrun : Harness.cross_validation nat Samples.count_fit
                   Samples.count_predict x_cols "TYS" 1234%Z "5foldcv" data
                 = (Ok (map Frame.Num (Samples.targets 7),
                        concat Samples.counts_5_of_7), data))
    by (vm_compute; reflexivity).
  repeat (split; [assumption|]).
  exact (cross_validation_aligned nat Samples.count_fit Samples.count_predict
           data (Samples.features 7) data x_cols "TYS" 1234%Z yc "5foldcv"
           _ _ Hpredict Hwf Hsel Hget Hrun).
Defined.

Lemma calc_R2s_needs_20_rows_witness :
  let data := Samples.alloys 7 in
  let x_cols := ["Cu (%)"; "temper"] in
  (forall rs x y, (0 < Frame.nrows x)%nat -> is_ok (Samples.count_fit rs x y)) /\
  (forall m x, exists ys,
      Samples.count_predict m x = Ok ys /\ length ys = Frame.nrows x) /\
  Frame.wf_frame data /\
  (1 <= Frame.nrows data < 20)%nat /\
  Frame.loc_cols data x_cols = Ok (Samples.features 7) /\
  Frame.get_col data "TYS" = Ok (Frame.NumCol (Samples.targets 7)) /\
  Harness.calc_R2s nat Samples.count_fit Samples.count_predict Samples.no_float
    Samples.sum_in_order x_cols "TYS" data = (Raise ValueError, data).
Proof.
  intros data x_cols.
  assert (Hfit : forall rs x y, (0 < Frame.nrows x)%nat ->
                                is_ok (Samples.count_fit rs x y))
    by (intros rs x y _; eexists; reflexivity).
  assert (Hpredict : forall m x, exists ys,
             Samples.count_predict m x = Ok ys /\ length ys = Frame.nrows x)
    by (intros m x; eexists; split; [reflexivity|apply length_replicate]).
  assert (Hwf : Frame.wf_frame data) by (repeat constructor).
  assert (HN : (1 <= Frame.nrows data < 20)%nat) by (simpl; lia).
  assert (Hsel : Frame.loc_cols data x_cols = Ok (Samples.features 7))
    by reflexivity.
  assert (Hget : Frame.get_col data "TYS" = Ok (Frame.NumCol (Samples.targets 7)))
    by reflexivity.
  repeat (split; [assumption|]).
  exact (calc_R2s_needs_20_rows nat Samples.count_fit Samples.count_predict
           Samples.no_float Samples.sum_in_order data (Samples.features 7)
           x_cols "TYS" (Samples.targets 7) Hfit Hpredict Hwf HN Hsel Hget).
Defined.

Lemma capped_learns_selection (data selected mi : Frame.DataFrame)
    (x_cols : list string) (v : list Qc) :
  Frame.wf_frame data -> length v = Frame.nrows data ->
  (0 < Frame.nrows data)%nat ->
  Frame.loc_cols data x_cols = Ok selected ->
  Frame.get_dummies selected = Ok mi ->
  Harness.learns nat Samples.count_fit Samples.capped_predict mi
    (map Frame.Num v) 1234.
Proof.
  intros Hwf Hlen Hpos Hsel Hmi.
  pose proof (model_input_nrows _ _ _ _ Hsel Hmi) as Hrows.
  apply capped_learns.
  - eapply get_dummies_wf; [|exact Hmi]. by eapply loc_cols_wf.
  - rewrite length_map. congruence.
  - lia.
Qed.

Lemma model_scores_table_witness :
  let data := MoreSamples.derived_alloys in
  (forall m x ys, Samples.capped_predict m x = Ok ys ->
                  length ys = Frame.nrows x /\ Forall Metrics.in_range ys) /\
  (forall x_cols selected mi,
     Frame.loc_cols data x_cols = Ok selected ->
     Frame.get_dummies selected = Ok mi ->
     Harness.learns nat Samples.count_fit Samples.capped_predict mi
       (map Frame.Num (Samples.targets 20)) 1234) /\
  Frame.wf_frame data /\
  (20 <= Frame.nrows data)%nat /\
  Frame.get_col data "TYS" = Ok (Frame.NumCol (Samples.targets 20)) /\
  Forall Metrics.in_range (Samples.targets 20) /\
  Columns.composition_cols data <> [] /\
  Forall (Frame.has_col data) ["temper"; "temper_truncated"; "temper_c0"; "temper_c1"] /\
  exists (table : gmap string (gmap string Metrics.pyfloat))
         (r1 r2 r3 r4 : gmap string Metrics.pyfloat),
    Overview.model_scores nat Samples.count_fit Samples.capped_predict
      Samples.no_float Samples.sum_in_order (Columns.composition_cols data)
      "TYS" data
    = (Ok table, data) /\
    (forall case,
       table !! case
       = Frame.assoc case [ ("No Temper", r1); ("Temper", r2);
                            ("Truncated", r3); ("Split", r4) ]) /\
    size table = 4%nat /\
    Forall (fun r => size r = 5%nat) [r1; r2; r3; r4] /\
    Harness.calc_R2s nat Samples.count_fit Samples.capped_predict Samples.no_float
      Samples.sum_in_order (Columns.composition_cols data) "TYS" data
    = (Ok r1, data) /\
    Harness.calc_R2s nat Samples.count_fit Samples.capped_predict Samples.no_float
      Samples.sum_in_order (Columns.paper_x_cols (Columns.composition_cols data))
      "TYS" data
    = (Ok r2, data) /\
    Harness.calc_R2s nat Samples.count_fit Samples.capped_predict Samples.no_float
      Samples.sum_in_order (Columns.trunc_x_cols (Columns.composition_cols data))
      "TYS" data
    = (Ok r3, data) /\
    Harness.calc_R2s nat Samples.count_fit Samples.capped_predict Samples.no_float
      Samples.sum_in_order (Columns.split_x_cols (Columns.composition_cols data))
      "TYS" data
    = (Ok r4, data).
Proof.
  intros data.
  assert (Hpredict : forall m x ys, Samples.capped_predict m x = Ok ys ->
             length ys = Frame.nrows x /\ Forall Metrics.in_range ys)
    by exact capped_predict_shape.
  assert (Hwf : Frame.wf_frame data) by (repeat constructor).
  assert (HN : (20 <= Frame.nrows data)%nat) by (simpl; lia).
  assert (Hlearns : forall x_cols selected mi,
             Frame.loc_cols data x_cols = Ok selected ->
             Frame.get_dummies selected = Ok mi ->
             Harness.learns nat Samples.count_fit Samples.capped_predict mi
               (map Frame.Num (Samples.targets 20)) 1234).
  { intros x_cols selected mi.
    apply capped_learns_selection; [exact Hwf|reflexivity|simpl; lia]. }
  assert (Hget : Frame.get_col data "TYS" = Ok (Frame.NumCol (Samples.targets 20)))
    by reflexivity.
  assert (Hv : Forall Metrics.in_range (Samples.targets 20))
    by (repeat constructor; vm_compute; reflexivity).
  assert (Hcomp : Columns.composition_cols data <> []) by discriminate.
  assert (Hderived : Forall (Frame.has_col data)
                       ["temper"; "temper_truncated"; "temper_c0"; "temper_c1"]).
  { repeat (apply List.Forall_cons; [eexists; reflexivity|]). constructor. }
  repeat (split; [assumption|]).
  exact (model_scores_table nat Samples.count_fit Samples.capped_predict
           Samples.no_float Samples.sum_in_order data "TYS" (Samples.targets 20)
           Hpredict Hlearns Hwf HN Hget Hv Hcomp Hderived).
Defined.


Lemma partitions_do_not_leak_witness :
  let parts := [ ([3; 4; 5; 6], [0; 1; 2]);
                 ([0; 1; 2; 5; 6], [3; 4]);
                 ([0; 1; 2; 3; 4], [5; 6]) ]%nat in
  (2 <= Split.n_splits (Split.mkKFold 3))%Z /\
  Split.split (Split.KFoldCV (Split.mkKFold 3)) 7 = Ok parts /\
  Forall (fun p => p.1 ## p.2 /\ p.1 ++ p.2 ≡ₚ seq 0 7 /\ p.1 <> []) parts.
Proof.
  intros parts.
  assert (Hk : (2 <= Split.n_splits (Split.mkKFold 3))%Z) by (simpl; lia).
  assert (Hsplit : Split.split (Split.KFoldCV (Split.mkKFold 3)) 7 = Ok parts)
    by reflexivity.
  split; [exact Hk|]. split; [exact Hsplit|].
  exact (partitions_do_not_leak (Split.KFoldCV (Split.mkKFold 3)) 7 parts
           Hk Hsplit).
Defined.

Lemma LeaveOneOut_is_KFold_n_witness :
  (2 <= 4)%nat /\ Split.LeaveOneOut_split 4 = Split.run_KFold (Z.of_nat 4) 4.
Proof.
  assert (H : (2 <= 4)%nat) by lia.
  split; [exact H|]. exact (LeaveOneOut_is_KFold_n 4 H).
Defined.

Lemma KFold_folds_balanced_witness :
  let parts := [ ([3; 4; 5; 6], [0; 1; 2]);
                 ([0; 1; 2; 5; 6], [3; 4]);
                 ([0; 1; 2; 3; 4], [5; 6]) ]%nat in
  (2 <= 3)%nat /\ (3 <= 7)%nat /\
  Split.run_KFold (Z.of_nat 3) 7 = Ok parts /\
  map (fun p => length p.2) parts
  = (replicate (7 mod 3) (7 / 3 + 1)%nat ++ replicate (3 - 7 mod 3) (7 / 3)%nat)%list /\
  (1 <= 7 / 3)%nat /\
  Forall (fun p => (7 / 3 <= length p.2 <= 7 / 3 + 1)%nat) parts.
Proof.
  intros parts.
  assert (H2 : (2 <= 3)%nat) by lia.
  assert (H3 : (3 <= 7)%nat) by lia.
  assert (Hrun : Split.run_KFold (Z.of_nat 3) 7 = Ok parts) by reflexivity.
  repeat (split; [assumption|]).
  exact (KFold_folds_balanced 3 7 parts H2 H3 Hrun).
Defined.


Lemma categories_reproducible_witness :
  let v := ["T6"; "O"; "T6"; "H14"] in
  let v' := ["H14"; "T6"; "O"] in
  (forall x, x ∈ v <-> x ∈ v') /\
  StronglySorted (fun a b => String.compare a b = Lt) (Frame.categories v) /\
  NoDup (Frame.categories v) /\
  (forall x, x ∈ Frame.categories v <-> x ∈ v) /\
  Frame.categories v = Frame.categories v'.
Proof.
  intros v v'.
  assert (Hsame : forall x, x ∈ v <-> x ∈ v').
  { intros x. unfold v, v'. rewrite !elem_of_cons, !elem_of_nil. tauto. }
  split; [exact Hsame|].
  exact (categories_reproducible v v' Hsame).
Defined.

Lemma dummies_one_hot_witness :
  let v := ["T6"; "O"; "T6"] in
  v !! 1%nat = Some "O" /\
  map fst (Frame.dummies ("temper", Frame.ObjCol v))
  = map (fun cat => "temper" ++ "_" ++ cat) (Frame.categories v) /\
  ("temper" ++ "_" ++ "O", Frame.indicator v "O")
    ∈ Frame.dummies ("temper", Frame.ObjCol v) /\
  Forall (fun nc => exists vals q,
              nc.2 = Frame.NumCol vals /\ vals !! 1%nat = Some q /\
              (q = Q2Qc 0 \/ q = Q2Qc 1))
         (Frame.dummies ("temper", Frame.ObjCol v)) /\
  Metrics.qsum
    (omap (fun nc : string * Frame.column =>
             match nc.2 with
             | Frame.NumCol vals => vals !! 1%nat
             | Frame.ObjCol _ => None
             end) (Frame.dummies ("temper", Frame.ObjCol v))) = Q2Qc 1.
Proof.
  intros v.
  assert (Hi : v !! 1%nat = Some "O") by reflexivity.
  split; [exact Hi|].
  exact (dummies_one_hot "temper" v 1 "O" Hi).
Defined.

Lemma get_dummies_idempotent_witness :
  let df := Samples.features 7 in
  let encoded := Samples.encoded 7 in
  Frame.get_dummies df = Ok encoded /\
  Forall (fun d => Frame.is_numeric d = true) (Frame.cols encoded) /\
  Frame.nrows encoded = Frame.nrows df /\
  (Frame.cols encoded <> [] -> Frame.get_dummies encoded = Ok encoded) /\
  (Frame.wf_frame df -> (0 < Frame.nrows df)%nat -> Frame.cols encoded <> []).
Proof.
  intros df encoded.
  assert (H : Frame.get_dummies df = Ok encoded) by reflexivity.
  split; [exact H|].
  exact (get_dummies_idempotent df encoded H).
Defined.

Lemma get_dummies_numeric_identity_witness :
  let df := Frame.mkDF 2 [ ("Cu (%)", Frame.NumCol [Samples.qz 4; Samples.qz 1]);
                           ("TYS", Frame.NumCol [Samples.qz 250; Samples.qz 90]) ] in
  Frame.cols df <> [] /\
  Forall (fun d => Frame.is_numeric d = true) (Frame.cols df) /\
  Frame.get_dummies df = Ok df.
Proof.
  intros df.
  assert (Hne : Frame.cols df <> []) by discriminate.
  assert (Hnum : Forall (fun d => Frame.is_numeric d = true) (Frame.cols df))
    by (repeat constructor).
  split; [exact Hne|]. split; [exact Hnum|].
  exact (get_dummies_numeric_identity df Hne Hnum).
Defined.

Lemma sort_by_count_Permutation (l : list (Frame.cell * nat)) :
  MoreSamples.sort_by_count l ≡ₚ l.
Proof.
  unfold MoreSamples.sort_by_count.
  induction l as [|g l IH]; simpl; [done|].
  rewrite <- IH at 2. generalize (foldr MoreSamples.insert_by_count [] l).
  intros s. induction s as [|h s IHs]; simpl; [done|].
  destruct (h.2 <? g.2)%nat; [done|].
  rewrite IHs. apply Permutation_swap.
Qed.

Example temper_counts_of_named_alloys :
  Counts.temper_counts MoreSamples.sort_by_count MoreSamples.named_alloys
  = Ok [ (Frame.Str "T6", 2%nat); (Frame.Str "T4", 1%nat);
         (Frame.Str "O", 1%nat); (Frame.Str "H14", 1%nat) ].
Proof. reflexivity. Qed.

Lemma small_group_rows_counts_rows_witness :
  let v := ["O"; "H14"; "T6"; "T4"; "T6"] in
  (forall l, MoreSamples.sort_by_count l ≡ₚ l) /\
  Frame.has_col MoreSamples.named_alloys "alloy name" /\
  Frame.get_col MoreSamples.named_alloys "temper" = Ok (Frame.ObjCol v) /\
  exists tc,
    Counts.temper_counts MoreSamples.sort_by_count MoreSamples.named_alloys = Ok tc /\
    Counts.small_group_rows tc
    = length (List.filter
                (fun x => (length (List.filter (String.eqb x) v) <=? 3)%nat) v) /\
    sum_list (map snd tc) = length v /\
    (Counts.small_group_rows tc <= sum_list (map snd tc))%nat.
Proof.
  intros v.
  assert (Ha : Frame.has_col MoreSamples.named_alloys "alloy name")
    by (eexists; reflexivity).
  assert (Hget : Frame.get_col MoreSamples.named_alloys "temper"
                 = Ok (Frame.ObjCol v)) by reflexivity.
  split; [exact sort_by_count_Permutation|]. split; [exact Ha|].
  split; [exact Hget|].
  exact (small_group_rows_counts_rows MoreSamples.sort_by_count
           MoreSamples.named_alloys v sort_by_count_Permutation Ha Hget).
Defined.
